(* ===== verification/_CoqProject ===== *)
-Q . S2P
Spec2Rocq.v
Data.v
Cart.v
Pagination.v
JsString.v
Csv.v
Catalog.v
Query.v
App.v
PWA.v
Order.v
Pages.v
Routing.v
Widgets.v
Screens.v
