(* ===== verification/Spec2Rocq.v ===== *)
(** * A verification development of the Gn store web client (gngoongoog/v7new)

    The repository is a React single-page storefront.  Its logic lives in
    two service singletons, two hooks and one reducer context:

    - [src/src/services/cartService.js] ([CartService]): the shopping
      cart, an ordered list of line items mirrored after every mutation
      into the browser's [localStorage] under [electronics_store_cart];
    - [src/src/services/googleSheetsService.js] ([GoogleSheetsService]):
      the catalog source.  It downloads a Google-Sheets CSV export, parses
      it ([csvToJson], [parseCSVLine]) into product objects, keeps an
      in-memory cache with a 5 minute freshness window and a durable copy
      under [products_cache], and falls back to that copy, then to 150
      random sample products, when the download fails;
    - [src/src/hooks/usePagination.js] and the inline page-range builder of
      [src/src/pages/HomePage.jsx]: page windows, page counts and the
      compressed page list with ellipses;
    - [src/src/hooks/useProductFilter.js] and [getFilteredProducts] of
      [src/src/context/AppContext.jsx]: the two product query pipelines
      (search, category, price range, stock, six sort orders);
    - [src/src/context/AppContext.jsx] ([appReducer], [AppProvider]): the
      application state and its actions; the cart actions call the cart
      service from inside the reducer and store the array it returns.

    Components interact through calls only: the reducer calls the cart
    service, [loadInitialData] calls the catalog service twice (products,
    then categories, each going through the cache), the pages call the
    functions of the context value (what [useApp()] returns: the state's
    fields and seventeen functions; the provider's [setFilters],
    [setSortBy] and [loadCart] are not among them) and the query
    functions, and the components pass callbacks to their children.  The cart service and the
    catalog service share the browser's [localStorage] (two keys, one
    quota).

    ** Files of the development, in dependency order

    - [Spec2Rocq.v] (this file): the prelude.  The scope [js_scope] with
      JavaScript's truthiness ([Truthy], [js_truthy]) and [a ?? d]
      defaulting, the hint database [store], the tactics [zbool] and
      [case_if], generic lemmas on left folds, [List.find],
      [List.filter], [slice] and integer ranges shared by the components,
      and [push_upto], a [for (i = lo; i <= hi; i++) acc.push(i)] loop
      run on fuel, with [loop_fuel], the fuel that is enough.
    - [Data.v]: the records the code passes around: [Product] (the object
      built by [csvToJson] and [getFallbackData]), [CartItem] (the literal
      pushed by [addToCart]), and the browser's [localStorage] as a record
      of typed slots ([slot]) with a quota flag.
    - [Cart.v]: [Module CartService]: one definition per method of
      [cartService.js] ([loadCart], [saveCart], [addToCart],
      [removeFromCart], [updateQuantity], [getCartItemsCount],
      [getCartTotal], [isInCart], [getProductQuantity], [clearCart]) over
      the state record [service] (the [cart] field and the storage it
      writes through).  Theorems: the well-formedness invariant (one line
      per id, positive quantities) and its preservation, the functional
      behaviour of every operation on every branch, the mirror invariant
      between the cart and its storage slot and the reload round trip,
      and a refinement of the list by an abstract [gmap Z Z] from product
      id to quantity.
    - [Pagination.v]: [usePagination]'s window ([currentData] as JS
      [Array.prototype.slice]), [totalPages], the page moves and both
      page-range builders, with the partition theorem (the pages
      concatenate to the data), the page-size bounds, the equivalence
      of the two range builders with one reference definition, and the
      termination of their [for] loops.
    - [JsString.v]: the JavaScript string primitives the code calls, on
      Rocq strings of bytes (UTF-8 for the Arabic text): [split], [join],
      [trim] and [toLowerCase] (ASCII white space and letters),
      [includes], the global [replace] of one character, [parseInt] and
      [parseFloat] as ECMAScript defines them (sign, [0x], digit prefix;
      decimal literal prefix, [Infinity], [NaN]), [String(n)], and
      [encodeURIComponent] on bytes, with [decodeURIComponent] as the
      receiver of a link reads it.  Round trips: [split] inverts [join],
      [parseInt(String(n)) = n], and [decodeURIComponent] inverts
      [encodeURIComponent].
    - [Csv.v]: [Module CsvParsing]: [parseCSVLine] as a step function
      over its loop state, [csvToJson] building a [gmap string jsval] per
      row.  Theorems: [parseCSVLine] inverts the rendering of a row
      (quoted commas included); [csvToJson] of a sheet export gives back
      the admitted products in order; every object it returns has the
      header's keys with the declared types; no parsed cell keeps a quote.
    - [Catalog.v]: [Module SheetsService]: the service state (the memory
      cache), [fetchProducts] over an environment (the clock before and
      after the request, the response or its failure, the stream of
      [Math.random()] draws) returning an outcome (resolved or rejected),
      the new state and the new storage; [getFallbackData]; the derived
      views; [setSheetId] and [clearCache].  Theorems: freshness (a second
      call within five minutes changes nothing), the download branch, the
      fallback order and the rejection on a corrupt copy, the lost
      download when the durable write fails, the stale durable copy after
      [setSheetId], the bounds of the sample data, [getCategories]
      (each category once, in the order of first appearance).
    - [Query.v]: [Module StableSort] (insertion sort with a comparator:
      a permutation, sorted for a consistent comparator, the identity for
      a comparator that never orders, stable for a comparator whose
      equalities are symmetric and transitive) and [Module ProductFilter]
      ([useProductFilter]: its state and setters, categories, price range
      and [filteredAndSortedProducts]).  Theorems: the result is a
      permutation of the products that pass the filters; the
      four ordering choices each sort by their key in their direction
      and keep the catalogue order among equal keys; [newest] and
      [popular] keep the catalogue order.
    - [App.v]: [Module AppContext] ([appReducer] calling the cart service,
      the [world] of the context state, the cart service and the sheets
      service over one storage, [loadInitialData] as its awaited steps,
      [loadCart], [refreshData], the mount, the dispatching functions as
      [provider_op], the context value ([value_functions], [exported],
      [member]: a function the value lacks reads as [undefined]) and the
      sessions the value's functions reach as [reachable],
      [getFilteredProducts] with its in-place sort); the home page
      composition, and the handlers of the header, the product and cart
      pages, the product card and the pagination buttons.  Theorems: the
      context's cart mirrors the service in every reachable session; the
      context's filters and sort order never leave their initial values;
      the first load; the retry after a failed load; and the behaviours
      of the home listing (the page not reset, the [inStock] filter,
      [newest], the stability of the in-place sort).
    - [PWA.v]: [Module UsePWA]: the three state variables of [usePWA],
      its event handlers and [installApp] split at its [await], as a step
      relation with reachability; the install prompt's render guard and
      dismiss button.  Theorems: [isInstallable] holds exactly when a
      deferred prompt is kept, in every reachable state; installation is
      never undone; the dismiss button changes nothing on screen.
    - [Order.v]: [Module OrderMessage]: the WhatsApp order message and
      link of [cartService.js], with [formatPrice] a parameter, and
      [sendOrderToWhatsApp], with [window.open] appending to the list of
      the URLs the browser opened; the text parameter of the link is
      URL-safe.
    - [Pages.v]: how the pages compose the context.  [Module ProductGrid]
      ([ProductGrid.jsx] with its own [usePagination(products, 100)] and
      its reset effect); [Module HomePageView] (the home page's title,
      empty message, pagination props, section guards and mount effect);
      [Module Startup] (the first commit on [/]: React runs [HomePage]'s
      effect, which calls [refreshData()], before [AppProvider]'s, so two
      loads are in flight); [Module ProductDetailPage] (the detail page's
      [quantity] state and its buttons' guards); [Module CartPageView]
      and [Module HeaderView] (the cart page's lines and summary, the
      header's state and cart badge); [Module Session] (the
      events of the product card, the detail page, the cart page and the
      other components as a relation [session] on the world and the
      detail page's state).  Theorems: every session keeps the cart well
      formed and mirrored and the selected quantity at least 1, so the
      pages only make the calls [Cart.v]'s invariant assumes; the grid on
      the home page shows exactly the home page's page with no pager of
      its own; the cart page and the header's badge agree with the lines
      listed; opening [/] offline loses the durable catalogue copy; the
      cart page's plus button has no stock bound; the home page's range
      label counts the products it shows.
    - [Routing.v]: the application shell.  [Module Routes] ([App.jsx]'s
      route table as a function from a path to a page, and the card's
      link), [Module ProductCardView] (the card's link, badges and add
      button), [Module WhatsAppButton] and [Module Checkout] (the
      context's [sendOrderToWhatsApp] and the cart page's
      [handleCheckout]).  Theorems: a card's link opens the detail page
      of that product; a checkout opens exactly one link, whose text
      decodes to the order listing the cart the page shows; a product
      with a negative stock can be neither bought nor shown as out of
      stock.
    - [Widgets.v]: [Module Icons] (the [categoryIcons] table), [Module
      FilterSort] ([FilterSort.jsx]: its props, with a callback as an
      optional function, its three state variables, its handlers, whose
      call of an [undefined] callback throws a [TypeError] and ends the
      handler, the show/hide toggle and what it renders, and the props
      [HomePage] passes), [Module FeaturedSlider] (the slider's effect
      and render) and [Module HeaderMenu] (the header's render and the
      links of its mobile menu).  Theorems: every handler of the home
      page's filter panel throws and leaves the world as it was; a
      category entry of the menu leads to the home page listing that
      category, ordered by name.
    - [Screens.v]: [Module HomeScreen], [Module DetailScreen] and [Module
      CartScreen], what the three pages render from the context and their
      components' state (the home page's error screen, landing sections,
      filter panel, grid and pager props; the detail page's skeleton,
      not-found page and product, with the image fallback; the cart
      page's lines with their links and the summary), [Module PagerView]
      ([Pagination.jsx]'s controls) and [Module Layout] ([App]: the
      header, the page of the path's [pathname], the install prompt's
      buttons and the WhatsApp button).  Theorems: the home page's pager
      renders the reference page list, each page once, only the current
      page marked, previous and next disabled exactly at the ends; a cart
      line links to the detail page of its id, which shows that product
      while the catalogue has it and "not found" once it is gone; the
      detail page's category breadcrumb routes to [/].

    ** Bounds and fuel

    Integers are [Z]; the code only handles integers below 2^53, where
    JS arithmetic is exact.  The only fuel is that of [dec_digits]
    (printing a number), given as the number itself, which is more than
    its count of digits ([dec_digits_enough]).  [getFallbackData] draws
    exactly 600 random numbers, four per product, read from the stream
    [rnd] at positions [4(i-1)] to [4(i-1)+3]; the theorems on it hold for
    every stream with values in [[0, 2^53)].  The two [for] loops of the
    page-range builders run on fuel [loop_fuel lo hi = hi - lo + 2]: one
    unit per pushed page and one for the exit test, which is enough for
    every [lo] and [hi] ([range_loops_terminate]), so the page lists are
    never cut short.  The start-up on [/] settles its two loads one after
    the other, in either order; each load's two service calls are one
    block, which is exact when every fetch fails, since a failed fetch
    writes nothing.

    ** Open directions

    Finer interleavings of the two start-up loads when the network
    answers (each service call as its own step, rather than each load's
    two calls as one block).

    ** What is not modelled

    Class names, icon styles and static text of the JSX (the views keep
    every value and every guard the components compute); the
    [window.scrollTo] of the detail page (no state); the static
    sections of the contact page and the footer of [App.jsx] (static
    markup with [href="#"] links); category names that are keys of
    [Object.prototype] (such as [constructor]), for which
    [categoryIcons[category]] is not [undefined]; React Router beyond
    its [pathname] parse and the four routes (the query string of a URL
    is never read by the code); Swiper's layout options; the service-worker
    registration (browser I/O; [window.open] is modelled as the list of
    opened URLs); [Intl.NumberFormat] and
    [localeCompare], parameters of the definitions that use them, since
    their output comes from the platform's locale data.  JSON serialisation is abstracted: a
    storage slot holds the typed value that [JSON.stringify] wrote, or a
    [SlotCorrupt] marker for a value [JSON.parse] rejects.  Numbers are
    modelled as [Z]: the code only stores integers, and JS arithmetic on
    them is exact below 2^53. *)

From Stdlib Require Export ZArith Lia String Ascii Bool.
From stdpp Require Export base list strings gmap.

Open Scope Z_scope.

(** ** JavaScript truthiness *)

Declare Scope js_scope.
Delimit Scope js_scope with js.

(** [ToBoolean] of the values the code tests with [if (x)], [x && y] and
    [x || d]: numbers are falsy at [0], strings when empty, [undefined]
    ([None]) always. *)
Class Truthy (A : Type) := js_truthy : A -> bool.

#[export] Instance truthy_Z : Truthy Z := fun z => negb (z =? 0).
#[export] Instance truthy_string : Truthy string :=
  fun s => negb (String.eqb s EmptyString).
#[export] Instance truthy_bool : Truthy bool := fun b => b.
#[export] Instance truthy_option {A} `{Truthy A} : Truthy (option A) :=
  fun o => match o with Some a => js_truthy a | None => false end.

(** [x || d] on an optional value, the way [parseInt(v) || 0] and
    [item ? item.quantity : 0] read. *)
Definition js_default {A} (o : option A) (d : A) : A :=
  match o with Some a => a | None => d end.
Notation "o ?? d" := (js_default o d) (at level 50, left associativity) : js_scope.

Open Scope js_scope.

(** ** Integer ranges, as a [for (let i = lo; i <= hi; i++)] loop visits them *)

(** [zseq lo n] is [lo, lo+1, ..., lo+n-1]. *)
Fixpoint zseq (lo : Z) (n : nat) : list Z :=
  match n with
  | O => []
  | S n' => lo :: zseq (lo + 1) n'
  end.

(** The indices of [for (let i = lo; i <= hi; i++)]. *)
Definition zrange (lo hi : Z) : list Z := zseq lo (Z.to_nat (hi - lo + 1)).

(** ** Counting [for] loops *)

(** [for (let i = lo; i <= hi; i++) acc.push(i)], run for at most
    [fuel] tests of its condition: [None] when the fuel runs out first. *)
Fixpoint push_upto (fuel : nat) (i hi : Z) (acc : list Z) : option (list Z) :=
  match fuel with
  | O => None
  | S f => if i <=? hi then push_upto f (i + 1) hi (acc ++ [i]) else Some acc
  end.

(** The number of condition tests the loop makes: one per iteration and
    the final one. *)
Definition loop_fuel (lo hi : Z) : nat := S (Z.to_nat (hi - lo + 1)).

(** ** [Array.prototype.slice] *)

(** A relative index of [slice]: negative counts from the end, then
    clamped to [0, len]. *)
Definition js_rel_index (len k : Z) : Z :=
  if k <? 0 then Z.max (len + k) 0 else Z.min k len.

(** [l.slice(start, end)] on integer arguments. *)
Definition js_slice {A} (l : list A) (start end_ : Z) : list A :=
  let len := Z.of_nat (length l) in
  let from := js_rel_index len start in
  let to := js_rel_index len end_ in
  firstn (Z.to_nat (to - from)) (skipn (Z.to_nat from) l).

(** [Math.ceil(n / k)] for a positive [k]. *)
Definition ceil_div (n k : Z) : Z := - ((- n) / k).

(** ** Proof automation *)

Create HintDb store.
#[export] Hint Constants Transparent : store.
Create Rewrite HintDb store_rw.

(** Turn the boolean tests of the code into propositions. *)
Ltac zbool :=
  repeat match goal with
  | H : (_ =? _)%Z = true |- _ => apply Z.eqb_eq in H
  | H : (_ =? _)%Z = false |- _ => apply Z.eqb_neq in H
  | H : (_ <=? _)%Z = true |- _ => apply Z.leb_le in H
  | H : (_ <=? _)%Z = false |- _ => apply Z.leb_gt in H
  | H : (_ <? _)%Z = true |- _ => apply Z.ltb_lt in H
  | H : (_ <? _)%Z = false |- _ => apply Z.ltb_ge in H
  | H : negb _ = true |- _ => apply negb_true_iff in H
  | H : negb _ = false |- _ => apply negb_false_iff in H
  | H : (_ && _)%bool = true |- _ => apply andb_true_iff in H as [? ?]
  end.

(** Case on the first [if] of the goal, keeping its equation. *)
Ltac case_if :=
  match goal with
  | |- context [if ?b then _ else _] =>
      let E := fresh "E" in destruct b eqn:E; zbool
  end.

(** Decide a goal built from integer comparisons by cases on each. *)
Ltac zcmp :=
  repeat (simpl; match goal with
  | |- context [(?a =? ?b)%Z] => destruct (Z.eqb_spec a b)
  | |- context [(?a <=? ?b)%Z] => destruct (Z.leb_spec a b)
  | |- context [(?a <? ?b)%Z] => destruct (Z.ltb_spec a b)
  end); simpl; try reflexivity; try (exfalso; lia).

(** ** Left folds, as [Array.prototype.reduce] computes them *)

Section Folds.
Context {A : Type} (f : A -> Z).

(** [l.reduce((t, x) => t + f(x), 0)] *)
Definition reduce_sum (l : list A) : Z :=
  fold_left (fun t x => t + f x) l 0.

Lemma fold_left_add_shift (l : list A) (a : Z) :
  fold_left (fun t x => t + f x) l a = a + fold_left (fun t x => t + f x) l 0.
Proof.
  revert a. induction l as [|x l IH]; intros a; simpl; [lia|].
  rewrite (IH (a + f x)), (IH (0 + f x)). lia.
Qed.

Lemma reduce_sum_nil : reduce_sum [] = 0.
Proof. reflexivity. Qed.

Lemma reduce_sum_cons x l : reduce_sum (x :: l) = f x + reduce_sum l.
Proof. unfold reduce_sum. simpl. rewrite fold_left_add_shift. lia. Qed.

Lemma reduce_sum_app l1 l2 : reduce_sum (l1 ++ l2) = reduce_sum l1 + reduce_sum l2.
Proof.
  induction l1 as [|x l1 IH]; simpl.
  - rewrite reduce_sum_nil. lia.
  - rewrite !reduce_sum_cons, IH. lia.
Qed.

(** A sum of positive terms over a non-empty array is positive. *)
Lemma reduce_sum_pos l : Forall (fun x => 0 < f x) l -> l <> [] -> 0 < reduce_sum l.
Proof.
  induction 1 as [|x l Hx Hl IH]; [congruence|]. intros _. rewrite reduce_sum_cons.
  destruct l as [|y l]; [rewrite reduce_sum_nil; lia|]. specialize (IH ltac:(discriminate)). lia.
Qed.
End Folds.

Lemma reduce_sum_map {A B} (f : B -> Z) (g : A -> B) (l : list A) :
  reduce_sum f (map g l) = reduce_sum (fun x => f (g x)) l.
Proof.
  induction l as [|x l IH]; simpl; [reflexivity|]. now rewrite !reduce_sum_cons, IH.
Qed.

#[export] Hint Rewrite @reduce_sum_nil @reduce_sum_cons @reduce_sum_app : store_rw.

(** ** [Array.prototype.find] and [Array.prototype.filter] *)

Lemma find_none_forall {A} (p : A -> bool) (l : list A) :
  List.find p l = None -> Forall (fun x => p x = false) l.
Proof.
  induction l as [|x l IH]; simpl; [constructor|].
  destruct (p x) eqn:E; [discriminate|]. intros H. constructor; auto.
Qed.

Lemma forall_find_none {A} (p : A -> bool) (l : list A) :
  Forall (fun x => p x = false) l -> List.find p l = None.
Proof. induction 1; simpl; [reflexivity|]. now rewrite H. Qed.

Lemma filter_all_true {A} (p : A -> bool) (l : list A) :
  Forall (fun x => p x = true) l -> List.filter p l = l.
Proof. induction 1; simpl; [reflexivity|]. rewrite H. f_equal; auto. Qed.

Lemma filter_forall {A} (p : A -> bool) (l : list A) :
  Forall (fun x => p x = true) (List.filter p l).
Proof.
  induction l as [|x l IH]; simpl; [constructor|].
  destruct (p x) eqn:E; auto.
Qed.

#[export] Hint Resolve filter_forall : store.

Lemma zseq_length lo n : length (zseq lo n) = n.
Proof. revert lo. induction n; intros; simpl; auto. Qed.

Lemma in_zseq x lo n : In x (zseq lo n) <-> lo <= x < lo + Z.of_nat n.
Proof.
  revert lo. induction n as [|n IH]; intros lo; simpl; [lia|].
  rewrite IH. lia.
Qed.

Lemma in_zrange x lo hi : In x (zrange lo hi) <-> lo <= x <= hi.
Proof. unfold zrange. rewrite in_zseq. lia. Qed.

Lemma zrange_empty lo hi : hi < lo -> zrange lo hi = [].
Proof. intros H. unfold zrange. replace (Z.to_nat (hi - lo + 1)) with O by lia. reflexivity. Qed.

(** The loop ends within any fuel above its number of iterations, with
    the pushed range. *)
Lemma push_upto_spec n i hi acc :
  (Z.to_nat (hi - i + 1) < n)%nat -> push_upto n i hi acc = Some (acc ++ zrange i hi).
Proof.
  revert i acc. induction n as [|n IH]; intros i acc Hn; [lia|]. simpl.
  destruct (Z.leb_spec i hi).
  - rewrite IH by lia. f_equal. unfold zrange.
    replace (Z.to_nat (hi - i + 1)) with (S (Z.to_nat (hi - (i + 1) + 1))) by lia.
    simpl. now rewrite <- app_assoc.
  - unfold zrange. replace (Z.to_nat (hi - i + 1)) with O by lia. now rewrite app_nil_r.
Qed.

Lemma push_upto_loop_fuel lo hi : push_upto (loop_fuel lo hi) lo hi [] = Some (zrange lo hi).
Proof. apply push_upto_spec. unfold loop_fuel. lia. Qed.

Lemma zrange_cons lo hi : lo <= hi -> zrange lo hi = lo :: zrange (lo + 1) hi.
Proof.
  intros H. unfold zrange.
  replace (Z.to_nat (hi - lo + 1)) with (S (Z.to_nat (hi - (lo + 1) + 1))) by lia.
  reflexivity.
Qed.

#[export] Hint Rewrite zseq_length : store_rw.

Lemma NoDup_map_filter {A B} (f : A -> B) (p : A -> bool) (l : list A) :
  List.NoDup (map f l) -> List.NoDup (map f (List.filter p l)).
Proof.
  induction l as [|x l IH]; simpl; [auto|]. intros Hnd.
  apply NoDup_cons_iff in Hnd as [Hx Hnd].
  destruct (p x); simpl; auto.
  constructor; auto. intros Hin. apply Hx.
  apply in_map_iff in Hin as [y [<- Hy]]. apply filter_In in Hy as [Hy _].
  now apply in_map.
Qed.

Lemma Forall_filter_sub {A} (P : A -> Prop) (p : A -> bool) (l : list A) :
  Forall P l -> Forall P (List.filter p l).
Proof.
  induction 1; simpl; [constructor|]. destruct (p x); auto.
Qed.

#[export] Hint Resolve NoDup_map_filter Forall_filter_sub : store.

(** A slice of a window of [n] elements holds at most [n], wherever the
    window starts. *)
Lemma js_slice_length_le {A} (l : list A) (a n : Z) :
  0 <= n -> Z.of_nat (length (js_slice l a (a + n))) <= n.
Proof.
  intros Hn. unfold js_slice, js_rel_index.
  rewrite length_firstn, length_skipn.
  destruct (Z.ltb_spec a 0), (Z.ltb_spec (a + n) 0); lia.
Qed.

(** A slice at a non-negative window is [take]/[drop]. *)
Lemma js_slice_window {A} (l : list A) (a n : Z) :
  0 <= a -> 0 <= n ->
  js_slice l a (a + n) = firstn (Z.to_nat n) (skipn (Z.to_nat a) l).
Proof.
  intros Ha Hn. unfold js_slice, js_rel_index.
  replace (a <? 0) with false by lia. replace (a + n <? 0) with false by lia.
  set (len := Z.of_nat (length l)).
  destruct (Z.le_gt_cases a len) as [Hal|Hal].
  - rewrite (Z.min_l a len) by lia.
    destruct (Z.le_gt_cases (a + n) len) as [Hl|Hl].
    + rewrite Z.min_l by lia. f_equal. lia.
    + rewrite Z.min_r by lia.
      rewrite !firstn_all2; [reflexivity| |]; rewrite length_skipn; lia.
  - rewrite !Z.min_r by lia. rewrite !skipn_all2 by lia. now rewrite !firstn_nil.
Qed.

Lemma ceil_div_spec n k : 0 < k -> (ceil_div n k - 1) * k < n <= ceil_div n k * k.
Proof.
  intros Hk. unfold ceil_div.
  pose proof (Z.div_mod (- n) k ltac:(lia)). pose proof (Z.mod_pos_bound (- n) k Hk). nia.
Qed.

Lemma zseq_app lo n m : zseq lo (n + m) = zseq lo n ++ zseq (lo + Z.of_nat n) m.
Proof.
  revert lo. induction n as [|n IH]; intros lo; simpl.
  - now rewrite Z.add_0_r.
  - rewrite IH. replace (lo + Z.of_nat (S n)) with (lo + 1 + Z.of_nat n) by lia.
    reflexivity.
Qed.

(** [lo..hi] splits at any [mid] between [lo] and [hi + 1]. *)
Lemma zrange_split lo mid hi :
  lo <= mid <= hi + 1 -> zrange lo hi = zrange lo (mid - 1) ++ zrange mid hi.
Proof.
  intros H. unfold zrange.
  replace (Z.to_nat (hi - lo + 1)) with (Z.to_nat (mid - 1 - lo + 1) + Z.to_nat (hi - mid + 1))%nat by lia.
  rewrite zseq_app. do 2 f_equal. lia.
Qed.

Lemma zrange_snoc lo hi : lo <= hi -> zrange lo hi = zrange lo (hi - 1) ++ [hi].
Proof.
  intros H. rewrite (zrange_split lo hi hi) by lia.
  rewrite (zrange_cons hi hi), (zrange_empty (hi + 1) hi) by lia. reflexivity.
Qed.

Lemma last_zrange lo hi d : lo <= hi -> List.last (zrange lo hi) d = hi.
Proof.
  intros H. rewrite zrange_snoc by lia. apply last_last.
Qed.

Lemma map_left_inverse {A B} (f : A -> B) (g : B -> A) (l : list A) :
  (forall x, g (f x) = x) -> map g (map f l) = l.
Proof. intros H. induction l as [|x l IH]; simpl; [reflexivity|]. now rewrite H, IH. Qed.

Lemma filter_compose {A} (p q : A -> bool) (l : list A) :
  List.filter p (List.filter q l) = List.filter (fun x => q x && p x) l.
Proof.
  induction l as [|x l IH]; simpl; [reflexivity|].
  destruct (q x); simpl; [destruct (p x)|]; now rewrite ?IH.
Qed.

(** A filter applied under a condition, as [if (c) l = l.filter(p)]. *)
Lemma filter_if {A} (b : bool) (p : A -> bool) (l : list A) :
  (if b then List.filter p l else l) = List.filter (fun x => negb b || p x) l.
Proof.
  destruct b; simpl; [reflexivity|]. symmetry.
  apply filter_all_true, List.Forall_forall. reflexivity.
Qed.

Lemma filter_ext_in {A} (p q : A -> bool) (l : list A) :
  (forall x, In x l -> p x = q x) -> List.filter p l = List.filter q l.
Proof.
  induction l as [|x l IH]; intros H; simpl; [reflexivity|].
  rewrite H by now left. rewrite IH by (intros; apply H; now right). reflexivity.
Qed.

(** A fold with a selecting operation such as [Z.min] or [Z.max], as
    [Math.min(...l)] computes: the result is one of the values and is
    related to all of them. *)
Section SelectFold.

Context {A : Type} (op : A -> A -> A) (R : A -> A -> Prop).
Hypothesis R_trans : forall a b c, R a b -> R b c -> R a c.
Hypothesis op_below : forall a b, R (op a b) a /\ R (op a b) b.
Hypothesis op_sel : forall a b, op a b = a \/ op a b = b.

Lemma fold_left_select_bound l a :
  R (fold_left op l a) a /\ Forall (R (fold_left op l a)) l.
Proof.
  revert a. induction l as [|x l IH]; intros a; simpl.
  - split; [|constructor]. destruct (op_below a a) as [H _].
    destruct (op_sel a a) as [E|E]; rewrite E in H; exact H.
  - destruct (IH (op a x)) as [H1 H2]. destruct (op_below a x) as [Ha Hx].
    split; [eauto|]. constructor; eauto.
Qed.

Lemma fold_left_select_in l a : fold_left op l a = a \/ In (fold_left op l a) l.
Proof.
  revert a. induction l as [|x l IH]; intros a; simpl; [now left|].
  destruct (IH (op a x)) as [E|E]; [|right; now right].
  rewrite E. destruct (op_sel a x) as [E'|E']; rewrite E'; [now left|right; now left].
Qed.

End SelectFold.

(** With unique keys, the first element with the key of [x] is [x]. *)
Lemma find_key_nodup {A} (key : A -> Z) (l : list A) x :
  List.NoDup (map key l) -> In x l -> List.find (fun y => key y =? key x) l = Some x.
Proof.
  induction l as [|y l IH]; [intros _ []|]. simpl. intros Hnd Hin.
  inversion Hnd as [|? ? Hy Hnd']; subst.
  destruct Hin as [<-|Hin]; [now rewrite Z.eqb_refl|].
  destruct (Z.eqb_spec (key y) (key x)) as [E|]; [|now apply IH].
  exfalso. apply Hy. rewrite E. now apply in_map.
Qed.

Lemma filter_none {A} (p : A -> bool) (l : list A) :
  (forall x, In x l -> p x = false) -> List.filter p l = [].
Proof.
  induction l as [|x l IH]; simpl; intros H; [reflexivity|].
  rewrite H by auto. auto.
Qed.

Lemma filter_zrange_all (p : Z -> bool) lo hi :
  (forall x, lo <= x <= hi -> p x = true) -> List.filter p (zrange lo hi) = zrange lo hi.
Proof.
  intros H. apply filter_all_true. apply List.Forall_forall.
  intros x Hx. apply in_zrange in Hx. auto.
Qed.

Lemma filter_zrange_none (p : Z -> bool) lo hi :
  (forall x, lo <= x <= hi -> p x = false) -> List.filter p (zrange lo hi) = [].
Proof. intros H. apply filter_none. intros x Hx. apply in_zrange in Hx. auto. Qed.

(** ** Strings *)

Section Strings.
#[local] Arguments String.append : simpl nomatch.

Lemma string_app_nil_r (s : string) : (s ++ EmptyString)%string = s.
Proof. induction s as [|c s IH]; simpl; [reflexivity|]. now rewrite IH. Qed.

Lemma string_app_assoc (s1 s2 s3 : string) :
  (s1 ++ (s2 ++ s3))%string = ((s1 ++ s2) ++ s3)%string.
Proof. induction s1 as [|c s1 IH]; simpl; [reflexivity|]. now rewrite IH. Qed.

Lemma string_app_cons (c : ascii) (s1 s2 : string) :
  (String c s1 ++ s2)%string = String c (s1 ++ s2).
Proof. reflexivity. Qed.
End Strings.
