(* ===== verification/Data.v ===== *)
(** * Data: the records the services pass around, and [localStorage]

    [Product] is the object [csvToJson] and [getFallbackData] build in
    [src/src/services/googleSheetsService.js]; [CartItem] is the literal
    [addToCart] pushes in [src/src/services/cartService.js].  The browser's
    [localStorage] is a record with one typed [slot] per key the program
    uses ([electronics_store_cart], [products_cache]) and a quota flag: when
    the quota is exhausted [setItem] throws, which [ls_setItem_cart] and
    [ls_setItem_products] return as [None]. *)

From S2P Require Import Spec2Rocq.

(** A product, with the eight fields of the sheet's columns. *)
Record Product := mkProduct {
  id : Z;
  name : string;
  category : string;
  price : Z;
  description : string;
  image_url : string;
  stock : Z;
  featured : bool
}.

(** A cart line: the product fields copied at add time and a quantity. *)
Record CartItem := mkCartItem {
  ci_id : Z;
  ci_name : string;
  ci_price : Z;
  ci_image_url : string;
  ci_category : string;
  quantity : Z
}.

#[export] Instance Product_eq_dec : EqDecision Product.
Proof. solve_decision. Defined.

#[export] Instance CartItem_eq_dec : EqDecision CartItem.
Proof. solve_decision. Defined.

(** The payload [fetchProducts] writes under [products_cache]. *)
Record ProductsCache := mkProductsCache {
  pc_products : list Product;
  pc_timestamp : Z
}.

(** What [localStorage.getItem(key)] followed by [JSON.parse] yields:
    [null] (no entry), the value written by [JSON.stringify], or text that
    [JSON.parse] rejects. *)
Inductive slot (A : Type) :=
| SlotEmpty
| SlotStored (a : A)
| SlotCorrupt.
Arguments SlotEmpty {A}.
Arguments SlotStored {A} a.
Arguments SlotCorrupt {A}.

Record LocalStorage := mkLocalStorage {
  ls_cart : slot (list CartItem);
  ls_products : slot ProductsCache;
  ls_quota_ok : bool
}.

(** [localStorage.setItem('electronics_store_cart', JSON.stringify(c))];
    [None] when it throws. *)
Definition ls_setItem_cart (c : list CartItem) (ls : LocalStorage) : option LocalStorage :=
  if ls_quota_ok ls
  then Some {| ls_cart := SlotStored c; ls_products := ls_products ls;
               ls_quota_ok := ls_quota_ok ls |}
  else None.

(** [localStorage.setItem('products_cache', JSON.stringify(pc))]. *)
Definition ls_setItem_products (pc : ProductsCache) (ls : LocalStorage) : option LocalStorage :=
  if ls_quota_ok ls
  then Some {| ls_cart := ls_cart ls; ls_products := SlotStored pc;
               ls_quota_ok := ls_quota_ok ls |}
  else None.

(** [localStorage.removeItem('products_cache')]: never throws. *)
Definition ls_removeItem_products (ls : LocalStorage) : LocalStorage :=
  {| ls_cart := ls_cart ls; ls_products := SlotEmpty; ls_quota_ok := ls_quota_ok ls |}.

Lemma ls_setItem_cart_ok c ls :
  ls_quota_ok ls = true ->
  ls_setItem_cart c ls = Some {| ls_cart := SlotStored c; ls_products := ls_products ls;
                                 ls_quota_ok := true |}.
Proof. unfold ls_setItem_cart. intros ->. reflexivity. Qed.

Lemma ls_setItem_cart_full c ls :
  ls_quota_ok ls = false -> ls_setItem_cart c ls = None.
Proof. unfold ls_setItem_cart. intros ->. reflexivity. Qed.

Lemma ls_setItem_products_ok pc ls :
  ls_quota_ok ls = true ->
  ls_setItem_products pc ls = Some {| ls_cart := ls_cart ls; ls_products := SlotStored pc;
                                      ls_quota_ok := true |}.
Proof. unfold ls_setItem_products. intros ->. reflexivity. Qed.

Lemma ls_setItem_products_full pc ls :
  ls_quota_ok ls = false -> ls_setItem_products pc ls = None.
Proof. unfold ls_setItem_products. intros ->. reflexivity. Qed.

#[export] Hint Rewrite ls_setItem_cart_ok ls_setItem_cart_full ls_setItem_products_ok
  ls_setItem_products_full using assumption : store_rw.
