(* ===== verification/Cart.v ===== *)
(** * Cart: the cart service of [src/src/services/cartService.js]

    [Module CartService] holds the state of the singleton [cartService]
    (its [cart] array, and the [localStorage] it writes through) and one
    definition per method.  Every method that changes the cart ends with
    [saveCart], which writes the array under [electronics_store_cart] and
    swallows a failed write; every such method returns [this.cart], which
    is the [cart] field of the state the definition returns.

    The theorems: the functional behaviour of each method on each branch
    (quantities, item count, total), the well-formedness invariant (one
    line per product id, positive quantities) and which calls preserve or
    break it, the storage mirror and the reload round trip, and a
    refinement of the list of lines by a finite map from product id to
    quantity. *)

From S2P Require Import Spec2Rocq Data.

Module CartService.

(** ** State *)

Record service := mkService {
  cart : list CartItem;
  storage : LocalStorage
}.

(** ** Methods *)

(** [item => item.id === productId] *)
Definition same_id (pid : Z) (it : CartItem) : bool := ci_id it =? pid.

(** [item.quantity = q] on a line object. *)
Definition set_quantity (q : Z) (it : CartItem) : CartItem :=
  {| ci_id := ci_id it; ci_name := ci_name it; ci_price := ci_price it;
     ci_image_url := ci_image_url it; ci_category := ci_category it;
     quantity := q |}.

(** [const item = this.cart.find(...)] followed by a mutation of [item]:
    only the first line with the id changes. *)
Fixpoint update_first (pid : Z) (f : CartItem -> CartItem) (c : list CartItem) : list CartItem :=
  match c with
  | [] => []
  | it :: c' => if same_id pid it then f it :: c' else it :: update_first pid f c'
  end.

(** The literal [addToCart] pushes for a new product. *)
Definition item_of_product (p : Product) (q : Z) : CartItem :=
  {| ci_id := id p; ci_name := name p; ci_price := price p;
     ci_image_url := image_url p; ci_category := category p; quantity := q |}.

(** [loadCart()]: the stored array, or [[]] when the key is absent or
    [JSON.parse] throws. *)
Definition loadCart (ls : LocalStorage) : list CartItem :=
  match ls_cart ls with
  | SlotStored c => c
  | SlotEmpty => []
  | SlotCorrupt => []
  end.

(** [constructor()]: [this.cart = this.loadCart()]. *)
Definition init (ls : LocalStorage) : service :=
  {| cart := loadCart ls; storage := ls |}.

(** [saveCart()]: a failed [setItem] is logged and the storage kept. *)
Definition saveCart (s : service) : service :=
  match ls_setItem_cart (cart s) (storage s) with
  | Some ls' => {| cart := cart s; storage := ls' |}
  | None => s
  end.

Definition with_cart (c : list CartItem) (s : service) : service :=
  {| cart := c; storage := storage s |}.

(** The cart array after [addToCart(product, quantity)]. *)
Definition add_line (p : Product) (q : Z) (c : list CartItem) : list CartItem :=
  match List.find (same_id (id p)) c with
  | Some _ => update_first (id p) (fun it => set_quantity (quantity it + q) it) c
  | None => c ++ [item_of_product p q]
  end.

Definition addToCart (p : Product) (q : Z) (s : service) : service :=
  saveCart (with_cart (add_line p q (cart s)) s).

(** [removeFromCart(productId)]: [filter] drops every line with the id. *)
Definition remove_lines (pid : Z) (c : list CartItem) : list CartItem :=
  List.filter (fun it => negb (same_id pid it)) c.

Definition removeFromCart (pid : Z) (s : service) : service :=
  saveCart (with_cart (remove_lines pid (cart s)) s).

(** [updateQuantity(productId, quantity)]: nothing at all (not even a
    save) when the id is absent. *)
Definition updateQuantity (pid q : Z) (s : service) : service :=
  match List.find (same_id pid) (cart s) with
  | Some _ =>
      if q <=? 0 then removeFromCart pid s
      else saveCart (with_cart (update_first pid (set_quantity q) (cart s)) s)
  | None => s
  end.

Definition getCart (s : service) : list CartItem := cart s.

Definition getCartItemsCount (s : service) : Z := reduce_sum quantity (cart s).

Definition line_total (it : CartItem) : Z := ci_price it * quantity it.

Definition getCartTotal (s : service) : Z := reduce_sum line_total (cart s).

Definition isInCart (pid : Z) (s : service) : bool := existsb (same_id pid) (cart s).

Definition getProductQuantity (pid : Z) (s : service) : Z :=
  match List.find (same_id pid) (cart s) with
  | Some it => quantity it
  | None => 0
  end.

Definition clearCart (s : service) : service := saveCart (with_cart [] s).

(** ** Invariants, calls and the abstract cart *)

(** One line per product id, every quantity positive. *)
Definition cart_wf (c : list CartItem) : Prop :=
  List.NoDup (map ci_id c) /\ Forall (fun it => 0 < quantity it) c.

(** A reload ([loadCart]) would give back the cart in memory. *)
Definition synced (s : service) : Prop := loadCart (storage s) = cart s.

(** The cart as a map from product id to quantity; the first line of an
    id wins, as it does for [find]. *)
Definition view (c : list CartItem) : gmap Z Z :=
  fold_right (fun it m => <[ci_id it := quantity it]> m) ∅ c.

(** The calls the rest of the program makes on the service. *)
Inductive cart_call :=
| CallAdd (p : Product) (q : Z)
| CallRemove (pid : Z)
| CallUpdate (pid q : Z)
| CallClear.

Definition run_call (o : cart_call) (s : service) : service :=
  match o with
  | CallAdd p q => addToCart p q s
  | CallRemove pid => removeFromCart pid s
  | CallUpdate pid q => updateQuantity pid q s
  | CallClear => clearCart s
  end.

(** What each call promises on the abstract cart. *)
Definition abs_call (o : cart_call) (m : gmap Z Z) : gmap Z Z :=
  match o with
  | CallAdd p q => <[id p := (m !! id p ?? 0) + q]> m
  | CallRemove pid => delete pid m
  | CallUpdate pid q =>
      match m !! pid with
      | Some _ => if q <=? 0 then delete pid m else <[pid := q]> m
      | None => m
      end
  | CallClear => ∅
  end.

(** The pages add with a positive quantity ([ProductCard]: 1,
    [ProductDetail]: a quantity kept in [1, stock]). *)
Definition page_call (o : cart_call) : Prop :=
  match o with
  | CallAdd _ q => 0 < q
  | _ => True
  end.

(** The states reachable from a page load through the pages' calls. *)
Inductive reachable : service -> Prop :=
| reach_init ls : cart_wf (loadCart ls) -> reachable (init ls)
| reach_call s o : reachable s -> page_call o -> reachable (run_call o s).

(** The number of lines with a given id. *)
Definition lines_of (pid : Z) (c : list CartItem) : nat :=
  length (List.filter (same_id pid) c).

(** ** Sample states, for the witnesses *)

Definition sample_product : Product :=
  mkProduct 7 "USB-C cable" "cables" 15000 "1m braided" "cable.png" 10 false.

(** A first visit: nothing stored, writes accepted. *)
Definition fresh_storage : LocalStorage := mkLocalStorage SlotEmpty SlotEmpty true.

(** A browser whose quota is exhausted. *)
Definition full_storage : LocalStorage := mkLocalStorage SlotEmpty SlotEmpty false.

(** ** Lemmas on the list operations *)

Lemma saveCart_cart s : cart (saveCart s) = cart s.
Proof. unfold saveCart. now destruct (ls_setItem_cart _ _). Qed.

Lemma set_quantity_id q it : ci_id (set_quantity q it) = ci_id it.
Proof. reflexivity. Qed.

Lemma same_id_set_quantity pid q it : same_id pid (set_quantity q it) = same_id pid it.
Proof. reflexivity. Qed.

#[export] Hint Rewrite saveCart_cart set_quantity_id same_id_set_quantity : store_rw.

(** The first line with the id, after [update_first] with an
    id-preserving [f], is [f] of the first line before. *)
Lemma find_update_first pid f c :
  (forall it, ci_id (f it) = ci_id it) ->
  List.find (same_id pid) (update_first pid f c) = option_map f (List.find (same_id pid) c).
Proof.
  intros Hf. induction c as [|it c IH]; simpl; [reflexivity|].
  destruct (same_id pid it) eqn:E; simpl.
  - unfold same_id in *. now rewrite Hf, E.
  - now rewrite E.
Qed.

(** Other ids see the same first line. *)
Lemma find_update_first_other pid pid' f c :
  pid <> pid' -> (forall it, ci_id (f it) = ci_id it) ->
  List.find (same_id pid') (update_first pid f c) = List.find (same_id pid') c.
Proof.
  intros Hne Hf. induction c as [|it c IH]; simpl; [reflexivity|].
  destruct (same_id pid it) eqn:E; simpl; [|now rewrite IH].
  unfold same_id in *. rewrite Hf. zbool.
  destruct (ci_id it =? pid') eqn:E'; zbool; [lia | reflexivity].
Qed.

(** A sum over the lines changes by the difference at the first match. *)
Lemma reduce_sum_update_first (g : CartItem -> Z) pid f c :
  reduce_sum g (update_first pid f c) =
  reduce_sum g c + match List.find (same_id pid) c with
                   | Some it => g (f it) - g it
                   | None => 0
                   end.
Proof.
  induction c as [|it c IH]; simpl; [reflexivity|].
  destruct (same_id pid it); rewrite !reduce_sum_cons; [lia|]. rewrite IH. lia.
Qed.

Lemma find_app_none {A} (p : A -> bool) l1 l2 :
  List.find p l1 = None -> List.find p (l1 ++ l2) = List.find p l2.
Proof.
  induction l1 as [|x l1 IH]; simpl; [reflexivity|].
  destruct (p x); [discriminate | auto].
Qed.

Lemma find_same_id_some pid c it :
  List.find (same_id pid) c = Some it -> ci_id it = pid.
Proof. intros H. apply find_some in H as [_ H]. unfold same_id in H. now zbool. Qed.

Lemma existsb_find {A} (p : A -> bool) l :
  existsb p l = match List.find p l with Some _ => true | None => false end.
Proof. induction l as [|x l IH]; simpl; [reflexivity|]. now destruct (p x). Qed.

(** The line [add_line] leaves first for the product. *)
Lemma find_add_line p q c :
  List.find (same_id (id p)) (add_line p q c) =
  Some match List.find (same_id (id p)) c with
       | Some it => set_quantity (quantity it + q) it
       | None => item_of_product p q
       end.
Proof.
  unfold add_line. destruct (List.find (same_id (id p)) c) eqn:E.
  - rewrite find_update_first by reflexivity. now rewrite E.
  - rewrite find_app_none by assumption. simpl.
    unfold same_id. simpl. now rewrite Z.eqb_refl.
Qed.

(** Every sum over the lines moves by the added line's share. *)
Lemma reduce_sum_add_line (g : CartItem -> Z) p q c :
  reduce_sum g (add_line p q c) =
  reduce_sum g c + match List.find (same_id (id p)) c with
                   | Some it => g (set_quantity (quantity it + q) it) - g it
                   | None => g (item_of_product p q)
                   end.
Proof.
  unfold add_line. destruct (List.find (same_id (id p)) c) eqn:E.
  - rewrite reduce_sum_update_first, E. reflexivity.
  - rewrite reduce_sum_app, reduce_sum_cons, reduce_sum_nil. lia.
Qed.

Lemma getProductQuantity_find pid s :
  getProductQuantity pid s = js_default (option_map quantity (List.find (same_id pid) (cart s))) 0.
Proof. unfold getProductQuantity. now destruct (List.find _ _). Qed.

Lemma lines_of_update_first pid pid' f c :
  (forall it, ci_id (f it) = ci_id it) ->
  lines_of pid' (update_first pid f c) = lines_of pid' c.
Proof.
  intros Hf. unfold lines_of. induction c as [|it c IH]; simpl; [reflexivity|].
  destruct (same_id pid it); simpl.
  - replace (same_id pid' (f it)) with (same_id pid' it)
      by (unfold same_id; now rewrite Hf).
    now destruct (same_id pid' it).
  - destruct (same_id pid' it); simpl; auto.
Qed.

Lemma lines_of_find_none pid c :
  List.find (same_id pid) c = None -> lines_of pid c = 0%nat.
Proof.
  intros H. apply find_none_forall in H. unfold lines_of.
  induction H; simpl; [reflexivity|]. now rewrite H.
Qed.

(** ** Functional behaviour *)

(** C1: after [addToCart(p, q)], the quantity the cart reports for [p]
    is the previous one plus [q], whether [p] had a line or not. *)
Theorem addToCart_quantity p q s :
  getProductQuantity (id p) (addToCart p q s) = getProductQuantity (id p) s + q.
Proof.
  rewrite !getProductQuantity_find. unfold addToCart.
  rewrite saveCart_cart. simpl. rewrite find_add_line.
  destruct (List.find _ (cart s)); simpl; lia.
Qed.

(** [addToCart(p, q)] raises [getCartItemsCount] by exactly [q]. *)
Theorem addToCart_count p q s :
  getCartItemsCount (addToCart p q s) = getCartItemsCount s + q.
Proof.
  unfold getCartItemsCount, addToCart. rewrite saveCart_cart. simpl.
  rewrite reduce_sum_add_line. destruct (List.find _ _); simpl; lia.
Qed.

(** C3: [addToCart(p, q)] raises [getCartTotal] by [q] times the price
    stored in the cart: the price copied when the line was created, not
    the current price of [p]. *)
Theorem addToCart_total p q s :
  getCartTotal (addToCart p q s) =
  getCartTotal s + q * match List.find (same_id (id p)) (cart s) with
                       | Some it => ci_price it
                       | None => price p
                       end.
Proof.
  unfold getCartTotal, addToCart. rewrite saveCart_cart. simpl.
  rewrite reduce_sum_add_line. unfold line_total.
  destruct (List.find _ _); simpl; lia.
Qed.

(** C5: [updateQuantity(id, q)] with [q <= 0] leaves the same cart as
    [removeFromCart(id)], and the product is no longer in it. *)
Theorem updateQuantity_nonpositive_removes pid q s :
  q <= 0 ->
  cart (updateQuantity pid q s) = cart (removeFromCart pid s) /\
  isInCart pid (updateQuantity pid q s) = false.
Proof.
  intros Hq.
  assert (Hrm : isInCart pid (removeFromCart pid s) = false).
  { unfold isInCart, removeFromCart. rewrite saveCart_cart. simpl.
    apply not_true_iff_false. rewrite existsb_exists.
    intros [it [Hit Hs]]. unfold remove_lines in Hit.
    apply filter_In in Hit as [_ Hit]. rewrite Hs in Hit. discriminate. }
  unfold updateQuantity. destruct (List.find (same_id pid) (cart s)) eqn:E.
  - replace (q <=? 0) with true by lia. auto.
  - unfold removeFromCart. rewrite saveCart_cart. simpl.
    unfold remove_lines. rewrite filter_all_true.
    + split; [reflexivity|]. unfold isInCart. rewrite existsb_find. now rewrite E.
    + apply find_none_forall in E. eapply Forall_impl; [exact E|].
      intros it H. now rewrite H.
Qed.

(** C6: after [clearCart()] the item count and the total are 0, and
    when the write succeeds a reload gives back an empty cart. *)
Theorem clearCart_empty s :
  getCartItemsCount (clearCart s) = 0 /\ getCartTotal (clearCart s) = 0 /\
  (ls_quota_ok (storage s) = true -> loadCart (storage (clearCart s)) = []).
Proof.
  unfold getCartItemsCount, getCartTotal, clearCart. rewrite saveCart_cart.
  split; [reflexivity|]. split; [reflexivity|].
  intros Hq. unfold saveCart. simpl. rewrite ls_setItem_cart_ok by assumption.
  reflexivity.
Qed.

(** ** The well-formedness invariant *)

Lemma map_ci_id_update_first pid f c :
  (forall it, ci_id (f it) = ci_id it) ->
  map ci_id (update_first pid f c) = map ci_id c.
Proof.
  intros Hf. induction c as [|it c IH]; simpl; [reflexivity|].
  destruct (same_id pid it); simpl; now rewrite ?Hf, ?IH.
Qed.

Lemma Forall_update_first (P : CartItem -> Prop) pid f c :
  (forall it, P it -> P (f it)) -> Forall P c -> Forall P (update_first pid f c).
Proof.
  intros Hf. induction 1; simpl; [constructor|].
  destruct (same_id pid x); constructor; auto.
Qed.

Lemma find_none_not_in pid c :
  List.find (same_id pid) c = None -> ~ In pid (map ci_id c).
Proof.
  intros H Hin. apply in_map_iff in Hin as [it [Hid Hit]].
  apply find_none_forall in H. rewrite List.Forall_forall in H.
  specialize (H it Hit). unfold same_id in H. zbool. contradiction.
Qed.

Lemma update_first_wf pid f c :
  (forall it, ci_id (f it) = ci_id it) ->
  (forall it, 0 < quantity it -> 0 < quantity (f it)) ->
  cart_wf c -> cart_wf (update_first pid f c).
Proof.
  intros Hid Hq [Hnd Hpos]. split.
  - now rewrite map_ci_id_update_first.
  - now apply Forall_update_first.
Qed.

Lemma add_line_wf p q c : 0 < q -> cart_wf c -> cart_wf (add_line p q c).
Proof.
  intros Hq Hwf. unfold add_line. destruct (List.find _ c) eqn:E.
  - apply update_first_wf; auto. simpl. lia.
  - destruct Hwf as [Hnd Hpos]. split.
    + rewrite map_app. simpl. apply List.NoDup_app; [exact Hnd| |].
      * repeat constructor. simpl. tauto.
      * intros x Hx Hx'. destruct Hx' as [<-|[]]. now apply (find_none_not_in (id p) c).
    + apply Forall_app. split; [exact Hpos|]. constructor; [simpl; lia | constructor].
Qed.

Lemma remove_lines_wf pid c : cart_wf c -> cart_wf (remove_lines pid c).
Proof. intros [Hnd Hpos]. split; [now apply NoDup_map_filter | now apply Forall_filter_sub]. Qed.

Lemma run_call_cart_wf o s :
  page_call o -> cart_wf (cart s) -> cart_wf (cart (run_call o s)).
Proof.
  intros Ho Hwf. destruct o as [p q|pid|pid q|]; simpl in *.
  - unfold addToCart. rewrite saveCart_cart. now apply add_line_wf.
  - unfold removeFromCart. rewrite saveCart_cart. now apply remove_lines_wf.
  - unfold updateQuantity. destruct (List.find _ _); [|exact Hwf]. case_if.
    + unfold removeFromCart. rewrite saveCart_cart. now apply remove_lines_wf.
    + rewrite saveCart_cart. apply update_first_wf; auto.
  - unfold clearCart. rewrite saveCart_cart. split; constructor.
Qed.

(** C4: in every state reachable from a page load whose stored cart is
    well formed, through the calls the pages make, the cart has at most
    one line per product id and every quantity is positive. *)
Theorem reachable_cart_wf s : reachable s -> cart_wf (cart s).
Proof.
  induction 1 as [ls Hls|s o _ IH Ho]; [exact Hls|].
  now apply run_call_cart_wf.
Qed.

(** C10: [addToCart] has no guard on the quantity: when the resulting
    quantity of the product is not positive (a first add with [q <= 0],
    or a negative [q] that cancels the line), the cart is left with a
    line of quantity [<= 0] instead of removing it. *)
Theorem addToCart_nonpositive_breaks_wf p q s :
  getProductQuantity (id p) s + q <= 0 -> ~ cart_wf (cart (addToCart p q s)).
Proof.
  intros Hle [_ Hpos]. unfold addToCart in Hpos. rewrite saveCart_cart in Hpos.
  simpl in Hpos. pose proof (find_add_line p q (cart s)) as Hf.
  apply find_some in Hf as [Hin _]. rewrite List.Forall_forall in Hpos.
  specialize (Hpos _ Hin). rewrite getProductQuantity_find in Hle.
  destruct (List.find _ (cart s)); simpl in *; lia.
Qed.

(** ** Storage: mirror and failure *)

Lemma saveCart_quota s : ls_quota_ok (storage (saveCart s)) = ls_quota_ok (storage s).
Proof.
  unfold saveCart, ls_setItem_cart. destruct (ls_quota_ok (storage s)) eqn:E; simpl; auto.
Qed.

Lemma saveCart_synced s : ls_quota_ok (storage s) = true -> synced (saveCart s).
Proof.
  intros Hq. unfold synced, saveCart. rewrite ls_setItem_cart_ok by assumption. reflexivity.
Qed.

Lemma saveCart_full s : ls_quota_ok (storage s) = false -> saveCart s = s.
Proof. intros Hq. unfold saveCart. now rewrite ls_setItem_cart_full. Qed.

(** Every call ends in [saveCart] of some cart, or leaves the state. *)
Lemma run_call_shape o s :
  run_call o s = s \/ exists c, run_call o s = saveCart (with_cart c s).
Proof.
  destruct o; simpl; unfold addToCart, removeFromCart, clearCart; eauto.
  unfold updateQuantity, removeFromCart. destruct (List.find _ _); [|auto].
  destruct (q <=? 0); eauto.
Qed.

Lemma run_call_quota o s :
  ls_quota_ok (storage (run_call o s)) = ls_quota_ok (storage s).
Proof.
  destruct (run_call_shape o s) as [->|[c ->]]; [reflexivity|].
  now rewrite saveCart_quota.
Qed.

(** C7: while [localStorage] accepts writes, every state reachable from
    a page load is mirrored: reloading the page ([loadCart]) gives back
    exactly the cart in memory, in the same order. *)
Theorem reachable_synced s :
  reachable s -> ls_quota_ok (storage s) = true -> synced s.
Proof.
  induction 1 as [ls _|s o _ IH _]; intros Hq; [reflexivity|].
  rewrite run_call_quota in Hq.
  destruct (run_call_shape o s) as [->|[c ->]]; [now apply IH|].
  now apply saveCart_synced.
Qed.

(** when [localStorage] refuses writes, every call still changes
    the cart in memory but leaves the storage as it was: the failure is
    swallowed and the change is lost on the next reload. *)
Theorem quota_full_storage_unchanged o s :
  ls_quota_ok (storage s) = false -> storage (run_call o s) = storage s.
Proof.
  intros Hq. destruct (run_call_shape o s) as [->|[c ->]]; [reflexivity|].
  now rewrite saveCart_full.
Qed.

(** ** Refinement by the abstract cart *)

Lemma view_lookup pid c :
  view c !! pid = option_map quantity (List.find (same_id pid) c).
Proof.
  induction c as [|it c IH]; simpl; [apply lookup_empty|].
  rewrite lookup_insert. unfold same_id at 1.
  destruct (decide (ci_id it = pid)) as [->|Hne].
  - now rewrite Z.eqb_refl.
  - apply Z.eqb_neq in Hne. now rewrite Hne.
Qed.

Lemma view_update_first pid f c :
  (forall it, ci_id (f it) = ci_id it) ->
  view (update_first pid f c) =
  match List.find (same_id pid) c with
  | Some it => <[pid := quantity (f it)]> (view c)
  | None => view c
  end.
Proof.
  intros Hf. induction c as [|it c IH]; simpl; [reflexivity|].
  destruct (same_id pid it) eqn:E; simpl.
  - unfold same_id in E. zbool. subst. rewrite Hf. now rewrite insert_insert_eq.
  - rewrite IH. unfold same_id in E. zbool.
    destruct (List.find _ c); [|reflexivity]. now apply insert_insert_ne.
Qed.

Lemma view_remove_lines pid c : view (remove_lines pid c) = delete pid (view c).
Proof.
  unfold remove_lines. induction c as [|it c IH]; simpl.
  - symmetry. apply delete_empty.
  - destruct (same_id pid it) eqn:E; simpl; rewrite IH; unfold same_id in E; zbool.
    + subst. now rewrite delete_insert_eq.
    + now rewrite delete_insert_ne.
Qed.

Lemma view_app_new x c :
  List.find (same_id (ci_id x)) c = None ->
  view (c ++ [x]) = <[ci_id x := quantity x]> (view c).
Proof.
  induction c as [|it c IH]; simpl; [reflexivity|].
  destruct (same_id (ci_id x) it) eqn:E; [discriminate|]. intros H.
  rewrite IH by assumption. unfold same_id in E. zbool.
  now apply insert_insert_ne.
Qed.

(** C8: each call of the service implements its abstract counterpart
    on the map from product id to quantity: add increments (from 0 for
    a new id), remove deletes, update deletes at [q <= 0], sets
    otherwise and ignores absent ids, clear empties the map.  The list
    refines the map for every cart, well formed or not. *)
Theorem cart_refines o s : view (cart (run_call o s)) = abs_call o (view (cart s)).
Proof.
  destruct o as [p q|pid|pid q|]; simpl.
  - unfold addToCart, add_line. rewrite saveCart_cart. simpl. rewrite view_lookup.
    destruct (List.find (same_id (id p)) (cart s)) eqn:E; simpl.
    + rewrite view_update_first by reflexivity. now rewrite E.
    + rewrite (view_app_new (item_of_product p q)) by exact E. simpl.
      f_equal.
  - unfold removeFromCart. rewrite saveCart_cart. apply view_remove_lines.
  - unfold updateQuantity. rewrite view_lookup.
    destruct (List.find (same_id pid) (cart s)) eqn:E; simpl; [|reflexivity].
    destruct (q <=? 0).
    + unfold removeFromCart. rewrite saveCart_cart. apply view_remove_lines.
    + rewrite saveCart_cart. simpl. rewrite view_update_first by reflexivity.
      now rewrite E.
  - unfold clearCart. rewrite saveCart_cart. reflexivity.
Qed.

(** the cart's read methods are functions of the abstract map:
    [getProductQuantity] is its value or 0, [isInCart] its domain. *)
Theorem observations_refine pid s :
  getProductQuantity pid s = view (cart s) !! pid ?? 0 /\
  isInCart pid s = bool_decide (is_Some (view (cart s) !! pid)).
Proof.
  rewrite view_lookup, getProductQuantity_find. split; [reflexivity|].
  unfold isInCart. rewrite existsb_find.
  now destruct (List.find _ _).
Qed.

(** ** Witnesses *)

Lemma reachable_cart_wf_witness :
  let s := run_call (CallAdd sample_product 1) (init fresh_storage) in
  reachable s /\ cart_wf (cart s).
Proof.
  assert (H : reachable (run_call (CallAdd sample_product 1) (init fresh_storage))).
  { apply reach_call; [apply reach_init; split; constructor | simpl; lia]. }
  split; [exact H | apply reachable_cart_wf; exact H].
Defined.

Lemma updateQuantity_nonpositive_removes_witness :
  let s := addToCart sample_product 2 (init fresh_storage) in
  0 <= 0 /\ cart (updateQuantity 7 0 s) = cart (removeFromCart 7 s).
Proof.
  split; [lia|].
  apply (updateQuantity_nonpositive_removes 7 0). lia.
Defined.

Lemma clearCart_empty_witness :
  let s := addToCart sample_product 2 (init fresh_storage) in
  ls_quota_ok (storage s) = true /\ loadCart (storage (clearCart s)) = [].
Proof.
  split; [reflexivity|].
  apply (clearCart_empty (addToCart sample_product 2 (init fresh_storage))). reflexivity.
Defined.

Lemma addToCart_nonpositive_breaks_wf_witness :
  getProductQuantity (id sample_product) (init fresh_storage) + 0 <= 0 /\
  ~ cart_wf (cart (addToCart sample_product 0 (init fresh_storage))).
Proof.
  split; [vm_compute; congruence|].
  apply addToCart_nonpositive_breaks_wf. vm_compute. congruence.
Defined.

Lemma reachable_synced_witness :
  let s := run_call (CallAdd sample_product 1) (init fresh_storage) in
  reachable s /\ ls_quota_ok (storage s) = true /\ synced s.
Proof.
  assert (H : reachable (run_call (CallAdd sample_product 1) (init fresh_storage))).
  { apply reach_call; [apply reach_init; split; constructor | simpl; lia]. }
  split; [exact H|]. split; [reflexivity|].
  apply reachable_synced; [exact H | reflexivity].
Defined.

Lemma quota_full_storage_unchanged_witness :
  ls_quota_ok (storage (init full_storage)) = false /\
  storage (run_call (CallAdd sample_product 1) (init full_storage)) = full_storage.
Proof.
  split; [reflexivity|].
  apply (quota_full_storage_unchanged (CallAdd sample_product 1) (init full_storage)).
  reflexivity.
Defined.

End CartService.
