(* ===== verification/Pagination.v ===== *)
(** * Pagination: [src/src/hooks/usePagination.js] and HomePage's page list

    [Module UsePagination] is the hook: [totalPages], the window
    [currentData] (a JS [slice]), the moves [nextPage], [prevPage],
    [goToPage], [resetPage] on the [currentPage] state, the display
    values and the compressed page list [getPageRange].  [Module
    HomePage] is the second page-list builder, written inline in
    [src/src/pages/HomePage.jsx].  Both page lists are compared with one
    reference definition, [page_range_spec]: page 1, the last page and
    the window of two pages around the current one, increasing, with an
    ellipsis wherever two shown pages are not adjacent.

    The theorems: the pages partition the data, each page of the range
    is non-empty and at most [itemsPerPage] long, the moves keep the page
    inside [1, totalPages] when there is a page, both builders agree
    with the reference wherever they are displayed, and their [for]
    loops ([range_loop], run on the prelude's fuel) always finish. *)

From S2P Require Import Spec2Rocq.

(** An entry of a page list: a page number or the ['...'] marker. *)
Inductive page_item :=
| PageNum (n : Z)
| Dots.

#[export] Instance page_item_eq_dec : EqDecision page_item.
Proof. solve_decision. Defined.

Module UsePagination.

Section Hook.
Context {A : Type}.

(** [Math.ceil(data.length / itemsPerPage)] *)
Definition totalPages (data : list A) (itemsPerPage : Z) : Z :=
  ceil_div (Z.of_nat (length data)) itemsPerPage.

(** [data.slice(startIndex, endIndex)] *)
Definition currentData (data : list A) (itemsPerPage currentPage : Z) : list A :=
  let startIndex := (currentPage - 1) * itemsPerPage in
  let endIndex := startIndex + itemsPerPage in
  js_slice data startIndex endIndex.
End Hook.

(** [setCurrentPage(prev => Math.min(prev + 1, totalPages))] *)
Definition nextPage (totalPages prev : Z) : Z := Z.min (prev + 1) totalPages.

(** [setCurrentPage(prev => Math.max(prev - 1, 1))] *)
Definition prevPage (prev : Z) : Z := Z.max (prev - 1) 1.

(** [Math.max(1, Math.min(page, totalPages))] *)
Definition goToPage (totalPages page : Z) : Z := Z.max 1 (Z.min page totalPages).

Definition resetPage : Z := 1.

Definition hasNextPage (currentPage totalPages : Z) : bool := currentPage <? totalPages.
Definition hasPrevPage (currentPage : Z) : bool := 1 <? currentPage.

(** The 1-based first and last item numbers shown. *)
Definition startIndex (currentPage itemsPerPage : Z) : Z := (currentPage - 1) * itemsPerPage + 1.
Definition endIndex (currentPage itemsPerPage totalItems : Z) : Z :=
  Z.min (currentPage * itemsPerPage) totalItems.

(** The [for] loop of [getPageRange], from [Math.max(2, currentPage -
    delta)] to [Math.min(totalPages - 1, currentPage + delta)]. *)
Definition range_loop (currentPage totalPages : Z) : option (list Z) :=
  let lo := Z.max 2 (currentPage - 2) in
  let hi := Z.min (totalPages - 1) (currentPage + 2) in
  push_upto (loop_fuel lo hi) lo hi [].

(** [getPageRange()] with [delta = 2]. *)
Definition getPageRange (currentPage totalPages : Z) : list page_item :=
  let delta := 2 in
  let range := match range_loop currentPage totalPages with Some r => r | None => [] end in
  (if 2 <? currentPage - delta then [PageNum 1; Dots] else [PageNum 1]) ++
  map PageNum range ++
  (if currentPage + delta <? totalPages - 1 then [Dots; PageNum totalPages] else [PageNum totalPages]).

(** The handlers the page controls call. *)
Inductive move :=
| MNext
| MPrev
| MGoTo (page : Z)
| MReset.

Definition apply_move (totalPages : Z) (m : move) (currentPage : Z) : Z :=
  match m with
  | MNext => nextPage totalPages currentPage
  | MPrev => prevPage currentPage
  | MGoTo page => goToPage totalPages page
  | MReset => resetPage
  end.

End UsePagination.

Module HomePage.

(** The [for] loop of the closure, from [start] to [end]. *)
Definition range_loop (currentPage totalPages : Z) : option (list Z) :=
  let start := Z.max 1 (currentPage - 2) in
  let end_ := Z.min totalPages (currentPage + 2) in
  push_upto (loop_fuel start end_) start end_ [].

(** The [getPageRange] closure HomePage passes to [Pagination]. *)
Definition getPageRange (currentPage totalPages : Z) : list page_item :=
  let start := Z.max 1 (currentPage - 2) in
  let end_ := Z.min totalPages (currentPage + 2) in
  let range := match range_loop currentPage totalPages with Some r => r | None => [] end in
  (if 1 <? start then PageNum 1 :: (if 2 <? start then [Dots] else []) else []) ++
  map PageNum range ++
  (if end_ <? totalPages
   then (if end_ <? totalPages - 1 then [Dots] else []) ++ [PageNum totalPages]
   else []).

End HomePage.

(** ** The reference page list *)

(** The pages shown: 1, the last page, and the pages at distance at most
    2 from the current one, in increasing order. *)
Definition shown_pages (currentPage totalPages : Z) : list Z :=
  List.filter (fun i => (i =? 1) || (i =? totalPages) ||
                        ((currentPage - 2 <=? i) && (i <=? currentPage + 2)))
              (zrange 1 totalPages).

(** Number each page, with ['...'] before a page not adjacent to the
    previous one. *)
Fixpoint with_dots_from (prev : Z) (l : list Z) : list page_item :=
  match l with
  | [] => []
  | x :: l' => (if 1 <? x - prev then [Dots; PageNum x] else [PageNum x]) ++ with_dots_from x l'
  end.

Definition with_dots (l : list Z) : list page_item :=
  match l with
  | [] => []
  | x :: l' => PageNum x :: with_dots_from x l'
  end.

Definition page_range_spec (currentPage totalPages : Z) : list page_item :=
  with_dots (shown_pages currentPage totalPages).

(** ** Windows and the partition of the data *)

Section Windows.
Context {A : Type}.
Import UsePagination.

Lemma currentData_window (data : list A) k p :
  0 < k -> 1 <= p ->
  currentData data k p = firstn (Z.to_nat k) (skipn (Z.to_nat ((p - 1) * k)) data).
Proof. intros Hk Hp. unfold currentData. apply js_slice_window; nia. Qed.

Lemma totalPages_spec (data : list A) k :
  0 < k ->
  0 <= totalPages data k /\
  (totalPages data k - 1) * k < Z.of_nat (length data) <= totalPages data k * k.
Proof.
  intros Hk. unfold totalPages.
  pose proof (ceil_div_spec (Z.of_nat (length data)) k Hk). nia.
Qed.

(** The pages from [a] on, [n] of them, cover the data from page [a]. *)
Lemma pages_from (data : list A) k n a :
  0 < k -> 1 <= a ->
  Z.of_nat (length data) <= (a - 1 + Z.of_nat n) * k ->
  concat (map (currentData data k) (zseq a n)) = skipn (Z.to_nat ((a - 1) * k)) data.
Proof.
  intros Hk. revert a. induction n as [|n IH]; intros a Ha Hlen; simpl.
  - symmetry. apply skipn_all2. nia.
  - rewrite currentData_window, IH by lia.
    replace ((a + 1 - 1) * k) with (k + (a - 1) * k) by ring.
    rewrite Z2Nat.inj_add by nia. rewrite <- skipn_skipn. apply firstn_skipn.
Qed.

Lemma currentData_length (data : list A) k p :
  0 < k -> 1 <= p ->
  Z.of_nat (length (currentData data k p)) =
  Z.max 0 (Z.min k (Z.of_nat (length data) - (p - 1) * k)).
Proof.
  intros Hk Hp. rewrite currentData_window by lia.
  rewrite length_firstn, length_skipn. nia.
Qed.

(** A page past the last one is empty. *)
Lemma currentData_past_end (data : list A) k p :
  0 < k -> totalPages data k < p -> currentData data k p = [].
Proof.
  intros Hk Hp. pose proof (totalPages_spec data k Hk).
  apply length_zero_iff_nil. pose proof (currentData_length data k p Hk ltac:(lia)). nia.
Qed.
End Windows.

(** ** Theorems *)

Section PaginationTheorems.
Context {A : Type}.
Import UsePagination.

(** C33: for a positive page size, the pages [1 .. totalPages] of
    [usePagination], concatenated in order, give back the data: no
    product is skipped or shown twice. *)
Theorem pages_partition (data : list A) itemsPerPage :
  0 < itemsPerPage ->
  concat (map (currentData data itemsPerPage) (zrange 1 (totalPages data itemsPerPage))) = data.
Proof.
  intros Hk. pose proof (totalPages_spec data itemsPerPage Hk).
  unfold zrange. rewrite pages_from by nia. reflexivity.
Qed.

(** every page from 1 to [totalPages] holds between 1 and
    [itemsPerPage] items: [itemsPerPage] of them, or what is left on
    the last page. *)
Theorem page_length_bounds (data : list A) itemsPerPage currentPage :
  0 < itemsPerPage -> 1 <= currentPage <= totalPages data itemsPerPage ->
  Z.of_nat (length (currentData data itemsPerPage currentPage)) =
    Z.min itemsPerPage (Z.of_nat (length data) - (currentPage - 1) * itemsPerPage) /\
  0 < Z.of_nat (length (currentData data itemsPerPage currentPage)) <= itemsPerPage.
Proof.
  intros Hk Hp. pose proof (totalPages_spec data itemsPerPage Hk).
  rewrite currentData_length by lia. nia.
Qed.
End PaginationTheorems.

(** ** The page lists *)

Lemma last_cons_default {A} (x : A) l d : List.last (x :: l) d = List.last l x.
Proof.
  revert x d. induction l as [|y l IH]; intros x d; [reflexivity|].
  change (List.last (x :: y :: l) d) with (List.last (y :: l) d). now rewrite !IH.
Qed.

Lemma with_dots_from_app p l1 l2 :
  with_dots_from p (l1 ++ l2) = with_dots_from p l1 ++ with_dots_from (List.last l1 p) l2.
Proof.
  revert p. induction l1 as [|x l1 IH]; intros p; [reflexivity|].
  simpl (with_dots_from p ((x :: l1) ++ l2)). rewrite IH, last_cons_default.
  simpl. now rewrite app_assoc.
Qed.

(** A run of consecutive pages gets no ellipsis. *)
Lemma with_dots_from_run p n : with_dots_from p (zseq (p + 1) n) = map PageNum (zseq (p + 1) n).
Proof.
  revert p. induction n as [|n IH]; intros p; [reflexivity|].
  simpl. replace (1 <? p + 1 - p) with false by lia. simpl. f_equal. apply IH.
Qed.

Lemma with_dots_from_block p a b R :
  a <= b ->
  with_dots_from p (zrange a b ++ R) =
  (if 1 <? a - p then [Dots] else []) ++ map PageNum (zrange a b) ++ with_dots_from b R.
Proof.
  intros H. rewrite with_dots_from_app, last_zrange by lia. rewrite app_assoc. f_equal.
  rewrite zrange_cons by lia. simpl. unfold zrange at 1 2. rewrite with_dots_from_run.
  now destruct (1 <? a - p).
Qed.

Lemma with_dots_zrange a b R :
  a <= b -> with_dots (zrange a b ++ R) = with_dots_from (a - 1) (zrange a b ++ R).
Proof.
  intros H. rewrite zrange_cons by lia. simpl.
  now replace (1 <? a - (a - 1)) with false by lia.
Qed.

(** The reference list is page 1 when the window does not reach it, the
    window, and the last page when the window does not reach it. *)
Lemma shown_pages_split cp tp :
  1 <= cp <= tp ->
  shown_pages cp tp =
  (if 1 <? Z.max 1 (cp - 2) then [1] else []) ++
  zrange (Z.max 1 (cp - 2)) (Z.min tp (cp + 2)) ++
  (if Z.min tp (cp + 2) <? tp then [tp] else []).
Proof.
  intros H. unfold shown_pages.
  rewrite (zrange_split 1 (Z.max 1 (cp - 2)) tp) by lia.
  rewrite (zrange_split (Z.max 1 (cp - 2)) (Z.min tp (cp + 2) + 1) tp) by lia.
  rewrite !List.filter_app. replace (Z.min tp (cp + 2) + 1 - 1) with (Z.min tp (cp + 2)) by lia.
  f_equal; [|f_equal].
  - destruct (1 <? Z.max 1 (cp - 2)) eqn:HS; zbool.
    + rewrite zrange_cons by lia. simpl. f_equal.
      apply filter_zrange_none. intros x Hx. zcmp.
    + rewrite zrange_empty by lia. reflexivity.
  - apply filter_zrange_all. intros x Hx. zcmp.
  - destruct (Z.min tp (cp + 2) <? tp) eqn:HE; zbool.
    + rewrite zrange_snoc by lia. rewrite List.filter_app, filter_zrange_none.
      * simpl. zcmp.
      * intros x Hx. zcmp.
    + rewrite zrange_empty by lia. reflexivity.
Qed.

Lemma with_dots_tail e tp :
  with_dots_from e (if e <? tp then [tp] else []) =
  (if e <? tp then (if e <? tp - 1 then [Dots] else []) ++ [PageNum tp] else []).
Proof. zcmp. Qed.

(** the page list [HomePage] renders is the reference list for
    every current page between 1 and [totalPages]. *)
Theorem homepage_range_spec currentPage totalPages :
  1 <= currentPage <= totalPages ->
  HomePage.getPageRange currentPage totalPages = page_range_spec currentPage totalPages.
Proof.
  intros H. unfold page_range_spec. rewrite shown_pages_split by lia.
  unfold HomePage.getPageRange, HomePage.range_loop. rewrite push_upto_loop_fuel.
  destruct (1 <? Z.max 1 (currentPage - 2)) eqn:HS; zbool.
  - simpl (with_dots _). rewrite with_dots_from_block, with_dots_tail by lia.
    simpl. do 2 f_equal. zcmp.
  - simpl app. rewrite with_dots_zrange by lia.
    rewrite with_dots_from_block, with_dots_tail by lia. zcmp.
Qed.

Lemma shown_pages_hook_form cp tp :
  2 <= tp -> 1 <= cp <= tp ->
  shown_pages cp tp = 1 :: zrange (Z.max 2 (cp - 2)) (Z.min (tp - 1) (cp + 2)) ++ [tp].
Proof.
  intros Htp H. rewrite shown_pages_split by lia.
  destruct (1 <? Z.max 1 (cp - 2)) eqn:HS; zbool;
  destruct (Z.min tp (cp + 2) <? tp) eqn:HE; zbool.
  - simpl. do 3 f_equal; lia.
  - simpl. rewrite (zrange_snoc _ (Z.min tp (cp + 2))), app_nil_r by lia.
    do 3 f_equal; lia.
  - rewrite zrange_cons by lia. simpl. do 3 f_equal; lia.
  - rewrite zrange_cons by lia. simpl.
    rewrite (zrange_snoc _ (Z.min tp (cp + 2))), app_nil_r by lia.
    do 3 f_equal; lia.
Qed.

(** wherever the [Pagination] component renders it (two pages or
    more, current page among them), the page list of [usePagination] is
    the reference list, hence the one [HomePage] builds. *)
Theorem usePagination_range_spec currentPage totalPages :
  2 <= totalPages -> 1 <= currentPage <= totalPages ->
  UsePagination.getPageRange currentPage totalPages = page_range_spec currentPage totalPages.
Proof.
  intros Htp H. unfold page_range_spec. rewrite shown_pages_hook_form by lia.
  unfold UsePagination.getPageRange, UsePagination.range_loop. rewrite push_upto_loop_fuel.
  simpl (with_dots _).
  destruct (Z.le_gt_cases (Z.max 2 (currentPage - 2)) (Z.min (totalPages - 1) (currentPage + 2))).
  - rewrite with_dots_from_block by lia. zcmp.
  - rewrite zrange_empty by lia. zcmp.
Qed.

(** the [for] loops of both page-range builders end within their
    bound for every current page and page count, with the pages from the
    start of the window to its end, each once and in order. *)
Theorem range_loops_terminate currentPage totalPages :
  UsePagination.range_loop currentPage totalPages =
    Some (zrange (Z.max 2 (currentPage - 2)) (Z.min (totalPages - 1) (currentPage + 2))) /\
  HomePage.range_loop currentPage totalPages =
    Some (zrange (Z.max 1 (currentPage - 2)) (Z.min totalPages (currentPage + 2))).
Proof. split; apply push_upto_loop_fuel. Qed.

(** the hook's list for a single page repeats page 1 (both the
    "first" and the "last" entry); the reference and HomePage's list
    show it once.  [Pagination] returns [null] for one page, so the
    duplicate is never rendered. *)
Example usePagination_single_page :
  UsePagination.getPageRange 1 1 = [PageNum 1; PageNum 1] /\
  page_range_spec 1 1 = [PageNum 1] /\
  HomePage.getPageRange 1 1 = [PageNum 1].
Proof. repeat split; reflexivity. Qed.

Section Moves.
Import UsePagination.

(** while there is at least one page, every move of the page
    controls ([nextPage], [prevPage], [goToPage] with any argument,
    [resetPage]) keeps the current page between 1 and [totalPages]. *)
Theorem moves_stay_in_range totalPages m currentPage :
  1 <= totalPages -> 1 <= currentPage <= totalPages ->
  1 <= apply_move totalPages m currentPage <= totalPages.
Proof.
  intros Htp H. destruct m; simpl;
    unfold nextPage, prevPage, goToPage, resetPage; lia.
Qed.

(** the example of the specification: 250 products, 100 per page,
    give 3 pages; page 1 holds products 1 to 100, page 3 products 201
    to 250; page 3 has no next page and shows the range 201 to 250. *)
Example pagination_250_by_100 :
  let data := zrange 1 250 in
  totalPages data 100 = 3 /\
  currentData data 100 1 = zrange 1 100 /\
  currentData data 100 3 = zrange 201 250 /\
  hasNextPage 3 (totalPages data 100) = false /\
  startIndex 3 100 = 201 /\ endIndex 3 100 (Z.of_nat (length data)) = 250.
Proof. vm_compute. repeat split; reflexivity. Qed.
End Moves.

(** ** Witnesses *)

Lemma pages_partition_witness :
  0 < 2 /\ concat (map (UsePagination.currentData [10; 20; 30] 2)
                       (zrange 1 (UsePagination.totalPages [10; 20; 30] 2))) = [10; 20; 30].
Proof. split; [lia | apply pages_partition; lia]. Defined.

Lemma page_length_bounds_witness :
  0 < 2 /\ 1 <= 2 <= UsePagination.totalPages [10; 20; 30] 2 /\
  Z.of_nat (length (UsePagination.currentData [10; 20; 30] 2 2)) = 1.
Proof.
  split; [lia|]. split; [vm_compute; split; congruence|].
  pose proof (page_length_bounds [10; 20; 30] 2 2 ltac:(lia) ltac:(vm_compute; split; congruence))
    as [H _].
  rewrite H. reflexivity.
Defined.

Lemma homepage_range_spec_witness :
  1 <= 5 <= 10 /\ HomePage.getPageRange 5 10 = page_range_spec 5 10.
Proof. split; [lia | apply homepage_range_spec; lia]. Defined.

Lemma usePagination_range_spec_witness :
  2 <= 10 /\ 1 <= 5 <= 10 /\ UsePagination.getPageRange 5 10 = page_range_spec 5 10.
Proof. split; [lia|]. split; [lia|]. apply usePagination_range_spec; lia. Defined.

Lemma moves_stay_in_range_witness :
  1 <= 3 /\ 1 <= 3 <= 3 /\ 1 <= UsePagination.apply_move 3 UsePagination.MNext 3 <= 3.
Proof. split; [lia|]. split; [lia|]. apply moves_stay_in_range; lia. Defined.
