(* ===== verification/JsString.v ===== *)
(** * JsString: the JavaScript string primitives the catalog code calls

    [String.prototype.split] with a one-character separator, [trim],
    [toLowerCase], [includes], the removal of every double quote
    ([replace] with a global pattern), the global [parseInt] (ECMAScript
    2023, 19.2.5) and [parseFloat] (19.2.4, without the rounding to a
    double), and [encodeURIComponent] on UTF-8 bytes, on Stdlib strings.  The code
    iterates and splits only on ASCII characters (double quote, comma,
    line feed), so
    working on the bytes of a UTF-8 string gives the same pieces as JS's
    UTF-16 code units.  Two simplifications, both documented at their
    definitions: [js_trim] strips the ASCII white space and line
    terminators only (not U+00A0, U+FEFF or the Unicode space
    separators), and [js_toLowerCase] maps ASCII letters only.

    The printers [js_join] ([Array.prototype.join]) and [js_int_string]
    ([String(n)] of an integer) are not called by the parsing code: they
    build the inputs of the round-trip theorems. *)

From S2P Require Import Spec2Rocq.

(** stdpp makes [append] opaque to [simpl]; the proofs below compute with it. *)
#[local] Arguments String.append : simpl nomatch.

(** The characters the code names. *)
Definition dquote : ascii := ascii_of_nat 34.
Definition comma : ascii := ascii_of_nat 44.
Definition newline : ascii := ascii_of_nat 10.
Definition minus_sign : ascii := ascii_of_nat 45.
Definition plus_sign : ascii := ascii_of_nat 43.

Definition code (c : ascii) : Z := Z.of_nat (nat_of_ascii c).

(** ** [split], [join] *)

(** [s.split(c)]: the pieces between the occurrences of [c]; there is
    always at least one piece. *)
Fixpoint js_split (c : ascii) (s : string) : list string :=
  match s with
  | EmptyString => [EmptyString]
  | String x r =>
      let parts := js_split c r in
      if Ascii.eqb x c then EmptyString :: parts
      else match parts with
           | p :: ps => String x p :: ps
           | [] => [String x EmptyString]
           end
  end.

(** [parts.join(c)] *)
Fixpoint js_join (c : ascii) (parts : list string) : string :=
  match parts with
  | [] => EmptyString
  | [p] => p
  | p :: ps => (p ++ String c (js_join c ps))%string
  end.

(** [c] does not occur in [s]. *)
Fixpoint lacks (c : ascii) (s : string) : bool :=
  match s with
  | EmptyString => true
  | String x r => negb (Ascii.eqb x c) && lacks c r
  end.

(** ** [trim], quote removal, [toLowerCase], [includes] *)

(** WhiteSpace and LineTerminator, ASCII part: TAB, LF, VT, FF, CR, SP. *)
Definition is_ws (c : ascii) : bool :=
  (code c =? 32) || ((9 <=? code c) && (code c <=? 13)).

Fixpoint trim_start (s : string) : string :=
  match s with
  | EmptyString => EmptyString
  | String c r => if is_ws c then trim_start r else s
  end.

Fixpoint trim_end (s : string) : string :=
  match s with
  | EmptyString => EmptyString
  | String c r =>
      let r' := trim_end r in
      if is_ws c && String.eqb r' EmptyString then EmptyString else String c r'
  end.

Definition js_trim (s : string) : string := trim_end (trim_start s).

(** [s.replace] of every [c] by the empty string. *)
Fixpoint js_remove_char (c : ascii) (s : string) : string :=
  match s with
  | EmptyString => EmptyString
  | String x r => if Ascii.eqb x c then js_remove_char c r else String x (js_remove_char c r)
  end.

Definition ascii_lower (c : ascii) : ascii :=
  if (65 <=? code c) && (code c <=? 90) then ascii_of_nat (nat_of_ascii c + 32) else c.

Fixpoint js_toLowerCase (s : string) : string :=
  match s with
  | EmptyString => EmptyString
  | String c r => String (ascii_lower c) (js_toLowerCase r)
  end.

(** [s.includes(sub)] *)
Fixpoint js_includes (s sub : string) : bool :=
  match s with
  | EmptyString => String.eqb sub EmptyString
  | String _ r => String.prefix sub s || js_includes r sub
  end.

(** ** [parseInt] *)

(** The value of a digit in [radix] (10 or 16), if it is one. *)
Definition digit_of (radix : Z) (c : ascii) : option Z :=
  let n := code c in
  let v := if (48 <=? n) && (n <=? 57) then Some (n - 48)
           else if (97 <=? n) && (n <=? 122) then Some (n - 87)
           else if (65 <=? n) && (n <=? 90) then Some (n - 55)
           else None in
  match v with
  | Some d => if d <? radix then Some d else None
  | None => None
  end.

(** The digits of the longest prefix made of digits. *)
Fixpoint digit_prefix (radix : Z) (s : string) : list Z :=
  match s with
  | EmptyString => []
  | String c r =>
      match digit_of radix c with
      | Some d => d :: digit_prefix radix r
      | None => []
      end
  end.

Definition digits_value (radix : Z) (ds : list Z) : Z :=
  fold_left (fun a d => a * radix + d) ds 0.

(** [parseInt(s)]: [None] is [NaN].  Leading white space, one sign, a
    [0x] prefix selecting radix 16, then the longest digit prefix. *)
Definition js_parseInt (s : string) : option Z :=
  let s1 := trim_start s in
  let '(sign, s2) :=
    match s1 with
    | String c r =>
        if Ascii.eqb c minus_sign then (-1, r)
        else if Ascii.eqb c plus_sign then (1, r) else (1, s1)
    | EmptyString => (1, s1)
    end in
  let '(radix, s3) :=
    match s2 with
    | String z (String x r) =>
        if (code z =? 48) && ((code x =? 120) || (code x =? 88)) then (16, r) else (10, s2)
    | _ => (10, s2)
    end in
  match digit_prefix radix s3 with
  | [] => None
  | ds => Some (sign * digits_value radix ds)
  end.

(** [parseInt(s) || 0]: [NaN] and [-0] are falsy. *)
Definition parseInt_or_zero (s : string) : Z := js_default (js_parseInt s) 0.

(** ** [parseFloat] *)

(** A JS number as [parseFloat] can produce it: [m * 10^e] exactly (the
    rounding to a double is not modelled; the inputs are the short
    decimal strings of a number field), an infinity, or [NaN]. *)
Inductive jsnum :=
| JsFinite (m e : Z)
| JsInf (neg : bool)
| JsNaN.

Definition is_digit (c : ascii) : bool := (48 <=? code c) && (code c <=? 57).

(** The longest prefix of decimal digits, and the rest. *)
Fixpoint dec_prefix (s : string) : list Z * string :=
  match s with
  | EmptyString => ([], EmptyString)
  | String c r =>
      if is_digit c then let '(ds, rest) := dec_prefix r in (code c - 48 :: ds, rest)
      else ([], s)
  end.

(** [e] or [E], an optional sign, at least one digit; otherwise the
    exponent is not part of the literal. *)
Definition exponent_part (s : string) : Z :=
  match s with
  | String c r =>
      if (code c =? 101) || (code c =? 69) then
        let '(sg, r2) :=
          match r with
          | String d r' =>
              if Ascii.eqb d minus_sign then (-1, r')
              else if Ascii.eqb d plus_sign then (1, r') else (1, r)
          | EmptyString => (1, r)
          end in
        match fst (dec_prefix r2) with
        | [] => 0
        | ds => sg * digits_value 10 ds
        end
      else 0
  | EmptyString => 0
  end.

(** [parseFloat(s)]: leading white space, one sign, then [Infinity] or
    the longest prefix that is a decimal literal (digits, an optional
    point and fraction, an optional exponent); [NaN] without one. *)
Definition js_parseFloat (s : string) : jsnum :=
  let s1 := trim_start s in
  let '(sign, s2) :=
    match s1 with
    | String c r =>
        if Ascii.eqb c minus_sign then (-1, r)
        else if Ascii.eqb c plus_sign then (1, r) else (1, s1)
    | EmptyString => (1, s1)
    end in
  if String.prefix "Infinity" s2 then JsInf (sign =? -1) else
  let '(ip, r1) := dec_prefix s2 in
  let '(fp, r2) :=
    match r1 with
    | String c r => if code c =? 46 then dec_prefix r else ([], r1)
    | EmptyString => ([], r1)
    end in
  match ip ++ fp with
  | [] => JsNaN
  | ds => JsFinite (sign * digits_value 10 ds) (exponent_part r2 - Z.of_nat (length fp))
  end.

(** [z >= x] and [z <= x] for an integer [z]: false against [NaN]. *)
Definition js_ge (z : Z) (x : jsnum) : bool :=
  match x with
  | JsFinite m e => if 0 <=? e then m * 10 ^ e <=? z else m <=? z * 10 ^ (- e)
  | JsInf neg => neg
  | JsNaN => false
  end.

Definition js_le (z : Z) (x : jsnum) : bool :=
  match x with
  | JsFinite m e => if 0 <=? e then z <=? m * 10 ^ e else z * 10 ^ (- e) <=? m
  | JsInf neg => negb neg
  | JsNaN => false
  end.

(** ** [String(n)] of an integer, for the round trips *)

Definition digit_char (d : Z) : ascii := ascii_of_nat (Z.to_nat (48 + d)).

(** The decimal digits of [n >= 0], most significant first; [fuel]
    bounds the number of divisions. *)
Fixpoint dec_digits (fuel : nat) (n : Z) : list Z :=
  match fuel with
  | O => [n]
  | S f => if n <? 10 then [n] else dec_digits f (n / 10) ++ [n mod 10]
  end.

Definition string_of_digits (ds : list Z) : string :=
  fold_right (fun d s => String (digit_char d) s) EmptyString ds.

Definition js_int_string (n : Z) : string :=
  if n <? 0 then String minus_sign (string_of_digits (dec_digits (Z.to_nat (- n)) (- n)))
  else string_of_digits (dec_digits (Z.to_nat n) n).

(** Strings with no white space at either end, which [trim] keeps. *)
Definition first_ws_free (s : string) : bool :=
  match s with
  | EmptyString => true
  | String c _ => negb (is_ws c)
  end.

Fixpoint last_ws_free (s : string) : bool :=
  match s with
  | EmptyString => true
  | String c EmptyString => negb (is_ws c)
  | String _ r => last_ws_free r
  end.

(** ** [encodeURIComponent] *)

(** The characters it leaves alone: letters, digits and [- _ . ! ~ * ' ( )]. *)
Definition uri_unreserved (c : ascii) : bool :=
  let n := code c in
  ((48 <=? n) && (n <=? 57)) || ((65 <=? n) && (n <=? 90)) || ((97 <=? n) && (n <=? 122)) ||
  (n =? 45) || (n =? 95) || (n =? 46) || (n =? 33) || (n =? 126) || (n =? 42) ||
  (n =? 39) || (n =? 40) || (n =? 41).

Definition hex_digit (d : Z) : ascii :=
  if d <? 10 then ascii_of_nat (Z.to_nat (48 + d)) else ascii_of_nat (Z.to_nat (55 + d)).

(** [encodeURIComponent(s)] on the UTF-8 bytes of [s]: every other byte
    becomes [%XX] in upper-case hexadecimal. *)
Fixpoint js_encodeURIComponent (s : string) : string :=
  match s with
  | EmptyString => EmptyString
  | String c r =>
      if uri_unreserved c then String c (js_encodeURIComponent r)
      else String (ascii_of_nat 37) (String (hex_digit (code c / 16))
             (String (hex_digit (code c mod 16)) (js_encodeURIComponent r)))
  end.

(** Every character of [s] is one [encodeURIComponent] may leave in
    its output: an unreserved character or [%]. *)
Fixpoint url_safe (s : string) : bool :=
  match s with
  | EmptyString => true
  | String c r => (uri_unreserved c || (code c =? 37)) && url_safe r
  end.

(** The value of a hexadecimal digit, either case. *)
Definition hex_value (c : ascii) : option Z :=
  let n := code c in
  if (48 <=? n) && (n <=? 57) then Some (n - 48)
  else if (65 <=? n) && (n <=? 70) then Some (n - 55)
  else if (97 <=? n) && (n <=? 102) then Some (n - 87)
  else None.

(** [decodeURIComponent(s)] on bytes, as the receiver of a link reads
    its parameter: [%XX] becomes the byte [XX], a malformed escape is a
    [URIError] ([None]), every other byte stays. *)
Fixpoint js_decodeURIComponent (s : string) : option string :=
  match s with
  | EmptyString => Some EmptyString
  | String c r =>
      if Ascii.eqb c (ascii_of_nat 37) then
        match r with
        | String h (String l r') =>
            match hex_value h, hex_value l, js_decodeURIComponent r' with
            | Some a, Some b, Some t => Some (String (ascii_of_nat (Z.to_nat (16 * a + b))) t)
            | _, _, _ => None
            end
        | _ => None
        end
      else option_map (String c) (js_decodeURIComponent r)
  end.

(** [s] has a character that is not white space. *)
Fixpoint has_non_ws (s : string) : bool :=
  match s with
  | EmptyString => false
  | String c r => negb (is_ws c) || has_non_ws r
  end.

(** ** Lemmas: split and join *)

Lemma code_dquote : code dquote = 34.
Proof. reflexivity. Qed.
Lemma code_comma : code comma = 44.
Proof. reflexivity. Qed.
Lemma code_newline : code newline = 10.
Proof. reflexivity. Qed.

Lemma js_split_nonnil c s : js_split c s <> [].
Proof.
  destruct s as [|x r]; simpl; [discriminate|].
  destruct (Ascii.eqb x c); [discriminate|]. destruct (js_split c r); discriminate.
Qed.

Lemma js_split_app c p s :
  lacks c p = true ->
  js_split c (p ++ s) = match js_split c s with
                         | q :: qs => (p ++ q)%string :: qs
                         | [] => [p]
                         end.
Proof.
  induction p as [|x p IH]; simpl; intros H.
  - pose proof (js_split_nonnil c s). destruct (js_split c s); [contradiction | reflexivity].
  - apply andb_true_iff in H as [Hx Hp]. apply negb_true_iff in Hx.
    rewrite Hx, IH by exact Hp.
    pose proof (js_split_nonnil c s). destruct (js_split c s); [contradiction | reflexivity].
Qed.

Lemma js_split_lacks c p : lacks c p = true -> js_split c p = [p].
Proof.
  intros H. rewrite <- (string_app_nil_r p) at 1 2. rewrite js_split_app by exact H.
  simpl. now rewrite string_app_nil_r.
Qed.

Lemma js_split_sep c s : js_split c (String c s) = EmptyString :: js_split c s.
Proof. simpl. now rewrite Ascii.eqb_refl. Qed.

(** [split] undoes [join] when no piece contains the separator. *)
Lemma js_split_join c parts :
  parts <> [] -> Forall (fun p => lacks c p = true) parts ->
  js_split c (js_join c parts) = parts.
Proof.
  intros Hne Hall. induction Hall as [|p ps Hp Hps IH]; [contradiction|].
  destruct ps as [|q qs].
  - simpl. now apply js_split_lacks.
  - change (js_join c (p :: q :: qs)) with (p ++ String c (js_join c (q :: qs)))%string.
    rewrite js_split_app by exact Hp. rewrite js_split_sep.
    now rewrite string_app_nil_r, IH by discriminate.
Qed.

Lemma lacks_app c s1 s2 : lacks c (s1 ++ s2) = lacks c s1 && lacks c s2.
Proof. induction s1 as [|x s1 IH]; simpl; [reflexivity|]. now rewrite IH, andb_assoc. Qed.

Lemma lacks_join c d parts :
  Ascii.eqb d c = false -> Forall (fun p => lacks c p = true) parts ->
  lacks c (js_join d parts) = true.
Proof.
  intros Hd. induction 1 as [|p ps Hp Hps IH]; [reflexivity|].
  destruct ps as [|q qs]; [exact Hp|].
  change (js_join d (p :: q :: qs)) with (p ++ String d (js_join d (q :: qs)))%string.
  rewrite lacks_app. cbn [lacks]. now rewrite Hp, Hd, IH.
Qed.

(** ** Lemmas: trim and quote removal *)

Lemma trim_end_clean s : last_ws_free s = true -> trim_end s = s.
Proof.
  induction s as [|c r IH]; simpl; [reflexivity|]. intros H.
  destruct r as [|c' r'].
  - simpl. apply negb_true_iff in H. now rewrite H.
  - rewrite IH by exact H. now rewrite andb_false_r.
Qed.

Lemma js_trim_clean s :
  first_ws_free s = true -> last_ws_free s = true -> js_trim s = s.
Proof.
  intros Hf Hl. unfold js_trim. destruct s as [|c r]; [reflexivity|].
  simpl in Hf. apply negb_true_iff in Hf. simpl. rewrite Hf.
  now apply trim_end_clean.
Qed.

Lemma js_remove_char_lacks c s : lacks c s = true -> js_remove_char c s = s.
Proof.
  induction s as [|x r IH]; simpl; [reflexivity|]. intros H.
  apply andb_true_iff in H as [Hx Hr]. apply negb_true_iff in Hx. rewrite Hx. f_equal. auto.
Qed.

(** ** Lemmas: [parseInt] of [String(n)] *)

Lemma digits_value_snoc r ds d : digits_value r (ds ++ [d]) = digits_value r ds * r + d.
Proof. unfold digits_value. now rewrite fold_left_app. Qed.

Lemma dec_digits_value f n : digits_value 10 (dec_digits f n) = n.
Proof.
  revert n. induction f as [|f IH]; intros n; simpl; [reflexivity|].
  destruct (n <? 10); [reflexivity|].
  rewrite digits_value_snoc, IH. pose proof (Z.div_mod n 10). lia.
Qed.

Lemma dec_digits_range f n :
  0 <= n < 10 ^ (Z.of_nat f + 1) -> Forall (fun d => 0 <= d < 10) (dec_digits f n).
Proof.
  revert n. induction f as [|f IH]; intros n Hn; simpl.
  - constructor; [simpl in Hn; lia | constructor].
  - destruct (Z.ltb_spec n 10); [constructor; [lia | constructor]|].
    apply Forall_app. split.
    + apply IH. split; [apply Z.div_pos; lia|].
      apply Z.div_lt_upper_bound; [lia|].
      replace (Z.of_nat (S f) + 1) with (1 + (Z.of_nat f + 1)) in Hn by lia.
      rewrite Z.pow_add_r in Hn by lia. lia.
    + constructor; [apply Z.mod_pos_bound; lia | constructor].
Qed.

Lemma dec_digits_nonnil f n : dec_digits f n <> [].
Proof.
  revert n. induction f as [|f IH]; intros n; simpl; [discriminate|].
  destruct (n <? 10); [discriminate|]. intros H. apply app_eq_nil in H as [_ H]. discriminate.
Qed.

Lemma dec_digits_enough n :
  0 <= n -> Forall (fun d => 0 <= d < 10) (dec_digits (Z.to_nat n) n).
Proof.
  intros Hn. apply dec_digits_range. split; [exact Hn|].
  rewrite Z2Nat.id by exact Hn.
  pose proof (Z.pow_gt_lin_r 10 (n + 1) ltac:(lia) ltac:(lia)). lia.
Qed.

Lemma code_digit_char d : 0 <= d < 10 -> code (digit_char d) = 48 + d.
Proof.
  intros Hd. unfold code, digit_char. rewrite nat_ascii_embedding by lia. lia.
Qed.

Lemma digit_of_digit_char d : 0 <= d < 10 -> digit_of 10 (digit_char d) = Some d.
Proof.
  intros Hd. unfold digit_of. rewrite code_digit_char by exact Hd.
  replace ((48 <=? 48 + d) && (48 + d <=? 57)) with true by (symmetry; apply andb_true_iff; lia).
  replace (48 + d - 48 <? 10) with true by lia. f_equal. lia.
Qed.

Lemma digit_prefix_digits ds :
  Forall (fun d => 0 <= d < 10) ds -> digit_prefix 10 (string_of_digits ds) = ds.
Proof.
  induction 1 as [|d ds Hd _ IH]; [reflexivity|].
  simpl. rewrite digit_of_digit_char by exact Hd. now f_equal.
Qed.

(** [parseInt] of the digits of a non-negative number, with a sign. *)
Lemma parseInt_digits sign c ds :
  Forall (fun d => 0 <= d < 10) ds -> ds <> [] ->
  (c = minus_sign /\ sign = -1) ->
  js_parseInt (String c (string_of_digits ds)) = Some (sign * digits_value 10 ds).
Proof.
  intros Hds Hne [-> ->]. unfold js_parseInt. simpl.
  destruct ds as [|d ds]; [contradiction|]. inversion Hds as [|? ? Hd Hds']; subst.
  simpl string_of_digits. cbn [js_parseInt].
  destruct ds as [|d' ds].
  - simpl. rewrite digit_of_digit_char by exact Hd. reflexivity.
  - inversion Hds' as [|? ? Hd' _]; subst. simpl.
    rewrite code_digit_char with (d := d') by exact Hd'.
    replace ((48 + d' =? 120) || (48 + d' =? 88)) with false by (symmetry; apply orb_false_iff; lia).
    rewrite andb_false_r. fold (string_of_digits ds).
    change (String (digit_char d) (String (digit_char d') (string_of_digits ds)))
      with (string_of_digits (d :: d' :: ds)).
    rewrite digit_prefix_digits by (constructor; auto). reflexivity.
Qed.

Lemma parseInt_digits_plain ds :
  Forall (fun d => 0 <= d < 10) ds -> ds <> [] ->
  js_parseInt (string_of_digits ds) = Some (digits_value 10 ds).
Proof.
  intros Hds Hne. destruct ds as [|d ds]; [contradiction|].
  pose proof Hds as Hall. apply List.Forall_cons_iff in Hds as [Hd Hds'].
  unfold js_parseInt. simpl string_of_digits.
  assert (Hws : is_ws (digit_char d) = false).
  { unfold is_ws. rewrite code_digit_char by exact Hd. zcmp. }
  assert (Hm : Ascii.eqb (digit_char d) minus_sign = false).
  { apply Ascii.eqb_neq. intros E. apply (f_equal code) in E.
    rewrite code_digit_char in E by exact Hd. change (code minus_sign) with 45 in E. lia. }
  assert (Hp : Ascii.eqb (digit_char d) plus_sign = false).
  { apply Ascii.eqb_neq. intros E. apply (f_equal code) in E.
    rewrite code_digit_char in E by exact Hd. change (code plus_sign) with 43 in E. lia. }
  cbn [trim_start]. rewrite Hws, Hm, Hp. cbn beta iota.
  destruct ds as [|d' ds].
  - simpl. rewrite digit_of_digit_char by exact Hd. f_equal. apply Z.mul_1_l.
  - apply List.Forall_cons_iff in Hds' as [Hd' _].
    simpl string_of_digits. cbn beta iota.
    rewrite (code_digit_char d') by exact Hd'.
    replace ((48 + d' =? 120) || (48 + d' =? 88)) with false by zcmp.
    rewrite andb_false_r.
    change (String (digit_char d) (String (digit_char d') (string_of_digits ds)))
      with (string_of_digits (d :: d' :: ds)).
    rewrite digit_prefix_digits by exact Hall. f_equal. apply Z.mul_1_l.
Qed.

(** [parseInt(String(n)) === n] for every integer. *)
Lemma parseInt_int_string n : js_parseInt (js_int_string n) = Some n.
Proof.
  unfold js_int_string. destruct (Z.ltb_spec n 0).
  - rewrite (parseInt_digits (-1) minus_sign).
    + rewrite dec_digits_value. f_equal. lia.
    + apply dec_digits_enough. lia.
    + apply dec_digits_nonnil.
    + split; reflexivity.
  - rewrite parseInt_digits_plain.
    + now rewrite dec_digits_value.
    + now apply dec_digits_enough.
    + apply dec_digits_nonnil.
Qed.

Lemma parseInt_or_zero_int_string n : parseInt_or_zero (js_int_string n) = n.
Proof. unfold parseInt_or_zero. now rewrite parseInt_int_string. Qed.

(** ** Lemmas: what integer strings contain *)

Lemma lacks_string_of_digits c ds :
  Forall (fun d => 0 <= d < 10) ds -> (code c < 48 \/ 57 < code c) ->
  lacks c (string_of_digits ds) = true.
Proof.
  intros Hds Hc. induction Hds as [|d ds Hd _ IH]; [reflexivity|].
  simpl. rewrite IH, andb_true_r. apply negb_true_iff, Ascii.eqb_neq.
  intros E. apply (f_equal code) in E. rewrite code_digit_char in E by exact Hd. lia.
Qed.

Lemma lacks_int_string c n :
  code c <> 45 -> (code c < 48 \/ 57 < code c) -> lacks c (js_int_string n) = true.
Proof.
  intros Hm Hc. unfold js_int_string. destruct (Z.ltb_spec n 0).
  - cbn [lacks]. rewrite lacks_string_of_digits by (auto; apply dec_digits_enough; lia).
    rewrite andb_true_r. apply negb_true_iff, Ascii.eqb_neq.
    intros E. apply (f_equal code) in E. change (code minus_sign) with 45 in E. lia.
  - apply lacks_string_of_digits; [now apply dec_digits_enough | exact Hc].
Qed.

(** The first character of [String(n)] is a digit or the minus sign. *)
Lemma int_string_head n :
  exists c r, js_int_string n = String c r /\ (code c = 45 \/ 48 <= code c <= 57).
Proof.
  unfold js_int_string. destruct (Z.ltb_spec n 0).
  - do 2 eexists. split; [reflexivity|]. left. reflexivity.
  - pose proof (dec_digits_nonnil (Z.to_nat n) n) as Hne.
    pose proof (dec_digits_enough n ltac:(lia)) as Hall.
    destruct (dec_digits (Z.to_nat n) n) as [|d ds]; [contradiction|].
    apply List.Forall_cons_iff in Hall as [Hd _].
    do 2 eexists. split; [reflexivity|]. right. rewrite code_digit_char by exact Hd. lia.
Qed.

Lemma last_ws_free_string_of_digits ds :
  Forall (fun d => 0 <= d < 10) ds -> last_ws_free (string_of_digits ds) = true.
Proof.
  induction 1 as [|d ds Hd Hds IH]; [reflexivity|].
  destruct ds as [|d' ds].
  - simpl. unfold is_ws. rewrite code_digit_char by exact Hd. zcmp.
  - exact IH.
Qed.

Lemma int_string_ws_free n :
  first_ws_free (js_int_string n) = true /\ last_ws_free (js_int_string n) = true.
Proof.
  split.
  - destruct (int_string_head n) as [c [r [-> Hc]]]. simpl. unfold is_ws. zcmp.
  - unfold js_int_string. destruct (Z.ltb_spec n 0).
    + pose proof (dec_digits_nonnil (Z.to_nat (- n)) (- n)) as Hne.
      pose proof (dec_digits_enough (- n) ltac:(lia)) as Hall.
      destruct (dec_digits (Z.to_nat (- n)) (- n)) as [|d ds]; [contradiction|].
      change (last_ws_free (String minus_sign (string_of_digits (d :: ds))))
        with (last_ws_free (string_of_digits (d :: ds))).
      now apply last_ws_free_string_of_digits.
    + apply last_ws_free_string_of_digits. now apply dec_digits_enough.
Qed.

(** ** Lemmas: blank lines *)

Lemma has_non_ws_trim_start s : has_non_ws (trim_start s) = has_non_ws s.
Proof.
  induction s as [|c r IH]; simpl; [reflexivity|].
  destruct (is_ws c) eqn:E; simpl; [exact IH|]. now rewrite E.
Qed.

Lemma trim_end_nonempty s : has_non_ws s = true -> trim_end s <> EmptyString.
Proof.
  induction s as [|c r IH]; simpl; [discriminate|]. intros H.
  destruct (is_ws c) eqn:E; simpl in *; [|discriminate].
  destruct (String.eqb_spec (trim_end r) EmptyString) as [Hr|Hr]; [|discriminate].
  exfalso. exact (IH H Hr).
Qed.

(** A line with a non-blank character is not blank after [trim]. *)
Lemma js_trim_nonempty s : has_non_ws s = true -> js_trim s <> EmptyString.
Proof.
  intros H. unfold js_trim. apply trim_end_nonempty. now rewrite has_non_ws_trim_start.
Qed.

Lemma has_non_ws_app s1 s2 : has_non_ws (s1 ++ s2) = has_non_ws s1 || has_non_ws s2.
Proof.
  induction s1 as [|c s1 IH]; simpl; [reflexivity|]. now rewrite IH, orb_assoc.
Qed.

(** ** Lemmas: [encodeURIComponent] *)

Lemma code_range c : 0 <= code c < 256.
Proof. unfold code. pose proof (Ascii.nat_ascii_bounded c). lia. Qed.

Lemma code_ascii_of_nat n : (n < 256)%nat -> code (ascii_of_nat n) = Z.of_nat n.
Proof. intros H. unfold code. now rewrite Ascii.nat_ascii_embedding. Qed.

Lemma hex_digit_unreserved d : 0 <= d < 16 -> uri_unreserved (hex_digit d) = true.
Proof.
  intros Hd. unfold hex_digit, uri_unreserved.
  destruct (Z.ltb_spec d 10); rewrite code_ascii_of_nat, Z2Nat.id by lia.
  - replace ((48 <=? 48 + d) && (48 + d <=? 57)) with true
      by (symmetry; apply andb_true_iff; split; apply Z.leb_le; lia).
    reflexivity.
  - replace ((65 <=? 55 + d) && (55 + d <=? 90)) with true
      by (symmetry; apply andb_true_iff; split; apply Z.leb_le; lia).
    now rewrite orb_true_r.
Qed.

Lemma url_safe_app s1 s2 : url_safe (s1 ++ s2) = url_safe s1 && url_safe s2.
Proof.
  induction s1 as [|c s1 IH]; simpl; [reflexivity|]. now rewrite IH, andb_assoc.
Qed.

(** The output of [encodeURIComponent] holds only unreserved characters
    and percent signs: no space, [&], [#] or line break. *)
Lemma encodeURIComponent_url_safe s : url_safe (js_encodeURIComponent s) = true.
Proof.
  induction s as [|c s IH]; simpl; [reflexivity|].
  destruct (uri_unreserved c) eqn:U; simpl; [now rewrite U, IH|].
  pose proof (code_range c).
  assert (H1 : uri_unreserved (hex_digit (code c / 16)) = true)
    by (apply hex_digit_unreserved; split; [apply Z.div_pos|apply Z.div_lt_upper_bound]; lia).
  assert (H2 : uri_unreserved (hex_digit (code c mod 16)) = true)
    by (apply hex_digit_unreserved; apply Z.mod_pos_bound; lia).
  rewrite H1, H2.
  rewrite IH. reflexivity.
Qed.

(** ** Lemmas: [decodeURIComponent] inverts [encodeURIComponent] *)

Lemma leb_range_true a b c : a <= b <= c -> (a <=? b) && (b <=? c) = true.
Proof. intros H. apply andb_true_iff. split; apply Z.leb_le; lia. Qed.

Lemma leb_range_above a b c : c < b -> (a <=? b) && (b <=? c) = false.
Proof. intros H. apply andb_false_iff. right. apply Z.leb_gt. lia. Qed.

Lemma hex_value_digit d : 0 <= d < 16 -> hex_value (hex_digit d) = Some d.
Proof.
  intros Hd. unfold hex_digit, hex_value.
  destruct (Z.ltb_spec d 10); rewrite code_ascii_of_nat, Z2Nat.id by lia.
  - rewrite leb_range_true by lia. f_equal. lia.
  - rewrite leb_range_above, leb_range_true by lia. f_equal. lia.
Qed.

Lemma unreserved_not_percent c : uri_unreserved c = true -> Ascii.eqb c (ascii_of_nat 37) = false.
Proof.
  intros H. destruct (Ascii.eqb_spec c (ascii_of_nat 37)) as [->|]; [|reflexivity].
  vm_compute in H. discriminate.
Qed.

Lemma ascii_of_code c : ascii_of_nat (Z.to_nat (code c)) = c.
Proof. unfold code. rewrite Nat2Z.id. apply Ascii.ascii_nat_embedding. Qed.

(** The receiver of the link reads back exactly the text that was
    encoded. *)
Lemma decode_encode s : js_decodeURIComponent (js_encodeURIComponent s) = Some s.
Proof.
  induction s as [|c s IH]; [reflexivity|]. cbn [js_encodeURIComponent].
  destruct (uri_unreserved c) eqn:U; cbn [js_decodeURIComponent].
  - now rewrite (unreserved_not_percent c U), IH.
  - pose proof (code_range c). rewrite Ascii.eqb_refl, IH.
    rewrite (hex_value_digit (code c / 16))
      by (split; [apply Z.div_pos | apply Z.div_lt_upper_bound]; lia).
    rewrite hex_value_digit by (apply Z.mod_pos_bound; lia).
    rewrite <- Z.div_mod by lia. now rewrite ascii_of_code.
Qed.
