(* ===== verification/Csv.v ===== *)
(** * Csv: [csvToJson] and [parseCSVLine] of [src/src/services/googleSheetsService.js]

    [Module CsvParsing] translates the two parsing methods.  [parseCSVLine]
    is its [for] loop as a step function [csv_step] over the loop state
    ([result], [current], [inQuotes]), folded over the characters of the
    line.  [csvToJson] builds one JS object per line: a [gmap] from
    property name to [jsval] (number, boolean or string, the three types
    the coercions produce), filled header by header ([fill_row]) and kept
    when its [id] and [name] are truthy.  [product_of_obj] reads such an
    object as a [Product]; it supplies 0, the empty string or [false] for
    a missing column, where JS would read [undefined] (the sheet's header
    has all eight columns).

    The printer [csv_document] writes products the way a sheet export
    does (numbers and TRUE/FALSE bare, text quoted); it is not part of the
    code and only builds the inputs of the round trip.  The theorems:
    [parseCSVLine] inverts the rendering of a row, quoted commas
    included; and [csvToJson] of an exported product list gives back the
    products with a non-zero id and a non-empty name, in order, with the
    declared coercions; and every object [csvToJson] returns, whatever
    the text, has exactly the header's keys, with numbers under [id],
    [price] and [stock], a boolean under [featured] and strings
    elsewhere ([typed_obj]). *)

From S2P Require Import Spec2Rocq Data JsString.

#[local] Arguments String.append : simpl nomatch.

Module CsvParsing.

(** ** [parseCSVLine] *)

Record csv_state := mkCsvState {
  cs_result : list string;
  cs_current : string;
  cs_inQuotes : bool
}.

(** One iteration of the loop on [char = line[i]]. *)
Definition csv_step (st : csv_state) (ch : ascii) : csv_state :=
  if Ascii.eqb ch dquote
  then mkCsvState (cs_result st) (cs_current st) (negb (cs_inQuotes st))
  else if Ascii.eqb ch comma && negb (cs_inQuotes st)
  then mkCsvState (cs_result st ++ [cs_current st]) EmptyString (cs_inQuotes st)
  else mkCsvState (cs_result st) (cs_current st ++ String ch EmptyString) (cs_inQuotes st).

Fixpoint csv_loop (st : csv_state) (s : string) : csv_state :=
  match s with
  | EmptyString => st
  | String ch r => csv_loop (csv_step st ch) r
  end.

Definition parseCSVLine (line : string) : list string :=
  let st := csv_loop (mkCsvState [] EmptyString false) line in
  cs_result st ++ [cs_current st].

(** ** Objects *)

Inductive jsval :=
| JNum (z : Z)
| JBool (b : bool)
| JStr (s : string).

#[export] Instance jsval_eq_dec : EqDecision jsval.
Proof. solve_decision. Defined.

#[export] Instance truthy_jsval : Truthy jsval :=
  fun v => match v with
           | JNum z => js_truthy z
           | JBool b => b
           | JStr s => js_truthy s
           end.

(** ** [csvToJson] *)

(** [header.trim()], then every double quote dropped. *)
Definition clean_header (h : string) : string := js_remove_char dquote (js_trim h).

Definition header_of (line0 : string) : list string := map clean_header (js_split comma line0).

(** Every double quote of [value] dropped, then [trim()]. *)
Definition clean_value (v : string) : string := js_trim (js_remove_char dquote v).

(** The typed coercions. *)
Definition coerce (header value : string) : jsval :=
  if String.eqb header "id" || String.eqb header "price" || String.eqb header "stock"
  then JNum (parseInt_or_zero value)
  else if String.eqb header "featured"
  then JBool (String.eqb (js_toLowerCase value) "true")
  else JStr value.

(** [headers.forEach((header, index) => obj[header] = ...)], with
    [values[index] || ''] read off the front of the remaining values. *)
Fixpoint fill_row (headers values : list string) (obj : gmap string jsval) : gmap string jsval :=
  match headers with
  | [] => obj
  | h :: hs => fill_row hs (tl values) (<[h := coerce h (clean_value (hd EmptyString values))]> obj)
  end.

(** [if (obj.id && obj.name)] *)
Definition row_admitted (obj : gmap string jsval) : bool :=
  js_truthy (obj !! "id"%string) && js_truthy (obj !! "name"%string).

Definition is_blank (line : string) : bool := String.eqb (js_trim line) EmptyString.

(** The loop over [lines[1..]]. *)
Fixpoint rows_to_objects (headers : list string) (lines : list string) : list (gmap string jsval) :=
  match lines with
  | [] => []
  | l :: ls =>
      if is_blank l then rows_to_objects headers ls
      else let obj := fill_row headers (parseCSVLine l) ∅ in
           if row_admitted obj then obj :: rows_to_objects headers ls
           else rows_to_objects headers ls
  end.

Definition csvToJson (csv : string) : list (gmap string jsval) :=
  match js_split newline csv with
  | [] => []
  | l0 :: rest => rows_to_objects (header_of l0) rest
  end.

(** ** Reading an object as a product *)

Definition num_field (k : string) (o : gmap string jsval) : Z :=
  match o !! k with Some (JNum z) => z | _ => 0 end.
Definition str_field (k : string) (o : gmap string jsval) : string :=
  match o !! k with Some (JStr s) => s | _ => EmptyString end.
Definition bool_field (k : string) (o : gmap string jsval) : bool :=
  match o !! k with Some (JBool b) => b | _ => false end.

Definition product_of_obj (o : gmap string jsval) : Product :=
  mkProduct (num_field "id" o) (str_field "name" o) (str_field "category" o)
            (num_field "price" o) (str_field "description" o) (str_field "image_url" o)
            (num_field "stock" o) (bool_field "featured" o).

(** ** The sheet export, for the round trips *)

Inductive csv_cell :=
| Plain (s : string)
| Quoted (s : string).

Definition render_cell (c : csv_cell) : string :=
  match c with
  | Plain s => s
  | Quoted s => String dquote (s ++ String dquote EmptyString)
  end.

Definition cell_text (c : csv_cell) : string :=
  match c with Plain s | Quoted s => s end.

(** A bare cell has no quote and no comma; a quoted one no quote. *)
Definition cell_ok (c : csv_cell) : bool :=
  match c with
  | Plain s => lacks dquote s && lacks comma s
  | Quoted s => lacks dquote s
  end.

Definition std_header : list string :=
  ["id"; "name"; "category"; "price"; "description"; "image_url"; "stock"; "featured"]%string.

Definition product_cells (p : Product) : list csv_cell :=
  [Plain (js_int_string (id p)); Quoted (name p); Quoted (category p);
   Plain (js_int_string (price p)); Quoted (description p); Quoted (image_url p);
   Plain (js_int_string (stock p)); Plain (if featured p then "TRUE" else "FALSE")%string].

Definition csv_row (p : Product) : string := js_join comma (map render_cell (product_cells p)).

Definition csv_document (ps : list Product) : string :=
  js_join newline (js_join comma std_header :: map csv_row ps).

(** Text a sheet cell can hold and the parser gives back unchanged. *)
Definition printable_text (s : string) : bool :=
  lacks dquote s && lacks newline s && first_ws_free s && last_ws_free s.

Definition printable (p : Product) : bool :=
  printable_text (name p) && printable_text (category p) &&
  printable_text (description p) && printable_text (image_url p).

(** The object [csvToJson] builds for the row of [p]. *)
Definition product_obj (p : Product) : gmap string jsval :=
  <["featured" := JBool (featured p)]> (<["stock" := JNum (stock p)]>
  (<["image_url" := JStr (image_url p)]> (<["description" := JStr (description p)]>
  (<["price" := JNum (price p)]> (<["category" := JStr (category p)]>
  (<["name" := JStr (name p)]> (<["id" := JNum (id p)]> ∅))))))).

(** The products [csvToJson] keeps. *)
Definition admitted_product (p : Product) : bool :=
  js_truthy (id p) && js_truthy (name p).

(** ** The types of the fields *)

(** The type a field named [k] has after the coercions: a number for
    [id], [price] and [stock], a boolean for [featured], a string for
    every other column. *)
Definition typed_field (k : string) (v : jsval) : bool :=
  let numeric := String.eqb k "id" || String.eqb k "price" || String.eqb k "stock" in
  match v with
  | JNum _ => numeric
  | JBool _ => negb numeric && String.eqb k "featured"
  | JStr _ => negb numeric && negb (String.eqb k "featured")
  end.

(** The header row of a document, as [csvToJson] reads it. *)
Definition csv_headers (csv : string) : list string :=
  match js_split newline csv with
  | [] => []
  | l0 :: _ => header_of l0
  end.

(** Every key holds a value of its type, and the keys are the headers. *)
Definition typed_obj (headers : list string) (o : gmap string jsval) : Prop :=
  (forall k v, o !! k = Some v -> typed_field k v = true) /\
  (forall k, is_Some (o !! k) <-> In k headers).

(** ** [parseCSVLine] inverts the rendering of a row *)

Lemma js_join_cons2 c p q qs : js_join c (p :: q :: qs) = (p ++ String c (js_join c (q :: qs)))%string.
Proof. reflexivity. Qed.

Lemma csv_loop_cons st ch r : csv_loop st (String ch r) = csv_loop (csv_step st ch) r.
Proof. reflexivity. Qed.

Lemma csv_step_comma res cur :
  csv_step (mkCsvState res cur false) comma = mkCsvState (res ++ [cur]) EmptyString false.
Proof. reflexivity. Qed.

Lemma csv_loop_app st s1 s2 : csv_loop st (s1 ++ s2) = csv_loop (csv_loop st s1) s2.
Proof. revert st. induction s1 as [|c s1 IH]; intros st; simpl; auto. Qed.

(** Text without quotes is appended to [current], commas included when
    inside quotes. *)
Lemma csv_loop_text res cur q s :
  lacks dquote s = true -> (q = true \/ lacks comma s = true) ->
  csv_loop (mkCsvState res cur q) s = mkCsvState res (cur ++ s) q.
Proof.
  revert cur. induction s as [|ch r IH]; intros cur Hq Hc; simpl.
  - now rewrite string_app_nil_r.
  - apply andb_true_iff in Hq as [Hch Hr]. apply negb_true_iff in Hch.
    assert (Hstep : Ascii.eqb ch comma && negb q = false).
    { destruct Hc as [->|Hc]; [apply andb_false_r|].
      simpl in Hc. apply andb_true_iff in Hc as [Hc _]. apply negb_true_iff in Hc.
      now rewrite Hc. }
    assert (Hc' : q = true \/ lacks comma r = true).
    { destruct Hc as [->|Hc]; [now left|]. right. simpl in Hc.
      now apply andb_true_iff in Hc as [_ Hc]. }
    unfold csv_step. simpl. rewrite Hch, Hstep, IH by assumption.
    now rewrite <- string_app_assoc.
Qed.

Lemma csv_loop_cell res cur c :
  cell_ok c = true ->
  csv_loop (mkCsvState res cur false) (render_cell c) = mkCsvState res (cur ++ cell_text c) false.
Proof.
  destruct c as [s|s]; simpl; intros H.
  - apply andb_true_iff in H as [Hq Hc]. apply csv_loop_text; auto.
  - unfold csv_step. simpl. rewrite csv_loop_app, csv_loop_text by auto.
    reflexivity.
Qed.

Lemma csv_loop_join res cells :
  cells <> [] -> Forall (fun c => cell_ok c = true) cells ->
  let st := csv_loop (mkCsvState res EmptyString false) (js_join comma (map render_cell cells)) in
  cs_result st ++ [cs_current st] = res ++ map cell_text cells.
Proof.
  intros Hne Hall. revert res. induction Hall as [|c cs Hc Hcs IH]; [contradiction|].
  intros res. cbv zeta. destruct cs as [|c' cs].
  - simpl. now rewrite csv_loop_cell.
  - change (map render_cell (c :: c' :: cs)) with (render_cell c :: render_cell c' :: map render_cell cs).
    rewrite js_join_cons2, csv_loop_app, csv_loop_cell by exact Hc.
    rewrite csv_loop_cons, csv_step_comma.
    change (render_cell c' :: map render_cell cs) with (map render_cell (c' :: cs)).
    rewrite IH by discriminate. now rewrite <- app_assoc.
Qed.

(** [parseCSVLine] inverts the comma-joined rendering of a row whose
    bare cells hold no quote or comma and whose quoted cells hold no
    quote: a comma inside quotes does not split the cell, and the quotes
    are dropped. *)
Theorem parseCSVLine_render cells :
  cells <> [] -> Forall (fun c => cell_ok c = true) cells ->
  parseCSVLine (js_join comma (map render_cell cells)) = map cell_text cells.
Proof. intros Hne Hall. exact (csv_loop_join [] cells Hne Hall). Qed.

(** ** [csvToJson] of an exported product list *)

Lemma clean_value_int n : clean_value (js_int_string n) = js_int_string n.
Proof.
  unfold clean_value. rewrite js_remove_char_lacks.
  - destruct (int_string_ws_free n). now apply js_trim_clean.
  - apply lacks_int_string; rewrite code_dquote; lia.
Qed.

Lemma clean_value_text s : printable_text s = true -> clean_value s = s.
Proof.
  unfold printable_text, clean_value. intros H.
  apply andb_true_iff in H as [H Hl]. apply andb_true_iff in H as [H Hf].
  apply andb_true_iff in H as [Hq _].
  rewrite js_remove_char_lacks by exact Hq. now apply js_trim_clean.
Qed.

Lemma printable_fields p :
  printable p = true ->
  printable_text (name p) = true /\ printable_text (category p) = true /\
  printable_text (description p) = true /\ printable_text (image_url p) = true.
Proof.
  unfold printable. intros H. apply andb_true_iff in H as [H Hi].
  apply andb_true_iff in H as [H Hd]. apply andb_true_iff in H as [Hn Hc]. tauto.
Qed.

Lemma printable_text_lacks s : printable_text s = true -> lacks dquote s = true /\ lacks newline s = true.
Proof.
  unfold printable_text. intros H. apply andb_true_iff in H as [H _].
  apply andb_true_iff in H as [H _]. apply andb_true_iff in H as [Hq Hn]. tauto.
Qed.

Lemma int_cell_ok n : cell_ok (Plain (js_int_string n)) = true.
Proof.
  simpl. rewrite !lacks_int_string; try reflexivity;
    rewrite ?code_dquote, ?code_comma; lia.
Qed.

Lemma product_cells_ok p :
  printable p = true -> Forall (fun c => cell_ok c = true) (product_cells p).
Proof.
  intros H. destruct (printable_fields p H) as (Hn & Hc & Hd & Hi).
  repeat constructor; try apply int_cell_ok; try (now destruct (featured p));
    simpl; now apply printable_text_lacks.
Qed.

Lemma fill_row_product p :
  printable p = true -> fill_row std_header (parseCSVLine (csv_row p)) ∅ = product_obj p.
Proof.
  intros H. unfold csv_row, parseCSVLine.
  pose proof (csv_loop_join [] (product_cells p) ltac:(discriminate) (product_cells_ok p H)) as E.
  cbv zeta in E |- *. rewrite E. simpl app.
  destruct (printable_fields p H) as (Hn & Hc & Hd & Hi).
  simpl. rewrite !clean_value_int, (clean_value_text _ Hn), (clean_value_text _ Hc),
    (clean_value_text _ Hd), (clean_value_text _ Hi).
  unfold coerce. simpl. rewrite !parseInt_or_zero_int_string.
  unfold product_obj. destruct (featured p); reflexivity.
Qed.

Lemma product_obj_read p :
  product_of_obj (product_obj p) = p /\ row_admitted (product_obj p) = admitted_product p.
Proof. destruct p. split; reflexivity. Qed.

Lemma lacks_render_newline c :
  (match c with Plain s | Quoted s => lacks newline s end) = true ->
  lacks newline (render_cell c) = true.
Proof.
  destruct c as [s|s]; simpl; intros H; [exact H|].
  rewrite lacks_app, H. reflexivity.
Qed.

Lemma csv_row_lacks_newline p : printable p = true -> lacks newline (csv_row p) = true.
Proof.
  intros H. destruct (printable_fields p H) as (Hn & Hc & Hd & Hi).
  unfold csv_row. apply lacks_join; [reflexivity|].
  repeat constructor; apply lacks_render_newline;
    try (apply lacks_int_string; rewrite code_newline; lia);
    try (now destruct (featured p)); now apply printable_text_lacks.
Qed.

Lemma csv_row_not_blank p : is_blank (csv_row p) = false.
Proof.
  unfold is_blank, csv_row. apply String.eqb_neq, js_trim_nonempty.
  simpl map. rewrite js_join_cons2, has_non_ws_app. apply orb_true_iff. right. reflexivity.
Qed.

Lemma rows_to_objects_cons headers l ls :
  rows_to_objects headers (l :: ls) =
  if is_blank l then rows_to_objects headers ls
  else if row_admitted (fill_row headers (parseCSVLine l) ∅)
       then fill_row headers (parseCSVLine l) ∅ :: rows_to_objects headers ls
       else rows_to_objects headers ls.
Proof. reflexivity. Qed.

Lemma rows_export ps :
  Forall (fun p => printable p = true) ps ->
  rows_to_objects std_header (map csv_row ps) = map product_obj (List.filter admitted_product ps).
Proof.
  induction 1 as [|p ps Hp _ IH]; [reflexivity|].
  cbn [map]. rewrite rows_to_objects_cons, csv_row_not_blank, fill_row_product by exact Hp.
  destruct (product_obj_read p) as [_ ->]. simpl List.filter.
  destruct (admitted_product p); simpl; now rewrite IH.
Qed.

(** C19: [csvToJson] of a sheet export ([csv_document]: the standard
    header, then one line per product, numbers bare, text quoted) gives
    back, in order and with the declared coercions, exactly the exported
    products whose [id] is non-zero and whose [name] is non-empty; every
    other row is dropped.  Text may contain commas, not quotes or line
    breaks, and has no white space at its ends. *)
Theorem csvToJson_export ps :
  Forall (fun p => printable p = true) ps ->
  map product_of_obj (csvToJson (csv_document ps)) = List.filter admitted_product ps.
Proof.
  intros Hall. unfold csvToJson, csv_document.
  rewrite js_split_join.
  - change (header_of (js_join comma std_header)) with std_header.
    rewrite rows_export by exact Hall. rewrite map_map.
    erewrite map_ext; [apply map_id|]. intros p. apply product_obj_read.
  - discriminate.
  - constructor; [reflexivity|]. apply List.Forall_map.
    eapply Forall_impl; [exact Hall|]. intros p Hp. now apply csv_row_lacks_newline.
Qed.

(** ** The types of the objects *)

Lemma coerce_typed h v : typed_field h (coerce h v) = true.
Proof.
  unfold coerce, typed_field.
  destruct (String.eqb h "id" || String.eqb h "price" || String.eqb h "stock") eqn:N; [reflexivity|].
  destruct (String.eqb h "featured") eqn:F; simpl; now rewrite ?F.
Qed.

Lemma fill_row_values hs vs o :
  (forall k v, o !! k = Some v -> typed_field k v = true) ->
  forall k v, fill_row hs vs o !! k = Some v -> typed_field k v = true.
Proof.
  revert vs o. induction hs as [|h hs IH]; intros vs o Ho; simpl; [exact Ho|].
  apply IH. intros k v Hk. apply lookup_insert_Some in Hk as [[<- <-]|[_ Hk]].
  - apply coerce_typed.
  - now apply Ho.
Qed.

Lemma fill_row_keys hs vs o k :
  is_Some (fill_row hs vs o !! k) <-> In k hs \/ is_Some (o !! k).
Proof.
  revert vs o. induction hs as [|h hs IH]; intros vs o; simpl; [tauto|].
  rewrite IH. rewrite lookup_insert_is_Some. destruct (decide (h = k)); tauto.
Qed.

Lemma rows_to_objects_typed headers lines o :
  In o (rows_to_objects headers lines) -> typed_obj headers o.
Proof.
  induction lines as [|l ls IH]; simpl; [tauto|].
  destruct (is_blank l); [exact IH|].
  destruct (row_admitted _); [|exact IH].
  intros [<-|Ho]; [|exact (IH Ho)]. split.
  - apply fill_row_values. intros k v Hk. now rewrite lookup_empty in Hk.
  - intros k. rewrite fill_row_keys, lookup_empty. split; [intros [H|[? H]]; [exact H|discriminate]|now left].
Qed.

(** ** Quotes inside a cell *)

Lemma csv_step_lacks st ch :
  Forall (fun c => lacks dquote c = true) (cs_result st) -> lacks dquote (cs_current st) = true ->
  Forall (fun c => lacks dquote c = true) (cs_result (csv_step st ch)) /\
  lacks dquote (cs_current (csv_step st ch)) = true.
Proof.
  intros Hr Hc. unfold csv_step.
  destruct (Ascii.eqb_spec ch dquote) as [->|Hq]; [simpl; auto|].
  destruct (Ascii.eqb ch comma && negb (cs_inQuotes st)); simpl.
  - split; [apply Forall_app; auto|reflexivity].
  - split; [assumption|]. rewrite lacks_app, Hc. simpl.
    destruct (Ascii.eqb_spec ch dquote); [congruence|reflexivity].
Qed.

Lemma csv_loop_lacks st s :
  Forall (fun c => lacks dquote c = true) (cs_result st) -> lacks dquote (cs_current st) = true ->
  Forall (fun c => lacks dquote c = true) (cs_result (csv_loop st s)) /\
  lacks dquote (cs_current (csv_loop st s)) = true.
Proof.
  revert st. induction s as [|ch s IH]; intros st Hr Hc; [auto|].
  simpl. destruct (csv_step_lacks st ch Hr Hc). auto.
Qed.

(** C21: no cell returned by [parseCSVLine] contains a double quote: each
    quote only toggles [inQuotes].  The feed is double-quote-escaped, so a
    quote written in a cell as two quotes is lost on ingestion. *)
Theorem parseCSVLine_drops_quotes line :
  Forall (fun c => lacks dquote c = true) (parseCSVLine line).
Proof.
  unfold parseCSVLine.
  destruct (csv_loop_lacks (mkCsvState [] EmptyString false) line) as [Hr Hc];
    [constructor|reflexivity|].
  apply Forall_app; auto.
Qed.

(** The exported cell for the text [say "hi"] reads back as [say hi]. *)
Lemma parseCSVLine_escaped_quote :
  let q := String dquote EmptyString in
  parseCSVLine (q ++ "say " ++ q ++ q ++ "hi" ++ q ++ q ++ q) = ["say hi"%string].
Proof. reflexivity. Qed.

(** C40: whatever the text of the sheet, every object [csvToJson]
    returns has exactly the columns of the header row as keys, with a
    number under [id], [price] and [stock], a boolean under [featured]
    and a string under every other column. *)
Theorem csvToJson_typed csv o :
  In o (csvToJson csv) -> typed_obj (csv_headers csv) o.
Proof.
  unfold csvToJson, csv_headers. destruct (js_split newline csv) as [|l0 rest]; [intros []|].
  apply rows_to_objects_typed.
Qed.

(** ** Witnesses *)

Definition sample_sheet : string :=
  "id,name,price,featured" ++ String newline "7,cable,1500,TRUE" ++ String newline "x,,3,no".

Lemma csvToJson_typed_witness :
  let o := <["featured" := JBool true]> (<["price" := JNum 1500]>
             (<["name" := JStr "cable"]> (<["id" := JNum 7]> (∅ : gmap string jsval)))) in
  In o (csvToJson sample_sheet) /\ typed_obj (csv_headers sample_sheet) o.
Proof.
  cbv zeta. assert (H : In (<["featured" := JBool true]> (<["price" := JNum 1500]>
             (<["name" := JStr "cable"]> (<["id" := JNum 7]> (∅ : gmap string jsval)))))
                          (csvToJson sample_sheet)) by (vm_compute; left; reflexivity).
  split; [exact H|]. exact (csvToJson_typed _ _ H).
Defined.

Definition sample_cells : list csv_cell := [Plain "7"; Quoted "USB-C, 1m"; Plain "TRUE"].

Lemma parseCSVLine_render_witness :
  sample_cells <> [] /\ Forall (fun c => cell_ok c = true) sample_cells /\
  parseCSVLine (js_join comma (map render_cell sample_cells)) = map cell_text sample_cells.
Proof.
  assert (Hne : sample_cells <> []) by discriminate.
  assert (Hok : Forall (fun c => cell_ok c = true) sample_cells) by (repeat constructor).
  split; [exact Hne|split; [exact Hok|]]. apply (parseCSVLine_render sample_cells Hne Hok).
Defined.

Definition sample_export : list Product :=
  [mkProduct 7 "USB-C cable" "cables" 15000 "1m, braided" "cable.png" 10 false;
   mkProduct 0 "no id" "cables" 100 "dropped" "x.png" 1 true].

Lemma csvToJson_export_witness :
  Forall (fun p => printable p = true) sample_export /\
  map product_of_obj (csvToJson (csv_document sample_export)) = List.filter admitted_product sample_export.
Proof.
  assert (H : Forall (fun p => printable p = true) sample_export) by (repeat constructor).
  split; [exact H|]. apply (csvToJson_export sample_export H).
Defined.

End CsvParsing.
