(* ===== verification/Catalog.v ===== *)
(** * Catalog: the fetching and caching methods of [src/src/services/googleSheetsService.js]

    [Module SheetsService] holds the state of the singleton
    [googleSheetsService] ([SHEET_ID], [CSV_URL] and the in-memory
    [cache]) and one definition per remaining method: [fetchProducts],
    [getFallbackData], the derived views ([getProductsByCategory],
    [getProductById], [getFeaturedProducts], [getCategories],
    [searchProducts]), [setSheetId] and [clearCache].

    [fetchProducts] is [async]: it reads the clock, may [await] one
    request, and reads the clock again when the response is in.  Its
    environment [env] gives the two clock readings, the outcome of the
    request ([NetOk] with the response text, or [NetFail] for a rejection:
    network error, timeout, non-2xx status) and the values of
    [Math.random()], each a double [r / 2^53] given by [r] in
    [0, 2^53).  The promise it returns is an [outcome]: [Resolved] with
    the product list, or [Rejected] when the catch block itself throws.
    The storage is the shared [LocalStorage] of [Data.v].

    The theorems: freshness (a second call within five minutes makes no
    request and returns the same list), the effect of a successful
    download on both caches, the order of the fallbacks on a failed
    download and the rejection on a corrupt durable copy, the lost
    download when the durable write fails, what [clearCache] and
    [setSheetId] leave behind, the shape and bounds of the sample data,
    and the derived views. *)

From S2P Require Import Spec2Rocq Data JsString Csv.

Module SheetsService.

(** ** State *)

(** [5 * 60 * 1000] milliseconds. *)
Definition cacheTimeout : Z := 5 * 60 * 1000.

Record state := mkState {
  SHEET_ID : string;
  CSV_URL : string;
  cache_products : option (list Product);
  cache_lastFetch : option Z
}.

Definition csv_url_of (sheetId : string) : string :=
  ("https://docs.google.com/spreadsheets/d/" ++ sheetId ++ "/export?format=csv&gid=0")%string.

(** [constructor()] *)
Definition init : state :=
  mkState "YOUR_SHEET_ID_HERE" (csv_url_of "YOUR_SHEET_ID_HERE") None None.

(** ** The environment of one call *)

Inductive net_result :=
| NetOk (body : string)
| NetFail.

Record env := mkEnv {
  t_call : Z;          (** [Date.now()] at the cache check *)
  t_response : Z;      (** [Date.now()] after the [await] *)
  response : net_result;
  rnd : nat -> Z       (** the [k]-th [Math.random()] is [rnd k / 2^53] *)
}.

Inductive outcome (A : Type) :=
| Resolved (a : A)
| Rejected.
Arguments Resolved {A} a.
Arguments Rejected {A}.

(** ** [getFallbackData] *)

Definition random_scale : Z := 2 ^ 53.

(** [Math.floor(Math.random() * n)] for the draw [r / 2^53]. *)
Definition floor_random_times (r n : Z) : Z := (r * n) / random_scale.

Definition categories : list string :=
  ["سماعات"; "شاحنات"; "كيبلات"; "لزقات حماية"; "اكسسوارات"]%string.

(** [productNames[category]] *)
Definition productNames (c : string) : list string :=
  if String.eqb c "سماعات" then
    ["سماعة بلوتوث JBL"; "سماعة Sony"; "سماعة Beats"; "سماعة Bose"; "سماعة AirPods"]%string
  else if String.eqb c "شاحنات" then
    ["شاحن سريع Samsung"; "شاحن iPhone"; "شاحن لاسلكي"; "شاحن محمول"; "شاحن سيارة"]%string
  else if String.eqb c "كيبلات" then
    ["كيبل USB-C"; "كيبل Lightning"; "كيبل Micro USB"; "كيبل HDMI"; "كيبل AUX"]%string
  else if String.eqb c "لزقات حماية" then
    ["واقي شاشة iPhone"; "واقي شاشة Samsung"; "واقي كاميرا"; "جراب حماية"; "واقي ظهر"]%string
  else if String.eqb c "اكسسوارات" then
    ["حامل هاتف للسيارة"; "حامل مكتبي"; "مسكة هاتف"; "حقيبة لابتوب"; "ماوس لاسلكي"]%string
  else [].

(** The product of iteration [i], from its four draws. *)
Definition fallback_product (i r_cat r_name r_price r_stock : Z) : Product :=
  let category := nth (Z.to_nat (floor_random_times r_cat (Z.of_nat (length categories))))
                      categories EmptyString in
  let names := productNames category in
  let baseName := nth (Z.to_nat (floor_random_times r_name (Z.of_nat (length names))))
                      names EmptyString in
  mkProduct
    i
    (baseName ++ " - موديل " ++ js_int_string i)
    category
    (floor_random_times r_price 90000 + 10000)
    ("وصف تفصيلي للمنتج " ++ baseName ++ " موديل " ++ js_int_string i ++
     ". منتج عالي الجودة بأفضل الأسعار ومواصفات ممتازة.")
    ("https://via.placeholder.com/300x300?text=" ++ js_encodeURIComponent baseName ++ "+" ++
     js_int_string i)
    (floor_random_times r_stock 50 + 1)
    (i <=? 10).

(** [for (let i = 1; i <= 150; i++)], four draws per iteration. *)
Definition getFallbackData (rnd : nat -> Z) : list Product :=
  map (fun i => let k := Z.to_nat (4 * (i - 1)) in
                fallback_product i (rnd k) (rnd (S k)) (rnd (S (S k))) (rnd (S (S (S k)))))
      (zrange 1 150).

(** ** [fetchProducts] *)

(** [if (cache.products && cache.lastFetch)] and [timeDiff < cacheTimeout].
    An empty array is truthy; a [lastFetch] of 0 is not. *)
Definition cache_hit (now : Z) (st : state) : option (list Product) :=
  match cache_products st, cache_lastFetch st with
  | Some ps, Some t => if js_truthy t && (now - t <? cacheTimeout) then Some ps else None
  | _, _ => None
  end.

(** [this.csvToJson(response.data)], read as products. *)
Definition parse_products (csv : string) : list Product :=
  map CsvParsing.product_of_obj (CsvParsing.csvToJson csv).

(** The [catch] block: the durable copy (stale or not), or the sample
    data; [JSON.parse] of a corrupt copy throws out of the catch. *)
Definition fetch_catch (rnd : nat -> Z) (st : state) (ls : LocalStorage)
  : outcome (list Product) * state * LocalStorage :=
  match ls_products ls with
  | SlotStored pc => (Resolved (pc_products pc), st, ls)
  | SlotCorrupt => (Rejected, st, ls)
  | SlotEmpty => (Resolved (getFallbackData rnd), st, ls)
  end.

Definition fetchProducts (e : env) (st : state) (ls : LocalStorage)
  : outcome (list Product) * state * LocalStorage :=
  match cache_hit (t_call e) st with
  | Some ps => (Resolved ps, st, ls)
  | None =>
      match response e with
      | NetFail => fetch_catch (rnd e) st ls
      | NetOk body =>
          let products := parse_products body in
          let st' := mkState (SHEET_ID st) (CSV_URL st) (Some products) (Some (t_response e)) in
          match ls_setItem_products (mkProductsCache products (t_response e)) ls with
          | Some ls' => (Resolved products, st', ls')
          | None => fetch_catch (rnd e) st' ls
          end
      end
  end.

(** ** Derived views, as functions of the fetched list *)

Definition getProductsByCategory (c : string) (ps : list Product) : list Product :=
  List.filter (fun p => String.eqb (category p) c) ps.

(** [products.find(p => p.id === parseInt(id))]: [NaN] equals nothing. *)
Definition getProductById (idstr : string) (ps : list Product) : option Product :=
  List.find (fun p => match js_parseInt idstr with
                      | Some n => id p =? n
                      | None => false
                      end) ps.

Definition getFeaturedProducts (ps : list Product) : list Product := List.filter featured ps.

(** [[...new Set(l)]]: first occurrences, in order. *)
Fixpoint set_from (seen : list string) (l : list string) : list string :=
  match l with
  | [] => []
  | x :: xs => if existsb (String.eqb x) seen then set_from seen xs else x :: set_from (x :: seen) xs
  end.

Definition getCategories (ps : list Product) : list string := set_from [] (map category ps).

Definition matches_query (term : string) (p : Product) : bool :=
  js_includes (js_toLowerCase (name p)) term ||
  js_includes (js_toLowerCase (description p)) term ||
  js_includes (js_toLowerCase (category p)) term.

Definition searchProducts (query : string) (ps : list Product) : list Product :=
  List.filter (matches_query (js_toLowerCase query)) ps.

(** A derived view called on the service: [fetchProducts], then the view. *)
Definition with_fetch {A} (view : list Product -> A) (e : env) (st : state) (ls : LocalStorage)
  : outcome A * state * LocalStorage :=
  match fetchProducts e st ls with
  | (Resolved ps, st', ls') => (Resolved (view ps), st', ls')
  | (Rejected, st', ls') => (Rejected, st', ls')
  end.

(** ** [setSheetId], [clearCache] *)

Definition setSheetId (sheetId : string) (st : state) : state :=
  mkState sheetId (csv_url_of sheetId) None None.

Definition clearCache (st : state) (ls : LocalStorage) : state * LocalStorage :=
  (mkState (SHEET_ID st) (CSV_URL st) None None, ls_removeItem_products ls).

(** ** Sample environments, for the witnesses *)

Definition zero_random : nat -> Z := fun _ => 0.

(** A call at minute 0 whose download of a one-line sheet succeeds. *)
Definition sample_body : string := "id,name" ++ String newline "1,cable".

Definition env_ok (t : Z) : env := mkEnv t t (NetOk sample_body) zero_random.

Definition env_fail (t : Z) : env := mkEnv t t NetFail zero_random.

Definition writable : LocalStorage := mkLocalStorage SlotEmpty SlotEmpty true.

Definition full_quota : LocalStorage := mkLocalStorage SlotEmpty SlotEmpty false.

Definition stored_sheet : ProductsCache := mkProductsCache [] 1000.

(** ** Lemmas *)

Lemma cache_hit_some now st ps t :
  cache_products st = Some ps -> cache_lastFetch st = Some t -> t <> 0 -> now - t < cacheTimeout ->
  cache_hit now st = Some ps.
Proof.
  intros Hp Ht Hz Hw. unfold cache_hit. rewrite Hp, Ht.
  unfold js_truthy, truthy_Z. replace (t =? 0) with false by lia.
  replace (now - t <? cacheTimeout) with true by lia. reflexivity.
Qed.

Lemma fetch_cached e st ls ps :
  cache_hit (t_call e) st = Some ps -> fetchProducts e st ls = (Resolved ps, st, ls).
Proof. intros H. unfold fetchProducts. now rewrite H. Qed.

(** The branch of a cache miss whose request succeeds. *)
Lemma fetch_fresh e st ls body :
  cache_hit (t_call e) st = None -> response e = NetOk body ->
  fetchProducts e st ls =
  let st' := mkState (SHEET_ID st) (CSV_URL st) (Some (parse_products body)) (Some (t_response e)) in
  match ls_setItem_products (mkProductsCache (parse_products body) (t_response e)) ls with
  | Some ls' => (Resolved (parse_products body), st', ls')
  | None => fetch_catch (rnd e) st' ls
  end.
Proof. intros Hm Hr. unfold fetchProducts. now rewrite Hm, Hr. Qed.

(** The branch of a cache miss whose request fails. *)
Lemma fetch_failed e st ls :
  cache_hit (t_call e) st = None -> response e = NetFail ->
  fetchProducts e st ls = fetch_catch (rnd e) st ls.
Proof. intros Hm Hr. unfold fetchProducts. now rewrite Hm, Hr. Qed.

(** The memory cache a download leaves is fresh for five minutes. *)
Lemma downloaded_cache_hit now sid url ps t :
  t <> 0 -> now - t < cacheTimeout -> cache_hit now (mkState sid url (Some ps) (Some t)) = Some ps.
Proof. intros; now apply cache_hit_some with (t := t). Qed.

Lemma cache_hit_cleared now sid url : cache_hit now (mkState sid url None None) = None.
Proof. reflexivity. Qed.

Lemma floor_random_times_range r n :
  0 <= r < random_scale -> 0 < n -> 0 <= floor_random_times r n < n.
Proof.
  intros Hr Hn. unfold floor_random_times. unfold random_scale in *.
  split; [apply Z.div_pos; nia|]. apply Z.div_lt_upper_bound; nia.
Qed.

Lemma nth_categories_in r :
  0 <= r < random_scale ->
  In (nth (Z.to_nat (floor_random_times r (Z.of_nat (length categories)))) categories EmptyString)
     categories.
Proof.
  intros Hr. apply nth_In.
  pose proof (floor_random_times_range r (Z.of_nat (length categories)) Hr ltac:(simpl; lia)).
  lia.
Qed.

Lemma set_from_spec seen l x :
  In x (set_from seen l) <-> In x l /\ ~ In x seen.
Proof.
  revert seen. induction l as [|y l IH]; intros seen; simpl; [tauto|].
  destruct (existsb (String.eqb y) seen) eqn:E.
  - apply existsb_exists in E as (z & Hz & Hyz). apply String.eqb_eq in Hyz. subst z.
    rewrite IH. split; [tauto|]. intros [[<-|H] Hn]; [contradiction|tauto].
  - assert (~ In y seen).
    { intros Hy. assert (existsb (String.eqb y) seen = true) by
        (apply existsb_exists; exists y; split; [assumption|apply String.eqb_refl]).
      congruence. }
    simpl. rewrite IH. simpl. split.
    + intros [<-|[Hl Hn]]; [tauto|]. split; [tauto|]. tauto.
    + intros [[<-|Hl] Hn]; [tauto|]. destruct (String.eqb_spec y x); [subst; tauto|].
      right. split; [assumption|]. intros [H'|H']; [congruence|tauto].
Qed.

Lemma set_from_NoDup seen l : List.NoDup (set_from seen l).
Proof.
  revert seen. induction l as [|y l IH]; intros seen; simpl; [constructor|].
  destruct (existsb (String.eqb y) seen); [apply IH|].
  constructor; [|apply IH]. rewrite set_from_spec. simpl. tauto.
Qed.

Lemma getCategories_NoDup ps : List.NoDup (getCategories ps).
Proof. apply set_from_NoDup. Qed.

Lemma getCategories_in ps c : In c (getCategories ps) <-> exists p, In p ps /\ category p = c.
Proof. unfold getCategories. rewrite set_from_spec, in_map_iff. simpl. firstorder. Qed.

(** ** Theorems: freshness and the download *)

(** within five minutes of a fetch that left a list in memory
    ([products] set, [lastFetch] non-zero), [fetchProducts] returns that
    list and changes nothing, whatever the network would answer: no
    request is made. *)
Theorem fetch_within_window e st ls ps t :
  cache_products st = Some ps -> cache_lastFetch st = Some t -> t <> 0 ->
  t_call e - t < cacheTimeout ->
  fetchProducts e st ls = (Resolved ps, st, ls).
Proof.
  intros Hp Ht Hz Hw. apply fetch_cached. now apply cache_hit_some with (t := t).
Qed.

(** C13: on a cache miss, a successful download whose durable write
    succeeds resolves to the parsed sheet, stores it in memory with the
    response time, and writes it with that timestamp under
    [products_cache]. *)
Theorem fetch_download e st ls body :
  cache_hit (t_call e) st = None -> response e = NetOk body -> ls_quota_ok ls = true ->
  fetchProducts e st ls =
  (Resolved (parse_products body),
   mkState (SHEET_ID st) (CSV_URL st) (Some (parse_products body)) (Some (t_response e)),
   mkLocalStorage (ls_cart ls) (SlotStored (mkProductsCache (parse_products body) (t_response e))) true).
Proof.
  intros Hmiss Hr Hq. rewrite (fetch_fresh _ _ _ body) by assumption. cbv zeta.
  now rewrite ls_setItem_products_ok.
Qed.

(** C12: the specification's freshness property: after a call that
    downloads the sheet at time [t] (non-zero, storage writable), a second
    call less than five minutes later resolves to the same list and
    leaves both caches as they are. *)
Theorem second_fetch_uses_cache e1 e2 st ls body :
  cache_hit (t_call e1) st = None -> response e1 = NetOk body -> ls_quota_ok ls = true ->
  t_response e1 <> 0 -> t_call e2 - t_response e1 < cacheTimeout ->
  exists st1 ls1,
    fetchProducts e1 st ls = (Resolved (parse_products body), st1, ls1) /\
    fetchProducts e2 st1 ls1 = (Resolved (parse_products body), st1, ls1).
Proof.
  intros Hmiss Hr Hq Hz Hw. rewrite (fetch_fresh _ _ _ body) by assumption. cbv zeta.
  rewrite ls_setItem_products_ok by assumption.
  do 2 eexists. split; [reflexivity|]. apply fetch_cached. now apply downloaded_cache_hit.
Qed.

(** ** Theorems: failures *)

(** C14: when the download fails, [fetchProducts] falls back, in this
    order, to the durable copy whatever its age, then to the sample data;
    a durable copy that [JSON.parse] rejects makes the promise reject,
    although the specification says the call never fails.  Neither cache
    changes. *)
Theorem fetch_network_failure e st ls :
  cache_hit (t_call e) st = None -> response e = NetFail ->
  fetchProducts e st ls =
  (match ls_products ls with
   | SlotStored pc => Resolved (pc_products pc)
   | SlotEmpty => Resolved (getFallbackData (rnd e))
   | SlotCorrupt => Rejected
   end, st, ls).
Proof.
  intros Hmiss Hr. rewrite fetch_failed by assumption. unfold fetch_catch.
  now destruct (ls_products ls).
Qed.

(** C15: when the download succeeds but [localStorage] refuses the
    durable write, the call does not resolve to the downloaded list: the
    throw lands in the catch block, which answers with the old durable
    copy or the sample data, while the memory cache already holds the
    download; a call within five minutes then answers with the download. *)
Theorem fetch_quota_loses_download e e2 st ls body :
  cache_hit (t_call e) st = None -> response e = NetOk body -> ls_quota_ok ls = false ->
  t_response e <> 0 -> t_call e2 - t_response e < cacheTimeout ->
  let st' := mkState (SHEET_ID st) (CSV_URL st) (Some (parse_products body)) (Some (t_response e)) in
  fetchProducts e st ls = fetch_catch (rnd e) st' ls /\
  fetchProducts e2 st' ls = (Resolved (parse_products body), st', ls).
Proof.
  intros Hmiss Hr Hq Hz Hw st'. split.
  - rewrite (fetch_fresh _ _ _ body) by assumption. cbv zeta.
    now rewrite ls_setItem_products_full.
  - apply fetch_cached. now apply downloaded_cache_hit.
Qed.

(** [clearCache] empties both caches: the next call always makes a
    request, and when it fails the answer is the sample data, not any
    earlier copy. *)
Theorem clearCache_then_failure e st ls :
  response e = NetFail ->
  let '(st', ls') := clearCache st ls in
  fetchProducts e st' ls' = (Resolved (getFallbackData (rnd e)), st', ls').
Proof. intros Hr. unfold clearCache, fetchProducts. simpl. now rewrite Hr. Qed.

(** C16: [setSheetId] clears only the memory cache: the durable copy is
    not tied to a sheet, so when the first download from the new sheet
    fails, the call answers with the products of the previous sheet. *)
Theorem setSheetId_keeps_durable e sid st ls pc :
  ls_products ls = SlotStored pc -> response e = NetFail ->
  fetchProducts e (setSheetId sid st) ls = (Resolved (pc_products pc), setSheetId sid st, ls).
Proof. intros Hs Hr. unfold fetchProducts, setSheetId. simpl. rewrite Hr. unfold fetch_catch. now rewrite Hs. Qed.

(** ** Theorems: the sample data and the views *)

(** C18: for any values of [Math.random()] in [0, 1), the sample data
    has 150 products with ids 1 to 150 in order, each with a price in
    [10000, 99999], a stock in [1, 50], one of the five categories, a
    non-empty name, and the featured flag exactly on ids 1 to 10. *)
Theorem fallback_data_bounds (rnd : nat -> Z) :
  (forall k, 0 <= rnd k < random_scale) ->
  map id (getFallbackData rnd) = zrange 1 150 /\
  Forall (fun p => 10000 <= price p <= 99999 /\ 1 <= stock p <= 50 /\
                   In (category p) categories /\ name p <> EmptyString /\
                   featured p = (id p <=? 10)) (getFallbackData rnd).
Proof.
  intros Hr. unfold getFallbackData. split.
  - now apply map_left_inverse.
  - apply List.Forall_map, List.Forall_forall. intros i _. cbv zeta.
    set (k := Z.to_nat (4 * (i - 1))).
    pose proof (floor_random_times_range (rnd (S (S k))) 90000 (Hr _) ltac:(lia)).
    pose proof (floor_random_times_range (rnd (S (S (S k)))) 50 (Hr _) ltac:(lia)).
    unfold fallback_product; cbn [price stock category name featured id].
    repeat split; try lia.
    + apply nth_categories_in, Hr.
    + destruct (nth _ _ _); discriminate.
Qed.

(** [getCategories] lists every category of the catalogue exactly
    once and nothing else. *)
Theorem getCategories_spec ps :
  List.NoDup (getCategories ps) /\
  (forall c, In c (getCategories ps) <-> exists p, In p ps /\ category p = c).
Proof.
  split; [apply getCategories_NoDup|]. apply getCategories_in.
Qed.

Lemma set_from_snoc seen l x :
  set_from seen (l ++ [x]) =
  set_from seen l ++ (if existsb (String.eqb x) (seen ++ set_from seen l) then [] else [x]).
Proof.
  revert seen. induction l as [|y l IH]; intros seen.
  - simpl. now rewrite app_nil_r.
  - simpl. destruct (existsb (String.eqb y) seen) eqn:Ey; [apply IH|].
    rewrite IH. simpl. f_equal. f_equal. rewrite !existsb_app. simpl.
    now destruct (String.eqb x y), (existsb (String.eqb x) seen).
Qed.

(** C39: [getCategories] lists the categories in the order of their
    first appearance, as the specification's category list is: a
    product added at the end of the catalogue adds its category at the
    end of the list when the category is new, and nothing otherwise
    (with [getCategories [] = []], this fixes the whole list). *)
Theorem getCategories_snoc ps p :
  getCategories (ps ++ [p]) =
  getCategories ps ++ (if existsb (String.eqb (category p)) (getCategories ps) then [] else [category p]).
Proof. unfold getCategories. rewrite map_app. apply set_from_snoc. Qed.

(** [getProductById] on the decimal text of an id, as a route
    parameter built from [product.id] is, finds the first product with that
    id. *)
Theorem getProductById_int_string n ps :
  getProductById (js_int_string n) ps = List.find (fun p => id p =? n) ps.
Proof. unfold getProductById. now rewrite parseInt_int_string. Qed.

(** ** Witnesses *)

(** Discharges the hypotheses of a witness, conjunct by conjunct, leaving
    the conclusion. *)
Local Ltac wit_hyps :=
  cbv zeta;
  repeat match goal with
  | |- _ /\ _ => split; [solve [reflexivity | unfold cacheTimeout; simpl; lia]|]
  end.

Lemma fetch_within_window_witness :
  let st := mkState "s" "u" (Some []) (Some 1000) in
  cache_products st = Some [] /\ cache_lastFetch st = Some 1000 /\ 1000 <> 0 /\
  t_call (env_fail 200000) - 1000 < cacheTimeout /\
  fetchProducts (env_fail 200000) st writable = (Resolved [], st, writable).
Proof.
  wit_hyps.
  apply (fetch_within_window (env_fail 200000) _ writable [] 1000); try reflexivity;
    unfold cacheTimeout; simpl; lia.
Defined.

Lemma fetch_download_witness :
  cache_hit (t_call (env_ok 1000)) init = None /\ response (env_ok 1000) = NetOk sample_body /\
  ls_quota_ok writable = true /\
  fetchProducts (env_ok 1000) init writable =
  (Resolved (parse_products sample_body),
   mkState (SHEET_ID init) (CSV_URL init) (Some (parse_products sample_body)) (Some 1000),
   mkLocalStorage SlotEmpty (SlotStored (mkProductsCache (parse_products sample_body) 1000)) true).
Proof.
  wit_hyps.
  apply (fetch_download (env_ok 1000) init writable sample_body); reflexivity.
Defined.

Lemma second_fetch_uses_cache_witness :
  cache_hit (t_call (env_ok 1000)) init = None /\ response (env_ok 1000) = NetOk sample_body /\
  ls_quota_ok writable = true /\ t_response (env_ok 1000) <> 0 /\
  t_call (env_fail 60000) - t_response (env_ok 1000) < cacheTimeout /\
  exists st1 ls1,
    fetchProducts (env_ok 1000) init writable = (Resolved (parse_products sample_body), st1, ls1) /\
    fetchProducts (env_fail 60000) st1 ls1 = (Resolved (parse_products sample_body), st1, ls1).
Proof.
  wit_hyps.
  apply (second_fetch_uses_cache (env_ok 1000) (env_fail 60000) init writable sample_body);
    try reflexivity; unfold cacheTimeout; simpl; lia.
Defined.

Lemma fetch_network_failure_witness :
  let ls := mkLocalStorage SlotEmpty (SlotStored stored_sheet) true in
  cache_hit (t_call (env_fail 5000)) init = None /\ response (env_fail 5000) = NetFail /\
  fetchProducts (env_fail 5000) init ls = (Resolved [], init, ls).
Proof.
  wit_hyps.
  rewrite (fetch_network_failure (env_fail 5000) init _) by reflexivity. reflexivity.
Defined.

Lemma fetch_quota_loses_download_witness :
  cache_hit (t_call (env_ok 1000)) init = None /\ response (env_ok 1000) = NetOk sample_body /\
  ls_quota_ok full_quota = false /\ t_response (env_ok 1000) <> 0 /\
  t_call (env_fail 2000) - t_response (env_ok 1000) < cacheTimeout /\
  let st' := mkState (SHEET_ID init) (CSV_URL init) (Some (parse_products sample_body))
                     (Some (t_response (env_ok 1000))) in
  fetchProducts (env_ok 1000) init full_quota = fetch_catch zero_random st' full_quota /\
  fetchProducts (env_fail 2000) st' full_quota = (Resolved (parse_products sample_body), st', full_quota).
Proof.
  wit_hyps.
  apply (fetch_quota_loses_download (env_ok 1000) (env_fail 2000) init full_quota sample_body);
    try reflexivity; unfold cacheTimeout; simpl; lia.
Defined.

Lemma clearCache_then_failure_witness :
  response (env_fail 0) = NetFail /\
  let '(st', ls') := clearCache (mkState "s" "u" (Some []) (Some 5)) writable in
  fetchProducts (env_fail 0) st' ls' = (Resolved (getFallbackData zero_random), st', ls').
Proof.
  split; [reflexivity|].
  apply (clearCache_then_failure (env_fail 0)). reflexivity.
Defined.

Lemma setSheetId_keeps_durable_witness :
  let ls := mkLocalStorage SlotEmpty (SlotStored stored_sheet) true in
  ls_products ls = SlotStored stored_sheet /\ response (env_fail 0) = NetFail /\
  fetchProducts (env_fail 0) (setSheetId "other" init) ls =
  (Resolved [], setSheetId "other" init, ls).
Proof.
  wit_hyps.
  apply (setSheetId_keeps_durable (env_fail 0) "other" init _ stored_sheet); reflexivity.
Defined.

Lemma fallback_data_bounds_witness :
  (forall k, 0 <= zero_random k < random_scale) /\
  map id (getFallbackData zero_random) = zrange 1 150.
Proof.
  assert (H : forall k, 0 <= zero_random k < random_scale) by (intros; unfold zero_random, random_scale; lia).
  split; [exact H|]. apply (fallback_data_bounds zero_random H).
Defined.

End SheetsService.
