(* ===== verification/Query.v ===== *)
(** * Query: filtering and sorting the catalogue

    Two pieces of code filter and sort the product list, and they are
    not the same:
    - [useProductFilter] of [src/src/hooks/useProductFilter.js]
      ([Module ProductFilter]): its own filter state, the category list
      and price range of its input, and [filteredAndSortedProducts];
    - [getFilteredProducts] of [src/src/context/AppContext.jsx]
      ([AppContext.getFilteredProducts] in [App.v]), reading the context
      state.

    Both sort with [Array.prototype.sort], which is stable (ES2019): for a
    comparator that is consistent its result is the unique stable sorted
    permutation, which [StableSort.sort_by] (insertion sort) computes.
    [String.prototype.localeCompare] depends on the locale's collation
    tables and is a parameter [lc] of the definitions; the theorems that
    need it assume only that it is a consistent comparator.

    [Product] has exactly the eight columns of the sheet, so the
    properties the code reads and the products never have
    ([createdAt], [views], [inStock]) are [undefined] and are written out
    as such: [new Date(undefined || 0)] is 0, [undefined || 0] is 0 and
    [undefined] is falsy.

    The theorems on the hook: its result is a permutation of the
    products that pass the filters; each of the four ordering choices
    sorts by its key in its direction and keeps the catalogue order among
    equal keys; [newest] and [popular] keep the catalogue order; its
    category list and price range. *)

From Stdlib Require Import Sorted Permutation.
From S2P Require Import Spec2Rocq Data JsString Catalog.

#[local] Arguments String.append : simpl nomatch.

(** ** Stable sorting with a comparator *)

Module StableSort.

Section Sort.

Context {A : Type} (cmp : A -> A -> Z).

(** [x] goes before the first element it does not compare above. *)
Fixpoint insert_by (x : A) (l : list A) : list A :=
  match l with
  | [] => [x]
  | y :: l' => if cmp x y <=? 0 then x :: l else y :: insert_by x l'
  end.

Fixpoint sort_by (l : list A) : list A :=
  match l with
  | [] => []
  | x :: l' => insert_by x (sort_by l')
  end.

(** ** Lemmas *)

Lemma insert_by_perm x l : Permutation (insert_by x l) (x :: l).
Proof.
  induction l as [|y l IH]; simpl; [reflexivity|].
  destruct (cmp x y <=? 0); [reflexivity|].
  rewrite IH. apply perm_swap.
Qed.

Lemma sort_by_perm l : Permutation (sort_by l) l.
Proof.
  induction l as [|x l IH]; simpl; [reflexivity|].
  rewrite insert_by_perm. now apply perm_skip.
Qed.

(** A comparator that never puts an element above another leaves the
    list as it is: the sort is stable. *)
Lemma sort_by_stable_const l : (forall a b, cmp a b <= 0) -> sort_by l = l.
Proof.
  intros H. induction l as [|x l IH]; simpl; [reflexivity|]. rewrite IH.
  destruct l as [|y l]; simpl; [reflexivity|].
  now replace (cmp x y <=? 0) with true by (symmetry; apply Z.leb_le, H).
Qed.

Section Consistent.

(** Of two elements, one compares at or below the other: what a
    consistent comparator gives. *)
Hypothesis cmp_total : forall a b, cmp a b <= 0 \/ cmp b a <= 0.

Lemma insert_by_sorted x l :
  Sorted (fun a b => cmp a b <= 0) l -> Sorted (fun a b => cmp a b <= 0) (insert_by x l).
Proof.
  induction 1 as [|y l Hl IH Hhd]; simpl; [repeat constructor|].
  destruct (Z.leb_spec (cmp x y) 0) as [Hxy|Hxy].
  - constructor; [constructor; assumption|]. now constructor.
  - constructor; [exact IH|].
    assert (Hyx : cmp y x <= 0) by (destruct (cmp_total x y); [lia|assumption]).
    destruct l as [|z l]; simpl; [now constructor|].
    inversion Hhd; subst. destruct (cmp x z <=? 0); now constructor.
Qed.

Lemma sort_by_sorted l : Sorted (fun a b => cmp a b <= 0) (sort_by l).
Proof. induction l as [|x l IH]; simpl; [constructor|]. now apply insert_by_sorted. Qed.

End Consistent.

Section Stable.

(** What ECMAScript asks of a consistent comparator, for the elements it
    compares equal: the relation [cmp a b = 0] is symmetric and
    transitive. *)
Hypothesis cmp_eq_sym : forall a b, cmp a b = 0 -> cmp b a = 0.
Hypothesis cmp_eq_trans : forall a b c, cmp a b = 0 -> cmp b c = 0 -> cmp a c = 0.

(** [insert_by] puts [x] after a prefix of elements it compares above. *)
Lemma insert_by_split x l : exists pre suf,
  l = pre ++ suf /\ insert_by x l = pre ++ x :: suf /\ Forall (fun y => 0 < cmp x y) pre.
Proof.
  induction l as [|y l IH]; simpl.
  - exists [], []. repeat split. constructor.
  - destruct (Z.leb_spec (cmp x y) 0).
    + exists [], (y :: l). repeat split. constructor.
    + destruct IH as (pre & suf & -> & -> & Hf).
      exists (y :: pre), suf. repeat split. now constructor.
Qed.

Lemma filter_insert_by k x l :
  List.filter (fun y => cmp y k =? 0) (insert_by x l) = List.filter (fun y => cmp y k =? 0) (x :: l).
Proof.
  destruct (insert_by_split x l) as (pre & suf & -> & -> & Hf).
  cbn [List.filter]. rewrite !List.filter_app. cbn [List.filter].
  destruct (Z.eqb_spec (cmp x k) 0) as [Hx|]; [|reflexivity].
  rewrite (filter_none _ pre); [reflexivity|].
  intros y Hy. rewrite List.Forall_forall in Hf. specialize (Hf y Hy).
  apply Z.eqb_neq. intros Hyk. pose proof (cmp_eq_trans x k y Hx (cmp_eq_sym y k Hyk)). lia.
Qed.

(** The elements a key compares equal to keep their input order. *)
Lemma sort_by_stable k l :
  List.filter (fun y => cmp y k =? 0) (sort_by l) = List.filter (fun y => cmp y k =? 0) l.
Proof.
  induction l as [|x l IH]; [reflexivity|]. cbn [sort_by].
  rewrite filter_insert_by. cbn [List.filter]. now rewrite IH.
Qed.

End Stable.

End Sort.

End StableSort.

Import StableSort.

(** ** [useProductFilter] *)

Module ProductFilter.

(** The hook's [filters] state. *)
Record filters := mkFilters {
  category_f : string;
  minPrice : string;
  maxPrice : string;
  inStock : bool;
  searchQuery : string
}.

Definition initial_filters : filters := mkFilters "" "" "" false "".

Record hook_state := mkHook {
  hk_filters : filters;
  hk_sortBy : string
}.

Definition init : hook_state := mkHook initial_filters "name".

(** A partial object [newFilters]: the keys it has. *)
Record filters_patch := mkPatch {
  p_category : option string;
  p_minPrice : option string;
  p_maxPrice : option string;
  p_inStock : option bool;
  p_searchQuery : option string
}.

(** [setFilters(prev => ({ ...prev, ...newFilters }))] *)
Definition handleFilterChange (pt : filters_patch) (s : hook_state) : hook_state :=
  let f := hk_filters s in
  mkHook (mkFilters (p_category pt ?? category_f f) (p_minPrice pt ?? minPrice f)
                    (p_maxPrice pt ?? maxPrice f) (p_inStock pt ?? inStock f)
                    (p_searchQuery pt ?? searchQuery f))
         (hk_sortBy s).

Definition handleSortChange (sortBy : string) (s : hook_state) : hook_state :=
  mkHook (hk_filters s) sortBy.

Definition handleSearchChange (q : string) (s : hook_state) : hook_state :=
  let f := hk_filters s in
  mkHook (mkFilters (category_f f) (minPrice f) (maxPrice f) (inStock f) q) (hk_sortBy s).

(** [categories]: [[...new Set(...)]] then [.filter(Boolean)]. *)
Definition categories (products : list Product) : list string :=
  match products with
  | [] => []
  | _ => List.filter js_truthy (SheetsService.set_from [] (map category products))
  end.

(** [priceRange]: [Math.min] and [Math.max] of the prices. *)
Definition priceRange (products : list Product) : Z * Z :=
  match products with
  | [] => (0, 1000000)
  | p :: ps => (fold_left Z.min (map price ps) (price p), fold_left Z.max (map price ps) (price p))
  end.

(** [name?.toLowerCase().includes(query) || ...] *)
Definition matches_search (query : string) (p : Product) : bool :=
  js_includes (js_toLowerCase (name p)) query ||
  js_includes (js_toLowerCase (description p)) query ||
  js_includes (js_toLowerCase (category p)) query.

(** The comparator of [filtered.sort]; [createdAt] and [views] are
    missing, so [newest] and [popular] compare everything equal. *)
Definition compare (lc : string -> string -> Z) (sortBy : string) (a b : Product) : Z :=
  if String.eqb sortBy "name" then lc (name a) (name b)
  else if String.eqb sortBy "name-desc" then lc (name b) (name a)
  else if String.eqb sortBy "price-asc" then price a - price b
  else if String.eqb sortBy "price-desc" then price b - price a
  else if String.eqb sortBy "newest" then 0 - 0
  else if String.eqb sortBy "popular" then 0 - 0
  else 0.

(** Each filter as the code applies it, in order. *)
Definition apply_filters (f : filters) (products : list Product) : list Product :=
  let f1 := if js_truthy (searchQuery f)
            then List.filter (matches_search (js_toLowerCase (searchQuery f))) products
            else products in
  let f2 := if js_truthy (category_f f)
            then List.filter (fun p => String.eqb (category p) (category_f f)) f1 else f1 in
  let f3 := if js_truthy (minPrice f)
            then List.filter (fun p => js_ge (price p) (js_parseFloat (minPrice f))) f2 else f2 in
  let f4 := if js_truthy (maxPrice f)
            then List.filter (fun p => js_le (price p) (js_parseFloat (maxPrice f))) f3 else f3 in
  if inStock f then List.filter (fun p => 0 <? stock p) f4 else f4.

Definition filteredAndSortedProducts (lc : string -> string -> Z) (s : hook_state)
    (products : list Product) : list Product :=
  match products with
  | [] => []
  | _ => sort_by (compare lc (hk_sortBy s)) (apply_filters (hk_filters s) products)
  end.

(** What a product must satisfy to be listed. *)
Definition passes (f : filters) (p : Product) : bool :=
  (negb (js_truthy (searchQuery f)) || matches_search (js_toLowerCase (searchQuery f)) p) &&
  (negb (js_truthy (category_f f)) || String.eqb (category p) (category_f f)) &&
  (negb (js_truthy (minPrice f)) || js_ge (price p) (js_parseFloat (minPrice f))) &&
  (negb (js_truthy (maxPrice f)) || js_le (price p) (js_parseFloat (maxPrice f))) &&
  (negb (inStock f) || (0 <? stock p)).

(** ** Sample data, for the witnesses *)

(** A consistent comparator on strings: code-point order. *)
Definition codepoint_compare (a b : string) : Z :=
  match String.compare a b with Lt => -1 | Eq => 0 | Gt => 1 end.

Definition sample_products : list Product :=
  [mkProduct 3 "Charger" "chargers" 25000 "fast" "c.png" 4 false;
   mkProduct 1 "Cable" "cables" 15000 "braided" "k.png" 0 true;
   mkProduct 2 "Headset" "audio" 40000 "wireless" "h.png" 9 false].

Definition price_asc : hook_state := handleSortChange "price-asc" init.

(** ** Lemmas *)

Lemma apply_filters_spec f ps : apply_filters f ps = List.filter (passes f) ps.
Proof.
  unfold apply_filters, passes. cbv zeta. rewrite !filter_if, !filter_compose.
  apply filter_ext_in. intros. now rewrite !andb_assoc.
Qed.

Lemma sorted_mono {A} (R S : A -> A -> Prop) l :
  (forall a b, R a b -> S a b) -> Sorted R l -> Sorted S l.
Proof.
  intros H. induction 1 as [|x l _ IH Hhd]; constructor; [exact IH|].
  destruct Hhd; constructor; auto.
Qed.

Lemma filteredAndSorted_sort lc s ps :
  filteredAndSortedProducts lc s ps =
  sort_by (compare lc (hk_sortBy s)) (List.filter (passes (hk_filters s)) ps).
Proof.
  unfold filteredAndSortedProducts. destruct ps; [reflexivity|]. now rewrite apply_filters_spec.
Qed.

Lemma compare_eq_sym lc sortBy :
  (forall a b, lc a b = 0 -> lc b a = 0) ->
  forall a b, compare lc sortBy a b = 0 -> compare lc sortBy b a = 0.
Proof.
  intros Hs a b. unfold compare.
  repeat (case_if; [try (apply Hs || lia)|]); lia.
Qed.

Lemma compare_eq_trans lc sortBy :
  (forall a b c, lc a b = 0 -> lc b c = 0 -> lc a c = 0) ->
  forall a b c, compare lc sortBy a b = 0 -> compare lc sortBy b c = 0 -> compare lc sortBy a c = 0.
Proof.
  intros Ht a b c. unfold compare.
  repeat (case_if; [try (intros; eapply Ht; eassumption); lia|]); lia.
Qed.

(** A sort by a total comparator with consistent equalities orders the
    list by any relation the comparator's [<= 0] implies, and keeps the
    input order among elements of equal key. *)
Lemma sort_by_order (cmp : Product -> Product -> Z) (R : Product -> Product -> Prop)
    (eqk : Product -> Product -> bool) l :
  (forall a b, cmp a b <= 0 \/ cmp b a <= 0) ->
  (forall a b, cmp a b <= 0 -> R a b) ->
  (forall a b, cmp a b = 0 -> cmp b a = 0) ->
  (forall a b c, cmp a b = 0 -> cmp b c = 0 -> cmp a c = 0) ->
  (forall a b, eqk a b = (cmp a b =? 0)) ->
  Sorted R (sort_by cmp l) /\
  forall k, List.filter (fun p => eqk p k) (sort_by cmp l) = List.filter (fun p => eqk p k) l.
Proof.
  intros Htot HR Hs Ht He. split.
  - apply (sorted_mono (fun a b => cmp a b <= 0)); [exact HR|]. apply sort_by_sorted, Htot.
  - intros k. rewrite !(List.filter_ext (fun p => eqk p k) (fun p => cmp p k =? 0)) by auto.
    now apply sort_by_stable.
Qed.

(** ** Theorems *)

(** C32: each of the hook's four ordering choices sorts by the key and
    in the direction its name says, and keeps the catalogue order among
    the products with the same key, for a [localeCompare] that is total
    and consistent on equal names: [price-asc] lists the prices in
    ascending order, [price-desc] in descending order, [name] the names
    in [localeCompare]'s order and [name-desc] in the reverse order. *)
Theorem filteredAndSorted_orders lc s ps :
  (forall a b, lc a b <= 0 \/ lc b a <= 0) ->
  (forall a b, lc a b = 0 -> lc b a = 0) ->
  (forall a b c, lc a b = 0 -> lc b c = 0 -> lc a c = 0) ->
  let out := filteredAndSortedProducts lc s ps in
  let kept := List.filter (passes (hk_filters s)) ps in
  (hk_sortBy s = "price-asc"%string ->
     Sorted (fun a b => price a <= price b) out /\
     forall k, List.filter (fun p => price p =? price k) out =
               List.filter (fun p => price p =? price k) kept) /\
  (hk_sortBy s = "price-desc"%string ->
     Sorted (fun a b => price b <= price a) out /\
     forall k, List.filter (fun p => price p =? price k) out =
               List.filter (fun p => price p =? price k) kept) /\
  (hk_sortBy s = "name"%string ->
     Sorted (fun a b => lc (name a) (name b) <= 0) out /\
     forall k, List.filter (fun p => lc (name p) (name k) =? 0) out =
               List.filter (fun p => lc (name p) (name k) =? 0) kept) /\
  (hk_sortBy s = "name-desc"%string ->
     Sorted (fun a b => lc (name b) (name a) <= 0) out /\
     forall k, List.filter (fun p => lc (name k) (name p) =? 0) out =
               List.filter (fun p => lc (name k) (name p) =? 0) kept).
Proof.
  intros Htot Hs Ht. cbv zeta. rewrite filteredAndSorted_sort.
  split; [|split; [|split]]; intros E; rewrite E; apply sort_by_order; cbn -[Z.sub];
    intros; solve [lia | zcmp | auto | apply or_comm, Htot | eapply Ht; eassumption].
Qed.

(** C25: [filteredAndSortedProducts] lists, in some order, exactly the
    products that pass every active filter (search text, category, the
    two price bounds, stock), each as often as in the input. *)
Theorem filteredAndSorted_perm lc s ps :
  Permutation (filteredAndSortedProducts lc s ps) (List.filter (passes (hk_filters s)) ps).
Proof. rewrite filteredAndSorted_sort. apply sort_by_perm. Qed.

(** C27: the [newest] and [popular] orders, and any unknown one, keep
    the filtered products in catalogue order: the products have no
    [createdAt] or [views], so the comparator is constantly 0 and the
    stable sort changes nothing. *)
Theorem filteredAndSorted_unsorted lc s ps :
  ~ In (hk_sortBy s) ["name"; "name-desc"; "price-asc"; "price-desc"]%string ->
  filteredAndSortedProducts lc s ps = List.filter (passes (hk_filters s)) ps.
Proof.
  intros Hn. rewrite filteredAndSorted_sort. apply sort_by_stable_const.
  intros a b. unfold compare.
  repeat match goal with
  | |- context [String.eqb ?x ?y] => destruct (String.eqb_spec x y) as [E|_]
  end; try lia; exfalso; apply Hn; rewrite E; simpl; tauto.
Qed.

(** the hook's category list names each non-empty category of its
    input exactly once, and nothing else. *)
Theorem categories_spec ps :
  List.NoDup (categories ps) /\
  (forall c, In c (categories ps) <-> c <> EmptyString /\ exists p, In p ps /\ category p = c).
Proof.
  pose proof (SheetsService.getCategories_NoDup ps) as Hnd.
  pose proof (SheetsService.getCategories_in ps) as Hin. unfold SheetsService.getCategories in *.
  unfold categories.
  destruct ps as [|p0 ps0]; [split; [constructor|simpl; firstorder]|].
  split; [now apply List.NoDup_filter|].
  intros c. rewrite filter_In, Hin. unfold js_truthy, truthy_string.
  destruct (String.eqb_spec c EmptyString); simpl; intuition congruence.
Qed.

(** for a non-empty list, the price range is the least and the
    greatest price of the list: both are prices of products of the list,
    and every price lies between them. *)
Theorem priceRange_spec ps lo hi :
  ps <> [] -> priceRange ps = (lo, hi) ->
  (forall p, In p ps -> lo <= price p <= hi) /\
  (exists p, In p ps /\ price p = lo) /\ (exists p, In p ps /\ price p = hi).
Proof.
  intros Hne Hr. destruct ps as [|p0 ps]; [contradiction|]. simpl in Hr. injection Hr as <- <-.
  pose proof (fold_left_select_bound Z.min Z.le Z.le_trans
                (fun a b => conj (Z.le_min_l a b) (Z.le_min_r a b)) ltac:(intros a b; lia) (map price ps) (price p0)) as [Hl1 Hl2].
  pose proof (fold_left_select_bound Z.max Z.ge ltac:(intros; lia)
                (fun a b => conj (Z.le_ge _ _ (Z.le_max_l a b)) (Z.le_ge _ _ (Z.le_max_r a b)))
                ltac:(intros a b; lia)
                (map price ps) (price p0)) as [Hh1 Hh2].
  rewrite List.Forall_forall in Hl2, Hh2.
  split; [|split].
  - intros p [<-|Hp]; [lia|]. specialize (Hl2 (price p) (in_map _ _ _ Hp)).
    specialize (Hh2 (price p) (in_map _ _ _ Hp)). lia.
  - destruct (fold_left_select_in Z.min ltac:(intros a b; lia) (map price ps) (price p0)) as [E|E].
    + exists p0. split; [now left|congruence].
    + apply in_map_iff in E as (p & Ep & Hp). exists p. split; [now right|exact Ep].
  - destruct (fold_left_select_in Z.max ltac:(intros a b; lia) (map price ps) (price p0)) as [E|E].
    + exists p0. split; [now left|congruence].
    + apply in_map_iff in E as (p & Ep & Hp). exists p. split; [now right|exact Ep].
Qed.

(** ** Witnesses *)

Lemma codepoint_compare_total a b : codepoint_compare a b <= 0 \/ codepoint_compare b a <= 0.
Proof.
  unfold codepoint_compare. rewrite (String.compare_antisym b a).
  destruct (String.compare a b); simpl; lia.
Qed.



Lemma codepoint_compare_eq a b : codepoint_compare a b = 0 -> a = b.
Proof.
  unfold codepoint_compare. destruct (String.compare a b) eqn:E; try discriminate.
  intros _. now apply String.compare_eq_iff.
Qed.

Lemma codepoint_compare_refl a : codepoint_compare a a = 0.
Proof.
  unfold codepoint_compare. pose proof (String.compare_antisym a a) as H.
  destruct (String.compare a a); simpl in H; congruence.
Qed.

Lemma filteredAndSorted_orders_witness :
  (forall a b, codepoint_compare a b <= 0 \/ codepoint_compare b a <= 0) /\
  (forall a b, codepoint_compare a b = 0 -> codepoint_compare b a = 0) /\
  (forall a b c, codepoint_compare a b = 0 -> codepoint_compare b c = 0 -> codepoint_compare a c = 0) /\
  hk_sortBy price_asc = "price-asc"%string /\
  Sorted (fun a b => price a <= price b)
    (filteredAndSortedProducts codepoint_compare price_asc sample_products).
Proof.
  assert (Hs : forall a b, codepoint_compare a b = 0 -> codepoint_compare b a = 0)
    by (intros a b H; apply codepoint_compare_eq in H; subst;
        apply codepoint_compare_refl).
  assert (Ht : forall a b c, codepoint_compare a b = 0 -> codepoint_compare b c = 0 ->
                             codepoint_compare a c = 0)
    by (intros a b c H1 H2; apply codepoint_compare_eq in H1; subst; exact H2).
  split; [exact codepoint_compare_total|split; [exact Hs|split; [exact Ht|split; [reflexivity|]]]].
  exact (proj1 (proj1 (filteredAndSorted_orders codepoint_compare price_asc sample_products
                         codepoint_compare_total Hs Ht) eq_refl)).
Defined.

Lemma filteredAndSorted_unsorted_witness :
  let s := handleSortChange "newest" init in
  ~ In (hk_sortBy s) ["name"; "name-desc"; "price-asc"; "price-desc"]%string /\
  filteredAndSortedProducts codepoint_compare s sample_products =
  List.filter (passes (hk_filters s)) sample_products.
Proof.
  assert (H : ~ In (hk_sortBy (handleSortChange "newest" init))
                ["name"; "name-desc"; "price-asc"; "price-desc"]%string)
    by (simpl; intuition discriminate).
  split; [exact H|]. apply filteredAndSorted_unsorted. exact H.
Defined.

Lemma priceRange_spec_witness :
  sample_products <> [] /\ priceRange sample_products = (15000, 40000) /\
  (forall p, In p sample_products -> 15000 <= price p <= 40000).
Proof.
  assert (Hne : sample_products <> []) by discriminate.
  assert (Hr : priceRange sample_products = (15000, 40000)) by reflexivity.
  split; [exact Hne|split; [exact Hr|]]. apply (priceRange_spec _ _ _ Hne Hr).
Defined.

End ProductFilter.
