(* ===== verification/App.v ===== *)
(** * App: the application state of [src/src/context/AppContext.jsx] and
    the pages that drive it

    [Module AppContext] is the provider: its state record, the action
    type, [appReducer] (whose cart actions call the cart service), the
    dispatching functions, [loadInitialData] as the sequence of steps the
    [async] function performs, [getFilteredProducts] and
    [getProductsForCurrentPage].

    The provider shares two singletons with the services: the cart
    service and the sheets service, and both write the one
    [localStorage].  A [world] holds the context state, the cart service
    (whose [storage] is that [localStorage]) and the sheets service
    state; the products service reads and writes the same storage through
    it.

    [getFilteredProducts] sorts the array it holds in place; when no
    filter has run, that array is [state.products] itself.  The
    definition returns the new contents of [state.products] beside the
    result, so the aliasing is explicit.

    The consumers read the context through [useApp()], which returns the
    context [value]: the state's fields and seventeen functions.  The
    provider also defines [setFilters], [setSortBy] and [loadCart] but
    does not put them in [value]; [member] reads a function from it,
    [undefined] for those three, and [reachable] lets the sessions call
    only the functions [value] holds.

    [Module HomePage] composes the list the home page shows, and
    [Module Header], [Module ProductDetail], [Module CartPage],
    [Module ProductCard] and [Module PaginationControls] the handlers
    that change the context from those components.  [Module Properties]
    holds the theorems on the context: the cart mirror, the filters that
    never leave their initial values, the first load, the retry after a
    failed load ([refreshData]) and the home listing.  [Pages.v]
    composes these handlers into page sessions. *)

From Stdlib Require Import Sorted Permutation.
From S2P Require Import Spec2Rocq Data JsString Cart Pagination Catalog Query.

#[local] Arguments String.append : simpl nomatch.

Import StableSort.

Module AppContext.

(** ** State and actions *)

Record filters := mkFilters {
  category_f : string;
  minPrice : string;
  maxPrice : string;
  inStock : bool
}.

Definition no_filters : filters := mkFilters "" "" "" false.

Record state := mkState {
  products : list Product;
  categories : list string;
  cart : list CartItem;
  loading : bool;
  error : option string;
  currentCategory : option string;
  searchQuery : string;
  filters_s : filters;
  sortBy : string;
  productsPerPage : Z;
  currentPage : Z
}.

Definition initialState : state :=
  mkState [] [] [] false None None "" no_filters "name" 60 1.

Inductive action :=
| SET_LOADING (b : bool)
| SET_ERROR (e : string)
| SET_PRODUCTS (ps : list Product)
| SET_CATEGORIES (cs : list string)
| SET_CART (c : list CartItem)
| SET_CURRENT_CATEGORY (c : option string)
| SET_SEARCH_QUERY (q : string)
| SET_CURRENT_PAGE (p : Z)
| SET_FILTERS (f : filters)
| SET_SORT_BY (s : string)
| ADD_TO_CART (p : Product) (q : Z)
| REMOVE_FROM_CART (pid : Z)
| UPDATE_CART_QUANTITY (pid q : Z)
| CLEAR_CART
| OTHER_ACTION (type : string).

(** [{ ...state, f: v }] for each field the reducer writes. *)
Definition set_loading b s :=
  mkState (products s) (categories s) (cart s) b (error s) (currentCategory s) (searchQuery s)
          (filters_s s) (sortBy s) (productsPerPage s) (currentPage s).
Definition set_error_loading e b s :=
  mkState (products s) (categories s) (cart s) b e (currentCategory s) (searchQuery s)
          (filters_s s) (sortBy s) (productsPerPage s) (currentPage s).
Definition set_products ps s :=
  mkState ps (categories s) (cart s) false None (currentCategory s) (searchQuery s)
          (filters_s s) (sortBy s) (productsPerPage s) (currentPage s).
Definition set_categories cs s :=
  mkState (products s) cs (cart s) (loading s) (error s) (currentCategory s) (searchQuery s)
          (filters_s s) (sortBy s) (productsPerPage s) (currentPage s).
Definition set_cart c s :=
  mkState (products s) (categories s) c (loading s) (error s) (currentCategory s) (searchQuery s)
          (filters_s s) (sortBy s) (productsPerPage s) (currentPage s).
Definition set_currentCategory c s :=
  mkState (products s) (categories s) (cart s) (loading s) (error s) c (searchQuery s)
          (filters_s s) (sortBy s) (productsPerPage s) (currentPage s).
Definition set_searchQuery q s :=
  mkState (products s) (categories s) (cart s) (loading s) (error s) (currentCategory s) q
          (filters_s s) (sortBy s) (productsPerPage s) (currentPage s).
Definition set_currentPage p s :=
  mkState (products s) (categories s) (cart s) (loading s) (error s) (currentCategory s)
          (searchQuery s) (filters_s s) (sortBy s) (productsPerPage s) p.
Definition set_filters f s :=
  mkState (products s) (categories s) (cart s) (loading s) (error s) (currentCategory s)
          (searchQuery s) f (sortBy s) (productsPerPage s) (currentPage s).
Definition set_sortBy b s :=
  mkState (products s) (categories s) (cart s) (loading s) (error s) (currentCategory s)
          (searchQuery s) (filters_s s) b (productsPerPage s) (currentPage s).

(** [appReducer(state, action)]; the cart actions call the cart service,
    which changes its own state, so the reducer threads it. *)
Definition appReducer (s : state) (a : action) (svc : CartService.service)
    : state * CartService.service :=
  match a with
  | SET_LOADING b => (set_loading b s, svc)
  | SET_ERROR e => (set_error_loading (Some e) false s, svc)
  | SET_PRODUCTS ps => (set_products ps s, svc)
  | SET_CATEGORIES cs => (set_categories cs s, svc)
  | SET_CART c => (set_cart c s, svc)
  | SET_CURRENT_CATEGORY c => (set_currentCategory c s, svc)
  | SET_SEARCH_QUERY q => (set_searchQuery q s, svc)
  | SET_CURRENT_PAGE p => (set_currentPage p s, svc)
  | SET_FILTERS f => (set_filters f s, svc)
  | SET_SORT_BY b => (set_sortBy b s, svc)
  | ADD_TO_CART p q =>
      let svc' := CartService.addToCart p q svc in (set_cart (CartService.cart svc') s, svc')
  | REMOVE_FROM_CART pid =>
      let svc' := CartService.removeFromCart pid svc in (set_cart (CartService.cart svc') s, svc')
  | UPDATE_CART_QUANTITY pid q =>
      let svc' := CartService.updateQuantity pid q svc in (set_cart (CartService.cart svc') s, svc')
  | CLEAR_CART =>
      let svc' := CartService.clearCart svc in (set_cart (CartService.cart svc') s, svc')
  | OTHER_ACTION _ => (s, svc)
  end.

(** ** The world the provider runs in *)

Record world := mkWorld {
  app : state;
  svc : CartService.service;
  sheets : SheetsService.state
}.

Definition dispatch (a : action) (w : world) : world :=
  let '(s', svc') := appReducer (app w) a (svc w) in mkWorld s' svc' (sheets w).

Fixpoint dispatch_all (l : list action) (w : world) : world :=
  match l with
  | [] => w
  | a :: l' => dispatch_all l' (dispatch a w)
  end.

(** One call of the sheets service on the shared storage. *)
Definition with_service {A} (call : SheetsService.state -> LocalStorage ->
                                    SheetsService.outcome A * SheetsService.state * LocalStorage)
    (w : world) : SheetsService.outcome A * world :=
  let '(r, st', ls') := call (sheets w) (CartService.storage (svc w)) in
  (r, mkWorld (app w) (CartService.mkService (CartService.cart (svc w)) ls') st').

(** [getCategories()] of the service: a second [fetchProducts], then the
    distinct categories. *)
Definition service_getCategories (e : SheetsService.env) (st : SheetsService.state) (ls : LocalStorage)
    : SheetsService.outcome (list string) * SheetsService.state * LocalStorage :=
  let '(r, st', ls') := SheetsService.fetchProducts e st ls in
  match r with
  | SheetsService.Resolved ps => (SheetsService.Resolved (SheetsService.getCategories ps), st', ls')
  | SheetsService.Rejected => (SheetsService.Rejected, st', ls')
  end.

Definition load_error : string := "خطأ في تحميل البيانات".

(** The rest of [loadInitialData()] after its first [await]: the two
    awaited service calls (each in its own environment), then
    [SET_PRODUCTS] and [SET_CATEGORIES]; a rejection of either call lands
    in the catch block, which dispatches [SET_ERROR]. *)
Definition loadInitialData_settle (e1 e2 : SheetsService.env) (w : world) : world :=
  let '(r1, w2) := with_service (SheetsService.fetchProducts e1) w in
  match r1 with
  | SheetsService.Rejected => dispatch (SET_ERROR load_error) w2
  | SheetsService.Resolved ps =>
      let '(r2, w3) := with_service (service_getCategories e2) w2 in
      match r2 with
      | SheetsService.Rejected => dispatch (SET_ERROR load_error) w3
      | SheetsService.Resolved cs => dispatch (SET_CATEGORIES cs) (dispatch (SET_PRODUCTS ps) w3)
      end
  end.

(** [loadInitialData()]: [SET_LOADING], then the rest. *)
Definition loadInitialData (e1 e2 : SheetsService.env) (w : world) : world :=
  loadInitialData_settle e1 e2 (dispatch (SET_LOADING true) w).

(** [loadCart()]: [SET_CART] with the service's cart. *)
Definition loadCart (w : world) : world := dispatch (SET_CART (CartService.getCart (svc w))) w.

(** [refreshData()]: [clearCache()], then [loadInitialData()]. *)
Definition refreshData (e1 e2 : SheetsService.env) (w : world) : world :=
  let '(st', ls') := SheetsService.clearCache (sheets w) (CartService.storage (svc w)) in
  loadInitialData e1 e2
    (mkWorld (app w) (CartService.mkService (CartService.cart (svc w)) ls') st').

(** The mount effect: [loadInitialData()] runs to its first [await]
    ([SET_LOADING]), [loadCart()] runs, and the rest of
    [loadInitialData] follows when the fetches settle. *)
Definition mount (e1 e2 : SheetsService.env) (ls : LocalStorage) : world :=
  let w0 := mkWorld initialState (CartService.init ls) SheetsService.init in
  loadInitialData_settle e1 e2 (loadCart (dispatch (SET_LOADING true) w0)).

(** ** Queries *)

Definition matches_search (query : string) (p : Product) : bool :=
  js_includes (js_toLowerCase (name p)) query ||
  js_includes (js_toLowerCase (description p)) query ||
  js_includes (js_toLowerCase (category p)) query.

(** The comparator of each [case] that sorts; [None] where the code
    does not call [sort] ([popular] and any other value). *)
Definition comparator (lc : string -> string -> Z) (sortBy : string)
    : option (Product -> Product -> Z) :=
  if String.eqb sortBy "name" then Some (fun a b => lc (name a) (name b))
  else if String.eqb sortBy "name-desc" then Some (fun a b => lc (name b) (name a))
  else if String.eqb sortBy "price-asc" then Some (fun a b => price a - price b)
  else if String.eqb sortBy "price-desc" then Some (fun a b => price b - price a)
  else if String.eqb sortBy "newest" then Some (fun a b => id b - id a)
  else None.

(** The filters, each producing a new array when it runs; the flag says
    whether one ran, that is whether [filtered] is still
    [state.products]. *)
Definition run_filters (s : state) : list Product * bool :=
  let f := filters_s s in
  let '(l1, c1) :=
    if js_truthy (category_f f)
    then (List.filter (fun p => String.eqb (category p) (category_f f)) (products s), true)
    else match currentCategory s with
         | Some c => if js_truthy c
                     then (List.filter (fun p => String.eqb (category p) c) (products s), true)
                     else (products s, false)
         | None => (products s, false)
         end in
  let '(l2, c2) :=
    if js_truthy (searchQuery s)
    then (List.filter (matches_search (js_toLowerCase (searchQuery s))) l1, true)
    else (l1, c1) in
  let '(l3, c3) :=
    if js_truthy (minPrice f)
    then (List.filter (fun p => js_ge (price p) (js_parseFloat (minPrice f))) l2, true)
    else (l2, c2) in
  let '(l4, c4) :=
    if js_truthy (maxPrice f)
    then (List.filter (fun p => js_le (price p) (js_parseFloat (maxPrice f))) l3, true)
    else (l3, c3) in
  (* [product.inStock] is [undefined] on every product *)
  if inStock f then (List.filter (fun _ => false) l4, true) else (l4, c4).

(** [getFilteredProducts()]: the result, and [state.products] after the
    call (sorted in place when no filter copied it). *)
Definition getFilteredProducts (lc : string -> string -> Z) (s : state)
    : list Product * list Product :=
  let '(l, copied) := run_filters s in
  let sorted := match comparator lc (sortBy s) with
                | Some cmp => sort_by cmp l
                | None => l
                end in
  (sorted, if copied then products s else sorted).

(** [getProductsForCurrentPage(products)] *)
Definition getProductsForCurrentPage (s : state) (ps : list Product) : list Product :=
  let last := currentPage s * productsPerPage s in
  js_slice ps (last - productsPerPage s) last.

Definition getFeaturedProducts (s : state) : list Product := List.filter featured (products s).

(** [state.products.find(p => p.id === parseInt(id))] *)
Definition getProductById (idstr : string) (s : state) : option Product :=
  SheetsService.getProductById idstr (products s).

(** [getCartItemsCount()] and [getCartTotal()] of the context ask the
    cart service, not the state's [cart]. *)
Definition getCartItemsCount (w : world) : Z := CartService.getCartItemsCount (svc w).
Definition getCartTotal (w : world) : Z := CartService.getCartTotal (svc w).

(** ** The functions of the context value *)

Inductive provider_op :=
| OpAddToCart (p : Product) (q : Z)
| OpRemoveFromCart (pid : Z)
| OpUpdateCartQuantity (pid q : Z)
| OpClearCart
| OpSetCurrentCategory (c : option string)
| OpSetSearchQuery (q : string)
| OpSetCurrentPage (p : Z)
| OpSetFilters (f : filters)
| OpSetSortBy (b : string)
| OpLoadInitialData (e1 e2 : SheetsService.env)
| OpRefreshData (e1 e2 : SheetsService.env)
| OpLoadCart.

Definition run_op (o : provider_op) (w : world) : world :=
  match o with
  | OpAddToCart p q => dispatch (ADD_TO_CART p q) w
  | OpRemoveFromCart pid => dispatch (REMOVE_FROM_CART pid) w
  | OpUpdateCartQuantity pid q => dispatch (UPDATE_CART_QUANTITY pid q) w
  | OpClearCart => dispatch CLEAR_CART w
  | OpSetCurrentCategory c => dispatch (SET_CURRENT_CATEGORY c) w
  | OpSetSearchQuery q => dispatch (SET_SEARCH_QUERY q) w
  | OpSetCurrentPage p => dispatch (SET_CURRENT_PAGE p) w
  | OpSetFilters f => dispatch (SET_FILTERS f) w
  | OpSetSortBy b => dispatch (SET_SORT_BY b) w
  | OpLoadInitialData e1 e2 => loadInitialData e1 e2 w
  | OpRefreshData e1 e2 => refreshData e1 e2 w
  | OpLoadCart => loadCart w
  end.

(** The name each function has in the provider. *)
Definition op_name (o : provider_op) : string :=
  match o with
  | OpAddToCart _ _ => "addToCart"
  | OpRemoveFromCart _ => "removeFromCart"
  | OpUpdateCartQuantity _ _ => "updateCartQuantity"
  | OpClearCart => "clearCart"
  | OpSetCurrentCategory _ => "setCurrentCategory"
  | OpSetSearchQuery _ => "setSearchQuery"
  | OpSetCurrentPage _ => "setCurrentPage"
  | OpSetFilters _ => "setFilters"
  | OpSetSortBy _ => "setSortBy"
  | OpLoadInitialData _ _ => "loadInitialData"
  | OpRefreshData _ _ => "refreshData"
  | OpLoadCart => "loadCart"
  end.

(** The functions the context [value] holds beside [...state]: the
    provider defines [setFilters], [setSortBy] and [loadCart] but does
    not put them in it. *)
Definition value_functions : list string :=
  ["addToCart"; "removeFromCart"; "updateCartQuantity"; "clearCart"; "setCurrentCategory";
   "setSearchQuery"; "getFilteredProducts"; "getFeaturedProducts"; "getProductById";
   "getCartItemsCount"; "getCartTotal"; "sendOrderToWhatsApp"; "formatPrice"; "refreshData";
   "loadInitialData"; "setCurrentPage"; "getProductsForCurrentPage"].

(** Whether a consumer of [useApp()] can call the function. *)
Definition exported (o : provider_op) : bool := existsb (String.eqb (op_name o)) value_functions.

(** [useApp().name] for a function of the provider: the function when
    [value] holds it, [undefined] otherwise. *)
Definition member {A} (name : string) (mk : A -> provider_op) : option (A -> world -> world) :=
  if existsb (String.eqb name) value_functions then Some (fun x => run_op (mk x)) else None.

(** The worlds a session can reach: the mount, then any calls of the
    functions of the context value, in any order. *)
Inductive reachable : world -> Prop :=
| reach_mount e1 e2 ls : reachable (mount e1 e2 ls)
| reach_op w o : reachable w -> exported o = true -> reachable (run_op o w).


End AppContext.

Import AppContext.

(** ** The home page *)

Module HomePage.

(** [currentCategory || searchQuery ? getFilteredProducts() : products] *)
Definition filtering (s : state) : bool := js_truthy (currentCategory s) || js_truthy (searchQuery s).

Definition productsAfterFilter (lc : string -> string -> Z) (s : state) : list Product :=
  if filtering s then fst (getFilteredProducts lc s) else products s.

Definition totalPages (lc : string -> string -> Z) (s : state) : Z :=
  ceil_div (Z.of_nat (length (productsAfterFilter lc s))) (productsPerPage s).

Definition productsToShow (lc : string -> string -> Z) (s : state) : list Product :=
  getProductsForCurrentPage s (productsAfterFilter lc s).

(** [productsToShow.length > 0 && <Pagination .../>] *)
Definition showPagination (lc : string -> string -> Z) (s : state) : bool :=
  negb (Nat.eqb (length (productsToShow lc s)) 0).

Definition handleCategoryClick (c : string) (w : world) : world :=
  run_op (OpSetCurrentCategory (Some c)) w.

Definition handlePageChange (p : Z) (w : world) : world := run_op (OpSetCurrentPage p) w.

End HomePage.

(** ** The header *)

Module Header.

Definition handleSearch (searchInput : string) (w : world) : world :=
  run_op (OpSetCurrentCategory None) (run_op (OpSetSearchQuery searchInput) w).

Definition handleCategoryClick (c : string) (w : world) : world :=
  run_op (OpSetSearchQuery "") (run_op (OpSetCurrentCategory (Some c)) w).

Definition handleLogoClick (w : world) : world :=
  run_op (OpSetSearchQuery "") (run_op (OpSetCurrentCategory None) w).

End Header.

(** ** The product page *)

Module ProductDetail.

(** [handleQuantityChange(newQuantity)] on the local [quantity]. *)
Definition handleQuantityChange (p : Product) (newQuantity quantity : Z) : Z :=
  if (1 <=? newQuantity) && (newQuantity <=? stock p) then newQuantity else quantity.

(** [handleAddToCart()] for the product of the route parameter [id]. *)
Definition handleAddToCart (idstr : string) (quantity : Z) (w : world) : world :=
  match getProductById idstr (app w) with
  | Some p => if 0 <? stock p then run_op (OpAddToCart p quantity) w else w
  | None => w
  end.

End ProductDetail.


(** ** The cart page *)

Module CartPage.

(** [handleQuantityChange(productId, newQuantity)], which the minus and
    plus buttons call with [item.quantity - 1] and [item.quantity + 1]. *)
Definition handleQuantityChange (pid newQuantity : Z) (w : world) : world :=
  if newQuantity <=? 0 then run_op (OpRemoveFromCart pid) w
  else run_op (OpUpdateCartQuantity pid newQuantity) w.

Definition decrement (it : CartItem) (w : world) : world :=
  handleQuantityChange (ci_id it) (quantity it - 1) w.

Definition increment (it : CartItem) (w : world) : world :=
  handleQuantityChange (ci_id it) (quantity it + 1) w.

(** [handleCheckout()]: whether the order link is opened. *)
Definition handleCheckout (w : world) : bool := negb (Nat.eqb (length (AppContext.cart (app w))) 0).

End CartPage.

(** ** The product card *)

Module ProductCard.

(** [handleAddToCart]: [addToCart(product, 1)]; the button is rendered
    only when [product.stock > 0]. *)
Definition handleAddToCart (p : Product) (w : world) : world :=
  if 0 <? stock p then run_op (OpAddToCart p 1) w else w.

End ProductCard.

(** ** The pagination controls of the home page *)

Module PaginationControls.

(** [if (totalPages <= 1) return null] *)
Definition rendered (totalPages : Z) : bool := 1 <? totalPages.

Inductive click :=
| ClickPrev
| ClickNext
| ClickPage (p : Z).

(** A click on an enabled control calls [onPageChange], which is
    [handlePageChange]: [setCurrentPage(page)].  The previous and next
    buttons are disabled without [hasPrevPage] and [hasNextPage]. *)
Definition on_click (lc : string -> string -> Z) (c : click) (w : world) : world :=
  let s := app w in
  let tp := HomePage.totalPages lc s in
  match c with
  | ClickPrev => if 1 <? currentPage s then HomePage.handlePageChange (currentPage s - 1) w else w
  | ClickNext => if currentPage s <? tp then HomePage.handlePageChange (currentPage s + 1) w else w
  | ClickPage p => HomePage.handlePageChange p w
  end.

End PaginationControls.

(** ** Properties *)

Module Properties.

Import HomePage.

(** The context's cart is the cart service's array. *)
Definition mirror (w : world) : Prop := AppContext.cart (app w) = CartService.cart (svc w).

(** ** Sample worlds, for the witnesses *)

Definition first_visit : LocalStorage := mkLocalStorage SlotEmpty SlotEmpty true.

Definition fresh_world : world :=
  mkWorld initialState (CartService.init first_visit) SheetsService.init.

Definition env_at (t : Z) (r : SheetsService.net_result) (rnd : nat -> Z) : SheetsService.env :=
  SheetsService.mkEnv t t r rnd.

(** The largest draw, [Math.random()] just below 1. *)
Definition top_random : nat -> Z := fun _ => SheetsService.random_scale - 1.

(** Twelve products, two of them in [cables], shown from page 2 of the
    full list. *)
Definition catalogue : list Product :=
  map (fun i => mkProduct i "item" (if i <=? 2 then "cables" else "audio") (1000 * i) "d" "i.png" i false)
      (zrange 1 12).

Definition browsing : world :=
  mkWorld (set_currentPage 2 (set_products catalogue initialState))
          (CartService.init first_visit) SheetsService.init.

(** ** Lemmas *)

Lemma dispatch_mirror a w :
  mirror w ->
  match a with SET_CART c => c = CartService.cart (svc w) | _ => True end ->
  mirror (dispatch a w).
Proof. unfold mirror, dispatch. destruct a; simpl; auto. Qed.

Lemma with_service_mirror {A} call w :
  mirror w -> mirror (snd (@with_service A call w)).
Proof. unfold with_service. destruct (call _ _) as [[r st'] ls']. auto. Qed.

Lemma with_service_fst {A} call w :
  fst (@with_service A call w) = fst (fst (call (sheets w) (CartService.storage (svc w)))).
Proof. unfold with_service. now destruct (call _ _) as [[r st'] ls']. Qed.

Lemma with_service_app {A} call w : app (snd (@with_service A call w)) = app w.
Proof. unfold with_service. now destruct (call _ _) as [[r st'] ls']. Qed.

Lemma loadCart_mirror w : mirror (loadCart w).
Proof. unfold loadCart, mirror, dispatch. reflexivity. Qed.

Lemma settle_mirror e1 e2 w : mirror w -> mirror (loadInitialData_settle e1 e2 w).
Proof.
  intros H. unfold loadInitialData_settle.
  destruct (with_service _ w) as [r1 w2] eqn:E1.
  assert (H2 : mirror w2) by (change w2 with (snd (r1, w2)); rewrite <- E1; now apply with_service_mirror).
  destruct r1 as [ps|]; [|now apply dispatch_mirror].
  destruct (with_service _ w2) as [r2 w3] eqn:E2.
  assert (H3 : mirror w3) by (change w3 with (snd (r2, w3)); rewrite <- E2; now apply with_service_mirror).
  destruct r2; repeat apply dispatch_mirror; auto.
Qed.

(** [getProductsForCurrentPage] is the hook's page window. *)
Lemma page_slice_currentData s ps :
  getProductsForCurrentPage s ps =
  UsePagination.currentData ps (productsPerPage s) (currentPage s).
Proof.
  unfold getProductsForCurrentPage, UsePagination.currentData. cbv zeta. f_equal; ring.
Qed.

(** Whether [filtered] is a copy: some filter ran. *)
Lemma run_filters_snd s :
  snd (run_filters s) =
  js_truthy (category_f (filters_s s)) || js_truthy (currentCategory s) ||
  js_truthy (searchQuery s) || js_truthy (minPrice (filters_s s)) ||
  js_truthy (maxPrice (filters_s s)) || inStock (filters_s s).
Proof.
  unfold run_filters. destruct (currentCategory s) as [c|];
  [change (js_truthy (Some c)) with (js_truthy c)|change (js_truthy (@None string)) with false];
  repeat match goal with
  | |- context [if ?b then _ else _] => destruct b
  end; reflexivity.
Qed.

Lemma run_filters_copied s : filtering s = true -> snd (run_filters s) = true.
Proof.
  unfold filtering. intros H. rewrite run_filters_snd.
  apply orb_true_iff in H as [H|H]; rewrite H; now rewrite ?orb_true_r.
Qed.

Lemma run_filters_inStock s : inStock (filters_s s) = true -> fst (run_filters s) = [].
Proof.
  unfold run_filters. intros H.
  repeat match goal with
  | |- context [let '(_, _) := ?p in _] => destruct p
  end.
  rewrite H. apply filter_none. reflexivity.
Qed.

(** The state a first load leaves when its download succeeds. *)
Lemma loadInitialData_downloaded e1 e2 w body :
  SheetsService.cache_hit (SheetsService.t_call e1) (sheets w) = None ->
  SheetsService.response e1 = SheetsService.NetOk body ->
  ls_quota_ok (CartService.storage (svc w)) = true ->
  SheetsService.t_response e1 <> 0 ->
  SheetsService.t_call e2 - SheetsService.t_response e1 < SheetsService.cacheTimeout ->
  app (loadInitialData e1 e2 w) =
  set_categories (SheetsService.getCategories (SheetsService.parse_products body))
    (set_products (SheetsService.parse_products body) (set_loading true (app w))).
Proof.
  intros Hm Hr Hq Hz Hw. unfold loadInitialData, loadInitialData_settle, with_service. simpl.
  rewrite (SheetsService.fetch_fresh _ _ _ body) by assumption. cbv zeta.
  rewrite ls_setItem_products_ok by assumption. unfold service_getCategories.
  rewrite (SheetsService.fetch_cached _ _ _ (SheetsService.parse_products body))
    by (now apply SheetsService.downloaded_cache_hit).
  reflexivity.
Qed.

Lemma run_op_mirror o w : mirror w -> mirror (run_op o w).
Proof.
  intros H. destruct o; simpl; try (apply dispatch_mirror; auto); try apply loadCart_mirror.
  - unfold loadInitialData. apply settle_mirror, dispatch_mirror; auto.
  - unfold refreshData. destruct (SheetsService.clearCache _ _). unfold loadInitialData.
    apply settle_mirror, dispatch_mirror; auto.
Qed.

(** The context's filters and sort order, which only [SET_FILTERS] and
    [SET_SORT_BY] write. *)
Definition panel_state (s : state) : filters * string := (filters_s s, sortBy s).

Definition sets_panel (a : action) : bool :=
  match a with SET_FILTERS _ | SET_SORT_BY _ => true | _ => false end.

Lemma dispatch_keeps_panel a w :
  sets_panel a = false -> panel_state (app (dispatch a w)) = panel_state (app w).
Proof. unfold dispatch. destruct a; simpl; try discriminate; reflexivity. Qed.

Lemma settle_keeps_panel e1 e2 w :
  panel_state (app (loadInitialData_settle e1 e2 w)) = panel_state (app w).
Proof.
  unfold loadInitialData_settle.
  destruct (with_service _ w) as [r1 w2] eqn:E1.
  assert (H2 : app w2 = app w)
    by (change w2 with (snd (r1, w2)); rewrite <- E1; apply with_service_app).
  destruct r1 as [ps|]; [|now rewrite dispatch_keeps_panel, H2].
  destruct (with_service _ w2) as [r2 w3] eqn:E2.
  assert (H3 : app w3 = app w2)
    by (change w3 with (snd (r2, w3)); rewrite <- E2; apply with_service_app).
  destruct r2; rewrite ?dispatch_keeps_panel by reflexivity; congruence.
Qed.

(** A function of the context value leaves the filters and the sort
    order as they are. *)
Lemma run_op_keeps_panel o w :
  exported o = true -> panel_state (app (run_op o w)) = panel_state (app w).
Proof.
  destruct o; intros He; cbn [run_op];
    try (cbv in He; discriminate He); try (apply dispatch_keeps_panel; reflexivity).
  - unfold loadInitialData. rewrite settle_keeps_panel. apply dispatch_keeps_panel; reflexivity.
  - unfold refreshData. destruct (SheetsService.clearCache _ _). unfold loadInitialData.
    rewrite settle_keeps_panel, dispatch_keeps_panel by reflexivity. reflexivity.
Qed.

Lemma reachable_panel_initial w : reachable w -> panel_state (app w) = (no_filters, "name"%string).
Proof.
  induction 1 as [e1 e2 ls|w o _ IH He].
  - unfold mount, loadCart. rewrite settle_keeps_panel, !dispatch_keeps_panel by reflexivity.
    reflexivity.
  - now rewrite run_op_keeps_panel.
Qed.

(** Each comparator of [getFilteredProducts] is consistent when
    [localeCompare] is: comparing equal is symmetric and transitive. *)
Lemma comparator_consistent lc b cmp :
  (forall x y, lc x y = 0 -> lc y x = 0) ->
  (forall x y z, lc x y = 0 -> lc y z = 0 -> lc x z = 0) ->
  comparator lc b = Some cmp ->
  (forall x y, cmp x y = 0 -> cmp y x = 0) /\
  (forall x y z, cmp x y = 0 -> cmp y z = 0 -> cmp x z = 0).
Proof.
  intros Hs Ht. unfold comparator.
  repeat (case_if; [intros [= <-]; split; intros; cbv beta in *; solve [lia | eauto]|]).
  discriminate.
Qed.

(** ** Theorems *)

(** C22: in every session, after the mount, the cart the context shows
    is the cart service's array: every cart action re-reads it from the
    service's return value and nothing else writes it. *)
Theorem app_cart_mirror w : reachable w -> mirror w.
Proof.
  induction 1 as [e1 e2 ls|w o _ IH _].
  - unfold mount. apply settle_mirror, loadCart_mirror.
  - now apply run_op_mirror.
Qed.

(** C23: a first load whose download succeeds (the storage writable, the
    second call within five minutes of the first) leaves the downloaded
    products and their categories in the context, with [loading] off and
    no error. *)
Theorem loadInitialData_download e1 e2 w body :
  SheetsService.cache_hit (SheetsService.t_call e1) (sheets w) = None ->
  SheetsService.response e1 = SheetsService.NetOk body ->
  ls_quota_ok (CartService.storage (svc w)) = true ->
  SheetsService.t_response e1 <> 0 ->
  SheetsService.t_call e2 - SheetsService.t_response e1 < SheetsService.cacheTimeout ->
  let s := app (loadInitialData e1 e2 w) in
  products s = SheetsService.parse_products body /\
  categories s = SheetsService.getCategories (SheetsService.parse_products body) /\
  loading s = false /\ error s = None.
Proof.
  intros Hm Hr Hq Hz Hw. rewrite (loadInitialData_downloaded _ _ _ body) by assumption.
  repeat split.
Qed.

(** the categories are not computed from the products shown:
    [getCategories()] fetches again, and when both calls fall back to the
    sample data they draw two different samples.  With the draws below,
    every product shown is in the first category while the category list
    names only the last one. *)
Theorem loadInitialData_categories_resampled :
  let w := loadInitialData (env_at 0 SheetsService.NetFail SheetsService.zero_random)
                           (env_at 1 SheetsService.NetFail top_random) fresh_world in
  categories (app w) <> SheetsService.getCategories (products (app w)).
Proof. vm_compute. discriminate. Qed.

(** the context's [inStock] filter reads [product.inStock], which no
    product has: were it set, it would empty the filtered list, whatever
    the stock.  No reachable world sets it ([context_filters_initial]). *)
Theorem getFilteredProducts_inStock lc s :
  inStock (filters_s s) = true -> fst (getFilteredProducts lc s) = [].
Proof.
  intros H. unfold getFilteredProducts. pose proof (run_filters_inStock s H) as E.
  destruct (run_filters s) as [l c]. simpl in E. subst l.
  now destruct (comparator lc (sortBy s)).
Qed.

(** the context's sort is stable, as [Array.prototype.sort] is: for
    every order it sorts by, the products its comparator puts level with
    [k] keep the order the filters left them in, provided
    [localeCompare] is consistent on equal names. *)
Theorem getFilteredProducts_stable lc s cmp k :
  (forall x y, lc x y = 0 -> lc y x = 0) ->
  (forall x y z, lc x y = 0 -> lc y z = 0 -> lc x z = 0) ->
  comparator lc (sortBy s) = Some cmp ->
  List.filter (fun p => cmp p k =? 0) (fst (getFilteredProducts lc s)) =
  List.filter (fun p => cmp p k =? 0) (fst (run_filters s)).
Proof.
  intros Hs Ht Hc. destruct (comparator_consistent lc _ cmp Hs Ht Hc) as [Hs' Ht'].
  unfold getFilteredProducts. destruct (run_filters s) as [l c]. rewrite Hc.
  now apply sort_by_stable.
Qed.

(** the context's [newest] order sorts by id, descending, where the
    hook's [newest] keeps the catalogue order (C27). *)
Theorem getFilteredProducts_newest lc s :
  sortBy s = "newest"%string ->
  Sorted (fun a b => id b <= id a) (fst (getFilteredProducts lc s)).
Proof.
  intros H. unfold getFilteredProducts. destruct (run_filters s) as [l c].
  rewrite H. simpl.
  apply (ProductFilter.sorted_mono (fun a b => id b - id a <= 0)); [intros; lia|].
  apply sort_by_sorted. intros; lia.
Qed.

(** with no category and no search query, the home page lists the
    catalogue as it is: filters and a sort order in the context, were
    they set, would change nothing on it. *)
Theorem home_ignores_filters lc s f b :
  filtering s = false ->
  productsAfterFilter lc (set_sortBy b (set_filters f s)) = products s.
Proof. unfold productsAfterFilter, filtering. simpl. intros ->. reflexivity. Qed.

(** C31: a category click in the header keeps the current page: when the
    category has fewer pages than the page number, the home page shows no
    product and no pagination, though the category is not empty. *)
Theorem category_click_keeps_page lc w c :
  0 < productsPerPage (app w) ->
  let s' := app (Header.handleCategoryClick c w) in
  HomePage.totalPages lc s' < currentPage (app w) ->
  currentPage s' = currentPage (app w) /\ productsToShow lc s' = [] /\
  showPagination lc s' = false.
Proof.
  intros Hk s' Ht.
  assert (Hp : currentPage s' = currentPage (app w)) by reflexivity.
  assert (E : productsToShow lc s' = []).
  { unfold productsToShow. rewrite page_slice_currentData.
    apply Pagination.currentData_past_end; [exact Hk|]. rewrite Hp. exact Ht. }
  split; [exact Hp|split; [exact E|]]. unfold showPagination. now rewrite E.
Qed.

(** the home page calls [getFilteredProducts] only when a filter
    runs, so the in-place sort never reorders [state.products]. *)
Theorem home_keeps_products_order lc s :
  filtering s = true -> snd (getFilteredProducts lc s) = products s.
Proof.
  intros H. unfold getFilteredProducts. pose proof (run_filters_copied s H) as E.
  destruct (run_filters s) as [l c]. simpl in E. now subst c.
Qed.

(** C30: the filter panel's choices never reach the context: [value]
    holds neither [setFilters] nor [setSortBy], and no function it holds
    dispatches [SET_FILTERS] or [SET_SORT_BY]; so in every reachable
    world, whatever the components called, the context's filters and
    sort order are the initial ones. *)
Theorem context_filters_initial w :
  reachable w -> filters_s (app w) = no_filters /\ sortBy (app w) = "name"%string.
Proof. intros H. apply reachable_panel_initial in H. now injection H. Qed.

(** C24: the error state is never final: from any world (after a failed
    load, with any caches), one press of the retry button
    ([refreshData]) whose download succeeds, the storage writable and
    the categories fetched within five minutes, ends with the downloaded
    products, no error and [loading] off. *)
Theorem retry_recovers e1 e2 w body :
  SheetsService.response e1 = SheetsService.NetOk body ->
  ls_quota_ok (CartService.storage (svc w)) = true ->
  SheetsService.t_response e1 <> 0 ->
  SheetsService.t_call e2 - SheetsService.t_response e1 < SheetsService.cacheTimeout ->
  let s := app (refreshData e1 e2 w) in
  error s = None /\ loading s = false /\ products s = SheetsService.parse_products body.
Proof.
  intros Hr Hq Hz Hw. unfold refreshData, SheetsService.clearCache.
  rewrite (loadInitialData_downloaded _ _ _ body); simpl; auto.
Qed.

(** ** Witnesses *)

Lemma app_cart_mirror_witness :
  let w := mount (env_at 0 SheetsService.NetFail SheetsService.zero_random)
                 (env_at 1 SheetsService.NetFail SheetsService.zero_random) first_visit in
  reachable w /\ mirror w.
Proof.
  cbv zeta. assert (H : reachable (mount (env_at 0 SheetsService.NetFail SheetsService.zero_random)
                 (env_at 1 SheetsService.NetFail SheetsService.zero_random) first_visit))
    by apply reach_mount.
  split; [exact H|]. exact (app_cart_mirror _ H).
Defined.

Lemma context_filters_initial_witness :
  let w := run_op (OpSetCurrentCategory (Some "cables"%string))
             (mount (env_at 0 SheetsService.NetFail SheetsService.zero_random)
                    (env_at 1 SheetsService.NetFail SheetsService.zero_random) first_visit) in
  reachable w /\ filters_s (app w) = no_filters.
Proof.
  cbv zeta. match goal with |- reachable ?w /\ _ => assert (H : reachable w) end.
  { apply reach_op; [apply reach_mount | reflexivity]. }
  split; [exact H|]. exact (proj1 (context_filters_initial _ H)).
Defined.

Lemma loadInitialData_download_witness :
  let e1 := env_at 1000 (SheetsService.NetOk SheetsService.sample_body) SheetsService.zero_random in
  let e2 := env_at 2000 SheetsService.NetFail SheetsService.zero_random in
  SheetsService.cache_hit (SheetsService.t_call e1) (sheets fresh_world) = None /\
  ls_quota_ok (CartService.storage (svc fresh_world)) = true /\
  SheetsService.t_call e2 - SheetsService.t_response e1 < SheetsService.cacheTimeout /\
  products (app (loadInitialData e1 e2 fresh_world)) =
  SheetsService.parse_products SheetsService.sample_body.
Proof.
  cbv zeta. split; [reflexivity|split; [reflexivity|split; [unfold SheetsService.cacheTimeout; simpl; lia|]]].
  apply (loadInitialData_download _ _ fresh_world SheetsService.sample_body);
    try reflexivity; unfold SheetsService.cacheTimeout; simpl; lia.
Defined.

Lemma getFilteredProducts_inStock_witness :
  let s := set_filters (mkFilters "" "" "" true) (app browsing) in
  inStock (filters_s s) = true /\ fst (getFilteredProducts ProductFilter.codepoint_compare s) = [].
Proof.
  cbv zeta. split; [reflexivity|]. apply getFilteredProducts_inStock. reflexivity.
Defined.

Lemma getFilteredProducts_newest_witness :
  let s := set_sortBy "newest" (app browsing) in
  sortBy s = "newest"%string /\
  Sorted (fun a b => id b <= id a) (fst (getFilteredProducts ProductFilter.codepoint_compare s)).
Proof.
  cbv zeta. split; [reflexivity|]. apply getFilteredProducts_newest. reflexivity.
Defined.

Lemma home_ignores_filters_witness :
  filtering (app browsing) = false /\
  productsAfterFilter ProductFilter.codepoint_compare
    (set_sortBy "price-desc" (set_filters (mkFilters "cables" "5000" "" true) (app browsing)))
  = catalogue.
Proof. split; [reflexivity|]. apply home_ignores_filters. reflexivity. Defined.

Lemma category_click_keeps_page_witness :
  let s' := app (Header.handleCategoryClick "cables" browsing) in
  0 < productsPerPage (app browsing) /\
  HomePage.totalPages ProductFilter.codepoint_compare s' < currentPage (app browsing) /\
  length (productsAfterFilter ProductFilter.codepoint_compare s') = 2%nat /\
  productsToShow ProductFilter.codepoint_compare s' = [].
Proof.
  cbv zeta. split; [reflexivity|]. split; [reflexivity|]. split; [reflexivity|].
  apply (category_click_keeps_page ProductFilter.codepoint_compare browsing "cables");
    reflexivity.
Defined.

Lemma home_keeps_products_order_witness :
  let s := set_sortBy "price-desc" (set_currentCategory (Some "cables"%string) (app browsing)) in
  filtering s = true /\ snd (getFilteredProducts ProductFilter.codepoint_compare s) = catalogue.
Proof. cbv zeta. split; [reflexivity|]. apply home_keeps_products_order. reflexivity. Defined.

Lemma retry_recovers_witness :
  let e1 := env_at 1000 (SheetsService.NetOk SheetsService.sample_body) SheetsService.zero_random in
  let e2 := env_at 2000 SheetsService.NetFail SheetsService.zero_random in
  let w := dispatch (SET_ERROR load_error) browsing in
  error (app w) = Some load_error /\
  ls_quota_ok (CartService.storage (svc w)) = true /\
  error (app (refreshData e1 e2 w)) = None.
Proof.
  cbv zeta. split; [reflexivity|split; [reflexivity|]].
  apply (retry_recovers _ _ _ SheetsService.sample_body);
    try reflexivity; unfold SheetsService.cacheTimeout; simpl; lia.
Defined.

End Properties.
