(* ===== verification/PWA.v ===== *)
(** * PWA: the install state of [src/src/hooks/usePWA.js] and
    [src/src/components/InstallPrompt.jsx]

    [usePWA] keeps three state variables ([deferredPrompt],
    [isInstallable], [isInstalled]) that browser events and the install
    button change.  [Module UsePWA] writes each handler as a function on
    the state record and the session as a step relation [step]: the
    [beforeinstallprompt] and [appinstalled] events, the check of the
    standalone display mode at mount, and [installApp], which is [async]:
    it calls [prompt()] and then, at a later point where other events may
    already have run, settles with the user's choice.  A pending
    [installApp] is part of the state ([pending]) so that the
    interleavings are explicit.

    [InstallPrompt] renders when the app is installable and not
    installed; its dismiss button writes [installPromptDismissed] to
    [localStorage], a key nothing reads.

    The theorems: [isInstallable] holds exactly when a deferred prompt is
    kept, in every reachable state; [isInstalled] never goes back to
    false; the dismiss button does not hide the prompt. *)

From S2P Require Import Spec2Rocq.

Module UsePWA.

(** ** State and handlers *)

(** The [beforeinstallprompt] event object, identified by a number. *)
Definition prompt_event := Z.

Inductive choice := Accepted | Dismissed.

Record pwa := mkPwa {
  deferredPrompt : option prompt_event;
  isInstallable : bool;
  isInstalled : bool;
  pending : option prompt_event;   (** an [installApp] waiting on [userChoice] *)
  dismissed_key : bool             (** [localStorage.installPromptDismissed] written *)
}.

(** The three [useState] initial values. *)
Definition init : pwa := mkPwa None false false None false.

(** [handleBeforeInstallPrompt(e)]: [setDeferredPrompt(e)],
    [setIsInstallable(true)]. *)
Definition handleBeforeInstallPrompt (e : prompt_event) (s : pwa) : pwa :=
  mkPwa (Some e) true (isInstalled s) (pending s) (dismissed_key s).

(** [handleAppInstalled()] *)
Definition handleAppInstalled (s : pwa) : pwa :=
  mkPwa None false true (pending s) (dismissed_key s).

(** The mount check of [(display-mode: standalone)]. *)
Definition checkStandalone (standalone : bool) (s : pwa) : pwa :=
  if standalone then mkPwa (deferredPrompt s) (isInstallable s) true (pending s) (dismissed_key s)
  else s.

(** [installApp()] up to its [await]: nothing without a deferred
    prompt; otherwise [prompt()] is called and the call waits. *)
Definition installApp_start (s : pwa) : pwa :=
  match deferredPrompt s with
  | Some e => mkPwa (deferredPrompt s) (isInstallable s) (isInstalled s) (Some e) (dismissed_key s)
  | None => s
  end.

(** The rest of [installApp()] once [userChoice] settles. *)
Definition installApp_settle (c : choice) (s : pwa) : pwa :=
  match pending s with
  | Some _ =>
      let installed := match c with Accepted => true | Dismissed => isInstalled s end in
      mkPwa None false installed None (dismissed_key s)
  | None => s
  end.

(** The dismiss button of [InstallPrompt]. *)
Definition dismiss (s : pwa) : pwa :=
  mkPwa (deferredPrompt s) (isInstallable s) (isInstalled s) (pending s) true.

(** [if (isInstalled || !isInstallable) return null] *)
Definition prompt_visible (s : pwa) : bool := negb (isInstalled s) && isInstallable s.

(** ** The session *)

Inductive event :=
| BeforeInstallPrompt (e : prompt_event)
| AppInstalled
| Standalone (b : bool)
| InstallClick
| UserChoice (c : choice)
| DismissClick.

Definition run (ev : event) (s : pwa) : pwa :=
  match ev with
  | BeforeInstallPrompt e => handleBeforeInstallPrompt e s
  | AppInstalled => handleAppInstalled s
  | Standalone b => checkStandalone b s
  | InstallClick => installApp_start s
  | UserChoice c => installApp_settle c s
  | DismissClick => dismiss s
  end.

Inductive step : pwa -> pwa -> Prop :=
| step_run ev s : step s (run ev s).

Inductive reachable : pwa -> Prop :=
| reach_init : reachable init
| reach_step s s' : reachable s -> step s s' -> reachable s'.

(** The invariant: the install button has a prompt to show. *)
Definition prompt_kept (s : pwa) : Prop :=
  isInstallable s = true <-> deferredPrompt s <> None.

(** ** Theorems *)

Lemma run_prompt_kept ev s : prompt_kept s -> prompt_kept (run ev s).
Proof.
  unfold prompt_kept. intros H.
  destruct ev as [e| |[|]| |c|]; simpl; unfold installApp_start, installApp_settle;
    try destruct (deferredPrompt s) eqn:E; try destruct (pending s); simpl;
    solve [exact H | rewrite E; exact H
          | split; [intros _ C; discriminate C | reflexivity]
          | split; [discriminate | intros C; exfalso; now apply C]].
Qed.

(** In every reachable state, [isInstallable] holds exactly when a
    deferred prompt is kept, whatever events ran during a pending
    [installApp]. *)
Theorem reachable_prompt_kept s : reachable s -> prompt_kept s.
Proof.
  induction 1 as [|s s' _ IH Hs]; [split; [discriminate|tauto]|].
  destruct Hs. now apply run_prompt_kept.
Qed.

(** [isInstalled] never goes back to false, so once installed the
    prompt stays hidden. *)
Theorem installed_stays ev s :
  isInstalled s = true -> isInstalled (run ev s) = true /\ prompt_visible (run ev s) = false.
Proof.
  intros H. assert (Hi : isInstalled (run ev s) = true).
  { destruct ev as [e| |[|]| |[|]|]; simpl; auto;
      [unfold installApp_start; destruct (deferredPrompt s)
      |unfold installApp_settle; destruct (pending s)
      |unfold installApp_settle; destruct (pending s)]; simpl; auto. }
  split; [exact Hi|]. unfold prompt_visible. now rewrite Hi.
Qed.

(** The dismiss button writes a key nothing reads: the prompt stays as
    visible as it was. *)
Theorem dismiss_keeps_prompt s : prompt_visible (dismiss s) = prompt_visible s.
Proof. reflexivity. Qed.

End UsePWA.
