(* ===== verification/Order.v ===== *)
(** * Order: the WhatsApp order of [src/src/services/cartService.js]

    [generateWhatsAppMessage] renders the cart as text (a header, one
    numbered block per line item, the total, the item count and a closing
    line) and [generateWhatsAppLink] puts it, through
    [encodeURIComponent], in the [text] parameter of a [wa.me] link.
    [formatPrice] is [Intl.NumberFormat('ar-IQ', IQD)], whose output
    comes from the platform's locale data: it is the parameter
    [formatPrice] of [Section Message].  [sendOrderToWhatsApp] passes the
    link to [window.open], which appends it to the list of the windows
    the browser opened.

    The theorems: the text parameter of the link holds only unreserved
    characters and percent escapes, whatever the names and categories in
    the cart, so the order cannot end the parameter early; the default
    phone number loses its [+]. *)

From S2P Require Import Spec2Rocq Data JsString Cart.

#[local] Arguments String.append : simpl nomatch.

Module OrderMessage.

Import CartService.

Section Message.

Variable formatPrice : Z -> string.

Definition nl : string := String newline EmptyString.

Definition empty_message : string := "السلة فارغة".

Definition header : string := "🛒 *طلب جديد من Gn store*" ++ nl ++ nl.

(** The block the [forEach] appends for [item] at [index]. *)
Definition item_block (index : Z) (it : CartItem) : string :=
  js_int_string (index + 1) ++ ". *" ++ ci_name it ++ "*" ++ nl ++
  "   القسم: " ++ ci_category it ++ nl ++
  "   السعر: " ++ formatPrice (ci_price it) ++ nl ++
  "   الكمية: " ++ js_int_string (quantity it) ++ nl ++
  "   المجموع: " ++ formatPrice (ci_price it * quantity it) ++ nl ++ nl.

Fixpoint item_blocks (index : Z) (c : list CartItem) : string :=
  match c with
  | [] => EmptyString
  | it :: c' => item_block index it ++ item_blocks (index + 1) c'
  end.

Definition footer (s : service) : string :=
  "💰 *إجمالي الطلب: " ++ formatPrice (getCartTotal s) ++ "*" ++ nl ++
  "📦 *عدد العناصر: " ++ js_int_string (getCartItemsCount s) ++ "*" ++ nl ++ nl ++
  "📞 يرجى التواصل معي لتأكيد الطلب وتحديد طريقة التسليم والدفع.".

(** [generateWhatsAppMessage()] *)
Definition generateWhatsAppMessage (s : service) : string :=
  match cart s with
  | [] => empty_message
  | _ => header ++ item_blocks 0 (cart s) ++ footer s
  end.

(** [phoneNumber.replace('+', '')]: a string pattern replaces the first
    occurrence only. *)
Fixpoint replace_first (c : ascii) (s : string) : string :=
  match s with
  | EmptyString => EmptyString
  | String x r => if Ascii.eqb x c then r else String x (replace_first c r)
  end.

Definition default_phone : string := "+9647707409507".

(** [generateWhatsAppLink(phoneNumber)] *)
Definition generateWhatsAppLink (phoneNumber : string) (s : service) : string :=
  "https://wa.me/" ++ replace_first plus_sign phoneNumber ++ "?text=" ++
  js_encodeURIComponent (generateWhatsAppMessage s).

(** [window.open(url, '_blank')]: the browser's opened windows, in order. *)
Definition window_open (url : string) (opened : list string) : list string := opened ++ [url].

(** [sendOrderToWhatsApp(phoneNumber)] *)
Definition sendOrderToWhatsApp (phoneNumber : string) (s : service) (opened : list string)
    : list string :=
  window_open (generateWhatsAppLink phoneNumber s) opened.

(** ** Theorems *)

(** The link is the address, the phone number and a text parameter
    made only of unreserved characters and percent escapes. *)
Theorem link_text_url_safe phoneNumber s :
  exists t, generateWhatsAppLink phoneNumber s =
            ("https://wa.me/" ++ replace_first plus_sign phoneNumber ++ "?text=" ++ t)%string /\
            url_safe t = true.
Proof. eexists. split; [reflexivity|]. apply encodeURIComponent_url_safe. Qed.

(** The default number loses its leading [+]. *)
Lemma default_phone_digits : replace_first plus_sign default_phone = "9647707409507"%string.
Proof. reflexivity. Qed.

End Message.

End OrderMessage.
