(* ===== verification/Pages.v ===== *)
(** * Pages: the product grid, the home page's render and start-up, and
    the page session

    [Module ProductGrid] is [src/src/components/ProductGrid.jsx]: it runs
    its own [usePagination(products || [], 100)], resets that hook's page
    whenever it receives a new [products] array, and renders a loading
    state, an empty state, or the cards of the hook's current page with a
    range label and a pager of its own.

    [Module HomePageView] is what [src/src/pages/HomePage.jsx] renders
    around the grid: the title, the empty message, the props of its
    [Pagination], the guards of its sections, and its mount effect, which
    calls [refreshData()] when the context holds no products.

    [Module Startup] composes the first commit on the route [/]: React
    runs the effects of children before those of their parents, so
    [HomePage]'s mount effect runs before [AppProvider]'s, and two loads
    are in flight when the fetches settle.

    [Module CartPageView] is the cart page's view (its lines from the
    context's [cart], its count and total from the cart service), and
    [Module HeaderView] the header's two state variables, its handlers'
    writes to them and its cart badge.

    [Module Session] is the page session: the events the pages send to
    the context (the product card, the detail page with its [quantity]
    state, the cart page, navigation and reloads), as a step relation on
    the world and the detail page's state.  [Module PageProperties] holds
    the frame lemmas of the context's calls, the theorems on the sessions
    and the home page's range label. *)

From S2P Require Import Spec2Rocq Data JsString Cart Pagination Catalog Query App.

Import AppContext.

(** ** The product grid *)

Module ProductGrid.

(** [usePagination(products || [], 100)] *)
Definition itemsPerPage : Z := 100.

(** The props the grid keeps and the hook's [currentPage]. *)
Record grid := mkGrid {
  grid_data : list Product;
  grid_page : Z
}.

(** The first render: the hook's [useState(1)]. *)
Definition init (ps : list Product) : grid := mkGrid ps 1.

(** A render with a new [products] array, then the effect
    [useEffect(() => resetPage(), [products, resetPage])].  [HomePage]
    passes the result of a [slice], a fresh array at each of its renders,
    so the dependency changes at every one. *)
Definition receive (ps : list Product) (g : grid) : grid := mkGrid ps UsePagination.resetPage.

(** The hook's [goToPage], which the grid's own [Pagination] calls. *)
Definition goToPage (page : Z) (g : grid) : grid :=
  mkGrid (grid_data g)
         (UsePagination.goToPage (UsePagination.totalPages (grid_data g) itemsPerPage) page).

Inductive view :=
| GridLoading
| GridEmpty (message : string)
| GridListing (title : option string) (totalItems : Z) (range_label : option (Z * Z * Z))
              (cards : list Product) (pager : bool).

Definition default_empty : string := "لا توجد منتجات".

(** The component's body: [if (loading)], [if (!products ||
    products.length === 0)], then the title (when truthy), the count,
    [totalPages > 1 && <range label/>], [currentData.map(...)] and the
    [Pagination], which renders nothing unless [totalPages > 1]. *)
Definition render (loading : bool) (title emptyMessage : string) (g : grid) : view :=
  if loading then GridLoading
  else
    match grid_data g with
    | [] => GridEmpty (if js_truthy emptyMessage then emptyMessage else default_empty)
    | data =>
        let n := Z.of_nat (length data) in
        let tp := UsePagination.totalPages data itemsPerPage in
        let cp := grid_page g in
        GridListing (if js_truthy title then Some title else None) n
          (if 1 <? tp
           then Some (UsePagination.startIndex cp itemsPerPage,
                      UsePagination.endIndex cp itemsPerPage n, n)
           else None)
          (UsePagination.currentData data itemsPerPage cp)
          (PaginationControls.rendered tp)
    end.

End ProductGrid.

(** ** What the home page renders *)

Module HomePageView.

Import HomePage.

(** [getPageTitle()] *)
Definition getPageTitle (s : state) : string :=
  if js_truthy (searchQuery s)
  then "نتائج البحث عن: " ++ String dquote (searchQuery s ++ String dquote EmptyString)
  else match currentCategory s with
       | Some c => if js_truthy c then c else "جميع المنتجات"
       | None => "جميع المنتجات"
       end.

(** The [emptyMessage] prop of the grid. *)
Definition emptyMessage (s : state) : string :=
  if js_truthy (searchQuery s)
  then "لم يتم العثور على نتائج للبحث " ++ String dquote (searchQuery s ++ String dquote EmptyString)
  else match currentCategory s with
       | Some c => if js_truthy c then "لا توجد منتجات في قسم " ++ c else "لا توجد منتجات حالياً"
       | None => "لا توجد منتجات حالياً"
       end.

(** The grid as the home page drives it: [products={productsToShow}],
    after any earlier state [g] of the grid. *)
Definition grid_view (lc : string -> string -> Z) (s : state) (g : ProductGrid.grid)
    : ProductGrid.view :=
  ProductGrid.render (loading s) (getPageTitle s) (emptyMessage s)
                     (ProductGrid.receive (productsToShow lc s) g).

(** The props of the home page's [Pagination]. *)
Definition hasNextPage lc s : bool := currentPage s <? totalPages lc s.
Definition hasPrevPage (s : state) : bool := 1 <? currentPage s.
Definition totalItems lc s : Z := Z.of_nat (length (productsAfterFilter lc s)).
Definition startIndex (s : state) : Z := (currentPage s - 1) * productsPerPage s + 1.
Definition endIndex lc s : Z := Z.min (currentPage s * productsPerPage s) (totalItems lc s).

(** [!currentCategory && !searchQuery]: the banner, the categories, the
    featured slider and the information section. *)
Definition showLanding (s : state) : bool := negb (filtering s).

(** [useProductFilter(allProducts)] with [allProducts] computed as
    [productsAfterFilter]; the page never calls the hook's handlers, so
    its state stays the initial one. *)
Definition totalResults lc s : Z :=
  Z.of_nat (length (ProductFilter.filteredAndSortedProducts lc ProductFilter.init
                      (productsAfterFilter lc s))).

(** [(currentCategory || searchQuery || totalResults > 0) && <FilterSort/>] *)
Definition showFilterSort lc s : bool := filtering s || (0 <? totalResults lc s).

(** The mount effect's condition [!loading && products.length === 0 && !error]. *)
Definition needs_refresh (s : state) : bool :=
  negb (loading s) && Nat.eqb (length (products s)) 0 && negb (js_truthy (error s)).

End HomePageView.

(** ** Start-up on the route [/] *)

Module Startup.

(** [refreshData()] up to its first [await]: [clearCache()], then
    [loadInitialData()] up to its [await], [SET_LOADING]. *)
Definition refreshData_start (w : world) : world :=
  let '(st', ls') := SheetsService.clearCache (sheets w) (CartService.storage (svc w)) in
  dispatch (SET_LOADING true)
           (mkWorld (app w) (CartService.mkService (CartService.cart (svc w)) ls') st').

(** The first commit on [/]: [HomePage]'s effect, then [AppProvider]'s
    ([loadInitialData()] to its [await], then [loadCart()]). *)
Definition first_commit_home (ls : LocalStorage) : world :=
  let w0 := mkWorld initialState (CartService.init ls) SheetsService.init in
  let w1 := if HomePageView.needs_refresh (app w0) then refreshData_start w0 else w0 in
  loadCart (dispatch (SET_LOADING true) w1).

(** Both loads then settle, the refresh's (calls in [e1], [e2]) and the
    provider's (calls in [e3], [e4]), in the order [refresh_first] says. *)
Definition open_home (refresh_first : bool) (e1 e2 e3 e4 : SheetsService.env)
    (ls : LocalStorage) : world :=
  let w := first_commit_home ls in
  if refresh_first then loadInitialData_settle e3 e4 (loadInitialData_settle e1 e2 w)
  else loadInitialData_settle e1 e2 (loadInitialData_settle e3 e4 w).

End Startup.

(** ** The detail page's quantity *)

Module ProductDetailPage.

(** The product whose page is rendered: [if (loading)] shows the
    skeleton, [if (!product)] the not-found page. *)
Definition shown_product (idstr : string) (s : state) : option Product :=
  if loading s then None else getProductById idstr s.

(** [product.stock > 0 && <quantity controls and add button/>] *)
Definition controls_shown (p : Product) : bool := 0 <? stock p.

(** [disabled={quantity <= 1}] and [disabled={quantity >= product.stock}] *)
Definition minus_disabled (quantity : Z) : bool := quantity <=? 1.
Definition plus_disabled (p : Product) (quantity : Z) : bool := stock p <=? quantity.

(** [product.stock <= 5 && product.stock > 0 && <Badge/>] *)
Definition limited_stock_badge (p : Product) : bool := (stock p <=? 5) && (0 <? stock p).

(** [product.stock === 0 && <notice/>] *)
Definition out_of_stock_notice (p : Product) : bool := stock p =? 0.

(** [formatPrice(product.price * quantity)] on the add button. *)
Definition add_button_amount (p : Product) (quantity : Z) : Z := price p * quantity.

(** A click on the minus button, [handleQuantityChange(quantity - 1)],
    when the button is rendered and enabled. *)
Definition click_minus (idstr : string) (quantity : Z) (s : state) : Z :=
  match shown_product idstr s with
  | Some p =>
      if controls_shown p && negb (minus_disabled quantity)
      then ProductDetail.handleQuantityChange p (quantity - 1) quantity else quantity
  | None => quantity
  end.

(** A click on the plus button, [handleQuantityChange(quantity + 1)]. *)
Definition click_plus (idstr : string) (quantity : Z) (s : state) : Z :=
  match shown_product idstr s with
  | Some p =>
      if controls_shown p && negb (plus_disabled p quantity)
      then ProductDetail.handleQuantityChange p (quantity + 1) quantity else quantity
  | None => quantity
  end.

(** A click on the add button, [handleAddToCart()]. *)
Definition click_add (idstr : string) (quantity : Z) (w : world) : world :=
  match shown_product idstr (app w) with
  | Some p => if controls_shown p then ProductDetail.handleAddToCart idstr quantity w else w
  | None => w
  end.

End ProductDetailPage.

(** ** The cart page and the header's badge *)

Module CartPageView.

(** [formatPrice(item.price * item.quantity)] under each line. *)
Definition line_subtotal (it : CartItem) : Z := ci_price it * quantity it.

Inductive view :=
| CartEmpty
| CartListing (lines : list (CartItem * Z)) (count total : Z).

(** [if (cart.length === 0)] the empty page; otherwise [cart.map(...)]
    with each line's subtotal, and the summary's [getCartItemsCount()]
    and [getCartTotal()]. *)
Definition render (w : world) : view :=
  match AppContext.cart (app w) with
  | [] => CartEmpty
  | c => CartListing (map (fun it => (it, line_subtotal it)) c) (getCartItemsCount w) (getCartTotal w)
  end.

End CartPageView.

Module HeaderView.

(** The header's two state variables. *)
Record header := mkHeader {
  isMenuOpen : bool;
  searchInput : string
}.

Definition init : header := mkHeader false "".

(** [onChange={(e) => setSearchInput(e.target.value)}] *)
Definition onSearchInput (v : string) (h : header) : header := mkHeader (isMenuOpen h) v.

(** The three handlers with their writes to the header's state. *)
Definition submitSearch (h : header) (w : world) : header * world :=
  (mkHeader false (searchInput h), Header.handleSearch (searchInput h) w).
Definition clickCategory (c : string) (h : header) (w : world) : header * world :=
  (mkHeader false "", Header.handleCategoryClick c w).
Definition clickLogo (h : header) (w : world) : header * world :=
  (mkHeader false "", Header.handleLogoClick w).

(** [getCartItemsCount() > 0 && <span>{getCartItemsCount()}</span>] *)
Definition cart_badge (w : world) : option Z :=
  let n := getCartItemsCount w in if 0 <? n then Some n else None.

End HeaderView.

(** ** The page session *)

Module Session.

(** The world and the [quantity] state of the mounted detail page. *)
Record ui := mkUi {
  world_of : world;
  detail_quantity : Z
}.

Inductive event :=
| CardAdd (p : Product)                   (** [ProductCard]'s add button *)
| DetailOpen                              (** [ProductDetail] mounts: [useState(1)] *)
| DetailMinus (idstr : string)
| DetailPlus (idstr : string)
| DetailAdd (idstr : string)
| CartMinus (it : CartItem)               (** [CartPage]'s buttons on a line *)
| CartPlus (it : CartItem)
| CartRemove (pid : Z)
| CartClear
| Context (o : provider_op).              (** any other call of the context *)

Definition run_event (ev : event) (u : ui) : ui :=
  let w := world_of u in
  let q := detail_quantity u in
  match ev with
  | CardAdd p => mkUi (ProductCard.handleAddToCart p w) q
  | DetailOpen => mkUi w 1
  | DetailMinus idstr => mkUi w (ProductDetailPage.click_minus idstr q (app w))
  | DetailPlus idstr => mkUi w (ProductDetailPage.click_plus idstr q (app w))
  | DetailAdd idstr => mkUi (ProductDetailPage.click_add idstr q w) q
  | CartMinus it => mkUi (CartPage.decrement it w) q
  | CartPlus it => mkUi (CartPage.increment it w) q
  | CartRemove pid => mkUi (run_op (OpRemoveFromCart pid) w) q
  | CartClear => mkUi (run_op OpClearCart w) q
  | Context o => mkUi (run_op o w) q
  end.

(** The cart calls of [run_op]; the other calls of the context do not
    touch the cart. *)
Definition call_of (o : provider_op) : option CartService.cart_call :=
  match o with
  | OpAddToCart p q => Some (CartService.CallAdd p q)
  | OpRemoveFromCart pid => Some (CartService.CallRemove pid)
  | OpUpdateCartQuantity pid q => Some (CartService.CallUpdate pid q)
  | OpClearCart => Some CartService.CallClear
  | _ => None
  end.

(** When an event can happen: the cart page's buttons are on the lines of
    the cart it renders, and the other components call the context only
    through the non-cart functions of the context value. *)
Definition enabled (ev : event) (u : ui) : Prop :=
  match ev with
  | CartMinus it | CartPlus it => In it (AppContext.cart (app (world_of u)))
  | CartRemove pid => In pid (map ci_id (AppContext.cart (app (world_of u))))
  | Context o => call_of o = None /\ exported o = true
  | _ => True
  end.

(** The sessions: the app opened on any route but [/] (the provider's
    mount alone) or on [/] (with [HomePage]'s refresh), from a storage
    whose cart is well formed, then any enabled events. *)
Inductive session : ui -> Prop :=
| session_mount e1 e2 ls :
    CartService.cart_wf (CartService.loadCart ls) -> session (mkUi (mount e1 e2 ls) 1)
| session_open_home b e1 e2 e3 e4 ls :
    CartService.cart_wf (CartService.loadCart ls) ->
    session (mkUi (Startup.open_home b e1 e2 e3 e4 ls) 1)
| session_step u ev : session u -> enabled ev u -> session (run_event ev u).

(** What the session keeps: the context mirrors the cart service, the
    cart is well formed, and the detail page's quantity is at least 1. *)
Definition session_inv (u : ui) : Prop :=
  Properties.mirror (world_of u) /\
  CartService.cart_wf (CartService.cart (svc (world_of u))) /\
  1 <= detail_quantity u.

End Session.

(** ** Properties *)

Module PageProperties.

Import HomePage HomePageView Session Properties.

(** The cart actions of the reducer, the only ones that call the service. *)
Definition touches_cart (a : action) : bool :=
  match a with
  | ADD_TO_CART _ _ | REMOVE_FROM_CART _ | UPDATE_CART_QUANTITY _ _ | CLEAR_CART => true
  | _ => false
  end.

(** A context call respects what the pages promise the cart service. *)
Definition op_ok (o : provider_op) : Prop :=
  match call_of o with Some c => CartService.page_call c | None => True end.

(** ** Frame lemmas *)

Lemma dispatch_perPage a w : productsPerPage (app (dispatch a w)) = productsPerPage (app w).
Proof. destruct a; reflexivity. Qed.

Lemma dispatch_svc a w : touches_cart a = false -> svc (dispatch a w) = svc w.
Proof. destruct a; try discriminate; reflexivity. Qed.

Lemma dispatch_all_frame acts w :
  forallb (fun a => negb (touches_cart a)) acts = true ->
  svc (dispatch_all acts w) = svc w /\
  productsPerPage (app (dispatch_all acts w)) = productsPerPage (app w).
Proof.
  revert w. induction acts as [|a acts IH]; intros w H; simpl; [auto|].
  apply andb_true_iff in H as [Ha H]. apply negb_true_iff in Ha.
  destruct (IH (dispatch a w) H) as [-> ->]. split; [apply dispatch_svc | apply dispatch_perPage]; auto.
Qed.

(** The rest of a load is a sequence of data actions on the world with
    the sheets service's answers written to the storage. *)
Lemma settle_frame e1 e2 w : exists acts ls' st',
  forallb (fun a => negb (touches_cart a)) acts = true /\
  loadInitialData_settle e1 e2 w =
    dispatch_all acts (mkWorld (app w) (CartService.mkService (CartService.cart (svc w)) ls') st').
Proof.
  unfold loadInitialData_settle, with_service.
  destruct (SheetsService.fetchProducts e1 (sheets w) (CartService.storage (svc w)))
    as [[[ps|] st1] ls1]; simpl; [|now exists [SET_ERROR load_error], ls1, st1].
  destruct (service_getCategories e2 st1 ls1) as [[[cs|] st2] ls2]; simpl.
  - now exists [SET_PRODUCTS ps; SET_CATEGORIES cs], ls2, st2.
  - now exists [SET_ERROR load_error], ls2, st2.
Qed.

Lemma settle_keeps e1 e2 w :
  CartService.cart (svc (loadInitialData_settle e1 e2 w)) = CartService.cart (svc w) /\
  productsPerPage (app (loadInitialData_settle e1 e2 w)) = productsPerPage (app w).
Proof.
  destruct (settle_frame e1 e2 w) as (acts & ls' & st' & Hacts & ->).
  edestruct (dispatch_all_frame acts) as [-> ->]; [exact Hacts|]. auto.
Qed.

(** [refreshData] is its start, then the rest of a load. *)
Lemma refreshData_split e1 e2 w :
  refreshData e1 e2 w = loadInitialData_settle e1 e2 (Startup.refreshData_start w).
Proof. unfold refreshData, Startup.refreshData_start. now destruct (SheetsService.clearCache _ _). Qed.

Lemma refreshData_start_keeps w :
  CartService.cart (svc (Startup.refreshData_start w)) = CartService.cart (svc w) /\
  productsPerPage (app (Startup.refreshData_start w)) = productsPerPage (app w) /\
  (mirror w -> mirror (Startup.refreshData_start w)).
Proof.
  unfold Startup.refreshData_start, mirror. destruct (SheetsService.clearCache _ _). auto.
Qed.

Lemma run_op_perPage o w : productsPerPage (app (run_op o w)) = productsPerPage (app w).
Proof.
  destruct o; cbn [run_op]; try apply dispatch_perPage.
  - unfold loadInitialData. now rewrite (proj2 (settle_keeps _ _ _)), dispatch_perPage.
  - rewrite refreshData_split, (proj2 (settle_keeps _ _ _)). apply refreshData_start_keeps.
Qed.

Lemma run_op_call o c w : call_of o = Some c -> svc (run_op o w) = CartService.run_call c (svc w).
Proof. destruct o; simpl; intros H; inversion H; reflexivity. Qed.

Lemma run_op_no_call o w :
  call_of o = None -> CartService.cart (svc (run_op o w)) = CartService.cart (svc w).
Proof.
  destruct o; cbn [run_op call_of]; intros H; try discriminate; try reflexivity.
  - unfold loadInitialData. now rewrite (proj1 (settle_keeps _ _ _)).
  - rewrite refreshData_split, (proj1 (settle_keeps _ _ _)). apply refreshData_start_keeps.
Qed.

Lemma run_op_keeps o w :
  op_ok o -> mirror w -> CartService.cart_wf (CartService.cart (svc w)) ->
  mirror (run_op o w) /\ CartService.cart_wf (CartService.cart (svc (run_op o w))).
Proof.
  unfold op_ok. intros Ho Hm Hwf. split; [now apply run_op_mirror|].
  destruct (call_of o) as [c|] eqn:E.
  - rewrite (run_op_call o c w E). now apply CartService.run_call_cart_wf.
  - now rewrite run_op_no_call.
Qed.

(** ** The session's events *)

Lemma handleQuantityChange_pos p n q : 1 <= q -> 1 <= ProductDetail.handleQuantityChange p n q.
Proof. intros Hq. unfold ProductDetail.handleQuantityChange. case_if; lia. Qed.

Lemma run_event_quantity ev u : 1 <= detail_quantity u -> 1 <= detail_quantity (run_event ev u).
Proof.
  intros Hq. destruct ev; cbn [run_event detail_quantity]; try lia;
    unfold ProductDetailPage.click_minus, ProductDetailPage.click_plus;
    destruct (ProductDetailPage.shown_product _ _); try case_if; auto using handleQuantityChange_pos.
Qed.

(** Every event is at most one call of the context; an add carries the
    detail page's quantity or 1. *)
Lemma event_op ev u :
  enabled ev u ->
  world_of (run_event ev u) = world_of u \/
  exists o, (1 <= detail_quantity u -> op_ok o) /\ world_of (run_event ev u) = run_op o (world_of u).
Proof.
  intros Hen. destruct ev as [p| |idstr|idstr|idstr|it|it|pid| |o];
    cbn [run_event world_of enabled] in *; try (left; reflexivity).
  - unfold ProductCard.handleAddToCart. case_if; [|left; reflexivity].
    right. exists (OpAddToCart p 1). split; [intros _; cbn; lia | reflexivity].
  - unfold ProductDetailPage.click_add, ProductDetail.handleAddToCart.
    destruct (ProductDetailPage.shown_product _ _); [|left; reflexivity].
    destruct (ProductDetailPage.controls_shown p); [|left; reflexivity].
    destruct (getProductById _ _) as [p'|]; [|left; reflexivity].
    case_if; [|left; reflexivity].
    right. exists (OpAddToCart p' (detail_quantity u)). split; [intros Hq; cbn; lia | reflexivity].
  - unfold CartPage.decrement, CartPage.handleQuantityChange.
    right. case_if; eexists; (split; [|reflexivity]); intros _; exact I.
  - unfold CartPage.increment, CartPage.handleQuantityChange.
    right. case_if; eexists; (split; [|reflexivity]); intros _; exact I.
  - right. exists (OpRemoveFromCart pid). split; [intros _; exact I | reflexivity].
  - right. exists OpClearCart. split; [intros _; exact I | reflexivity].
  - right. exists o. split; [intros _; unfold op_ok; now rewrite (proj1 Hen) | reflexivity].
Qed.

Lemma first_commit_home_cart ls :
  CartService.cart (svc (Startup.first_commit_home ls)) = CartService.loadCart ls.
Proof. reflexivity. Qed.

Lemma session_perPage u : session u -> productsPerPage (app (world_of u)) = 60.
Proof.
  induction 1 as [e1 e2 ls _|b e1 e2 e3 e4 ls _|u ev _ IH Hen]; cbn [world_of].
  - unfold mount. now rewrite (proj2 (settle_keeps _ _ _)).
  - unfold Startup.open_home. destruct b; now rewrite !(proj2 (settle_keeps _ _ _)).
  - destruct (event_op ev u Hen) as [-> | (o & _ & ->)]; [exact IH|].
    now rewrite run_op_perPage.
Qed.

(** ** Lemmas on the grid and the start-up *)

(** What the grid shows on the home page. *)
Definition home_grid_expected (lc : string -> string -> Z) (s : state) : ProductGrid.view :=
  if loading s then ProductGrid.GridLoading
  else match productsToShow lc s with
       | [] => ProductGrid.GridEmpty (emptyMessage s)
       | ps => ProductGrid.GridListing (Some (getPageTitle s)) (Z.of_nat (length ps)) None ps false
       end.

Lemma getPageTitle_truthy s : js_truthy (getPageTitle s) = true.
Proof.
  unfold getPageTitle. destruct (js_truthy (searchQuery s)); [reflexivity|].
  destruct (currentCategory s) as [c|]; [|reflexivity].
  destruct (js_truthy c) eqn:E; [exact E | reflexivity].
Qed.

Lemma emptyMessage_truthy s : js_truthy (emptyMessage s) = true.
Proof.
  unfold emptyMessage. destruct (js_truthy (searchQuery s)); [reflexivity|].
  destruct (currentCategory s) as [c|]; [|reflexivity].
  destruct (js_truthy c); reflexivity.
Qed.

Lemma productsToShow_length lc s :
  productsPerPage s = 60 -> (length (productsToShow lc s) <= 60)%nat.
Proof.
  intros Hp. unfold productsToShow, getProductsForCurrentPage. rewrite Hp. cbv zeta.
  pose proof (js_slice_length_le (productsAfterFilter lc s) (currentPage s * 60 - 60) 60
                ltac:(lia)) as H.
  replace (currentPage s * 60 - 60 + 60) with (currentPage s * 60) in H by lia. lia.
Qed.

(** A grid on page 1 of at most 100 products shows them all, with no
    range label and no pager. *)
Lemma render_one_page title msg ps :
  ps <> [] -> (length ps <= 100)%nat ->
  ProductGrid.render false title msg (ProductGrid.mkGrid ps 1) =
  ProductGrid.GridListing (if js_truthy title then Some title else None)
                          (Z.of_nat (length ps)) None ps false.
Proof.
  intros Hne Hlen. unfold ProductGrid.render. cbn [ProductGrid.grid_data ProductGrid.grid_page].
  destruct ps as [|p ps']; [congruence|].
  assert (Ht : UsePagination.totalPages (p :: ps') ProductGrid.itemsPerPage = 1).
  { unfold ProductGrid.itemsPerPage.
    pose proof (totalPages_spec (p :: ps') 100 ltac:(lia)). simpl length in *. lia. }
  rewrite Ht. unfold ProductGrid.itemsPerPage.
  rewrite currentData_window by lia. rewrite firstn_all2 by (simpl in *; lia). reflexivity.
Qed.

Lemma settle_offline e1 e2 w :
  SheetsService.response e1 = SheetsService.NetFail ->
  SheetsService.response e2 = SheetsService.NetFail ->
  SheetsService.cache_products (sheets w) = None ->
  CartService.storage (svc (loadInitialData_settle e1 e2 w)) = CartService.storage (svc w) /\
  SheetsService.cache_products (sheets (loadInitialData_settle e1 e2 w)) = None /\
  products (app (loadInitialData_settle e1 e2 w)) =
    match ls_products (CartService.storage (svc w)) with
    | SlotStored pc => pc_products pc
    | SlotEmpty => SheetsService.getFallbackData (SheetsService.rnd e1)
    | SlotCorrupt => products (app w)
    end.
Proof.
  intros H1 H2 Hc. destruct w as [s [c ls] [sid url cp lf]]. cbn in Hc. subst cp.
  destruct e1 as [t1 u1 r1 rnd1], e2 as [t2 u2 r2 rnd2]. cbn in H1, H2. subst r1 r2.
  unfold loadInitialData_settle, with_service, service_getCategories,
    SheetsService.fetchProducts, SheetsService.fetch_catch.
  cbn -[SheetsService.getFallbackData SheetsService.getCategories].
  destruct (ls_products ls) eqn:E;
    cbn -[SheetsService.getFallbackData SheetsService.getCategories]; rewrite ?E;
    cbn -[SheetsService.getFallbackData SheetsService.getCategories]; repeat split; reflexivity.
Qed.



(** ** Theorems *)

(** The invariant of the sessions, by induction on the session. *)
Lemma session_inv_holds u : session u -> session_inv u.
Proof.
  unfold session_inv.
  induction 1 as [e1 e2 ls Hls|b e1 e2 e3 e4 ls Hls|u ev _ (Hm & Hwf & Hq) Hen];
    cbn [world_of detail_quantity].
  - unfold mount. split; [apply settle_mirror, loadCart_mirror|].
    rewrite (proj1 (settle_keeps _ _ _)). split; [exact Hls | lia].
  - unfold Startup.open_home.
    split; [destruct b; apply settle_mirror, settle_mirror, loadCart_mirror|].
    split; [|lia]. destruct b; rewrite !(proj1 (settle_keeps _ _ _)), first_commit_home_cart; exact Hls.
  - split; [|split]; [| |now apply run_event_quantity].
    all: destruct (event_op ev u Hen) as [-> | (o & Ho & ->)];
      [auto | pose proof (run_op_keeps o _ (Ho Hq) Hm Hwf); tauto].
Qed.

(** C9: in every page session, from a stored cart that is well formed,
    whatever the order of the events of the product card, the detail
    page, the cart page and the other components, the cart the context
    holds keeps one line per product id with a positive quantity, and
    the detail page's selected quantity stays at least 1; so the pages
    only make the cart calls the cart service's invariant assumes. *)
Theorem session_keeps_cart_wf u :
  session u -> CartService.cart_wf (AppContext.cart (app (world_of u))) /\ 1 <= detail_quantity u.
Proof.
  intros Hs. destruct (session_inv_holds u Hs) as (Hm & Hwf & Hq).
  unfold mirror in Hm. rewrite Hm. auto.
Qed.

(** C26: the cart page and the header agree with the lines the cart page
    lists, in every session: the page is empty exactly when the header
    shows no badge; otherwise the badge and the summary's count are the
    sum of the listed quantities and the summary's total the sum of the
    listed subtotals, although the lines come from the context's state
    and the count and total from the cart service. *)
Theorem cart_views_agree u :
  session u ->
  match CartPageView.render (world_of u) with
  | CartPageView.CartEmpty => HeaderView.cart_badge (world_of u) = None
  | CartPageView.CartListing lines count total =>
      HeaderView.cart_badge (world_of u) = Some count /\
      count = reduce_sum (fun l => quantity (fst l)) lines /\
      total = reduce_sum snd lines
  end.
Proof.
  intros Hs. destruct (session_inv_holds u Hs) as (Hm & [_ Hpos] & _).
  unfold CartPageView.render, HeaderView.cart_badge, getCartItemsCount, getCartTotal,
    CartService.getCartItemsCount, CartService.getCartTotal.
  unfold mirror in Hm. rewrite Hm.
  destruct (CartService.cart (svc (world_of u))) as [|it c] eqn:E; [reflexivity|].
  rewrite !reduce_sum_map. cbn [fst snd].
  assert (H : 0 < reduce_sum quantity (it :: c)) by (apply reduce_sum_pos; [exact Hpos | discriminate]).
  apply Z.ltb_lt in H. cbv zeta. rewrite H. repeat split.
Qed.

(** C29: on the home page the product grid shows exactly the page the
    home page cut ([productsToShow]), under the home page's title, with
    no range label and no pager of its own: the page holds at most 60
    products, below the grid's 100 per page, and the grid is back on its
    page 1 after every render; when the page is empty the grid shows the
    home page's message. *)
Theorem home_grid_single_page lc u g :
  session u -> grid_view lc (app (world_of u)) g = home_grid_expected lc (app (world_of u)).
Proof.
  intros Hs. pose proof (productsToShow_length lc _ (session_perPage u Hs)) as Hlen.
  unfold grid_view, home_grid_expected, ProductGrid.receive, UsePagination.resetPage.
  destruct (loading _); [reflexivity|].
  destruct (productsToShow lc _) as [|p ps] eqn:E.
  - unfold ProductGrid.render. cbn [ProductGrid.grid_data]. now rewrite emptyMessage_truthy.
  - rewrite render_one_page by (try discriminate; lia).
    now rewrite getPageTitle_truthy.
Qed.

(** C17: opening the app on [/] with the network down loses the durable
    copy of the catalogue: [HomePage]'s mount effect runs before
    [AppProvider]'s, finds no products and calls [refreshData()], whose
    [clearCache()] removes [products_cache] before any fetch; both loads
    then fall back to the sample data, whichever settles last.  The
    provider's mount alone (any other route) answers with the durable
    copy. *)
Theorem open_home_offline_drops_durable_copy b e1 e2 e3 e4 ls pc :
  ls_products ls = SlotStored pc ->
  SheetsService.response e1 = SheetsService.NetFail ->
  SheetsService.response e2 = SheetsService.NetFail ->
  SheetsService.response e3 = SheetsService.NetFail ->
  SheetsService.response e4 = SheetsService.NetFail ->
  ls_products (CartService.storage (svc (Startup.open_home b e1 e2 e3 e4 ls))) = SlotEmpty /\
  products (app (Startup.open_home b e1 e2 e3 e4 ls)) =
    SheetsService.getFallbackData (SheetsService.rnd (if b then e3 else e1)) /\
  products (app (mount e3 e4 ls)) = pc_products pc.
Proof.
  intros Hls H1 H2 H3 H4.
  assert (Hc : SheetsService.cache_products (sheets (Startup.first_commit_home ls)) = None)
    by reflexivity.
  assert (Hs : ls_products (CartService.storage (svc (Startup.first_commit_home ls))) = SlotEmpty)
    by reflexivity.
  split; [|split].
  1, 2: unfold Startup.open_home; destruct b;
    [ destruct (settle_offline e1 e2 _ H1 H2 Hc) as (Hs1 & Hc1 & _);
      destruct (settle_offline e3 e4 _ H3 H4 Hc1) as (Hs2 & _ & Hp2)
    | destruct (settle_offline e3 e4 _ H3 H4 Hc) as (Hs1 & Hc1 & _);
      destruct (settle_offline e1 e2 _ H1 H2 Hc1) as (Hs2 & _ & Hp2) ];
    rewrite ?Hs2, ?Hp2, Hs1, Hs; reflexivity.
  unfold mount. edestruct (settle_offline e3 e4) as (_ & _ & ->); [exact H3 | exact H4 | reflexivity |].
  cbn. now rewrite Hls.
Qed.

(** C38: the cart page's plus button has no stock bound: on a line of
    the cart (in any state of a session), it raises the product's
    quantity by one, even past the product's [stock], which the detail
    page's plus button never passes. *)
Theorem cart_plus_ignores_stock u it :
  session_inv u -> In it (AppContext.cart (app (world_of u))) ->
  CartService.getProductQuantity (ci_id it) (svc (world_of (run_event (CartPlus it) u))) =
    quantity it + 1.
Proof.
  intros (Hm & [Hnd Hpos] & _) Hin. unfold mirror in Hm. rewrite Hm in Hin.
  assert (Hq : 0 < quantity it) by (rewrite List.Forall_forall in Hpos; now apply Hpos).
  assert (Hf : List.find (CartService.same_id (ci_id it)) (CartService.cart (svc (world_of u))) = Some it)
    by (apply find_key_nodup; assumption).
  cbn [run_event world_of]. unfold CartPage.increment, CartPage.handleQuantityChange.
  case_if; [lia|].
  rewrite (run_op_call _ (CartService.CallUpdate (ci_id it) (quantity it + 1))) by reflexivity.
  cbn [CartService.run_call]. unfold CartService.updateQuantity. rewrite Hf. case_if; [lia|].
  unfold CartService.getProductQuantity. rewrite CartService.saveCart_cart. cbn.
  rewrite CartService.find_update_first by apply CartService.set_quantity_id.
  now rewrite Hf.
Qed.

(** C37: the range label the home page passes to [Pagination] counts
    the products it shows: on any page from 1 to [totalPages], the page
    shows [endIndex - startIndex + 1] products, and
    [1 <= startIndex <= endIndex <= totalItems]. *)
Theorem home_pager_labels lc s :
  0 < productsPerPage s -> 1 <= currentPage s <= HomePage.totalPages lc s ->
  Z.of_nat (length (productsToShow lc s)) = endIndex lc s - startIndex s + 1 /\
  1 <= startIndex s <= endIndex lc s /\ endIndex lc s <= totalItems lc s.
Proof.
  intros Hpp Hcp. unfold productsToShow, getProductsForCurrentPage, endIndex, startIndex, totalItems.
  unfold HomePage.totalPages in Hcp. cbv zeta.
  set (ps := productsAfterFilter lc s) in *. set (pp := productsPerPage s) in *.
  set (cp := currentPage s) in *.
  pose proof (ceil_div_spec (Z.of_nat (length ps)) pp Hpp).
  replace (cp * pp) with ((cp - 1) * pp + pp) by ring.
  replace ((cp - 1) * pp + pp - pp) with ((cp - 1) * pp) by ring.
  rewrite js_slice_window by nia. rewrite length_firstn, length_skipn. nia.
Qed.

(** ** Witnesses *)

Definition offline (t : Z) : SheetsService.env := env_at t SheetsService.NetFail SheetsService.zero_random.

(** A returning visitor whose storage keeps a catalogue copy. *)
Definition returning : LocalStorage :=
  mkLocalStorage SlotEmpty (SlotStored (mkProductsCache catalogue 1000)) true.

Lemma session_keeps_cart_wf_witness :
  let u := run_event (DetailAdd "3") (run_event (DetailPlus "3")
             (mkUi (mount (env_at 1000 (SheetsService.NetOk SheetsService.sample_body)
                           SheetsService.zero_random) (offline 2000) returning) 1)) in
  session u /\ CartService.cart_wf (AppContext.cart (app (world_of u))) /\ 1 <= detail_quantity u.
Proof.
  cbv zeta. match goal with |- session ?u /\ _ => assert (H : session u) end.
  { apply session_step; [apply session_step; [apply session_mount|]|]; cbn; auto.
    split; constructor. }
  split; [exact H | exact (session_keeps_cart_wf _ H)].
Defined.

Lemma cart_views_agree_witness :
  let u := run_event (CardAdd (mkProduct 1 "item" "cables" 1000 "d" "i.png" 1 false))
             (mkUi (mount (offline 1) (offline 2) returning) 1) in
  session u /\
  (CartPageView.render (world_of u) =
     CartPageView.CartListing
       [(CartService.item_of_product (mkProduct 1 "item" "cables" 1000 "d" "i.png" 1 false) 1, 1000)]
       1 1000) /\
  (HeaderView.cart_badge (world_of u) = Some 1).
Proof.
  cbv zeta. match goal with |- session ?u /\ _ => assert (H : session u) end.
  { apply session_step; [apply session_mount; split; constructor | exact I]. }
  pose proof (cart_views_agree _ H) as Hv.
  split; [exact H|]. split; [reflexivity|]. vm_compute in Hv. destruct Hv as [Hb _]. exact Hb.
Defined.

Lemma home_grid_single_page_witness :
  let u := mkUi (Startup.open_home true (offline 1) (offline 2) (offline 3) (offline 4)
                   returning) 1 in
  session u /\
  grid_view ProductFilter.codepoint_compare (app (world_of u)) (ProductGrid.init []) =
  home_grid_expected ProductFilter.codepoint_compare (app (world_of u)).
Proof.
  cbv zeta. match goal with |- session ?u /\ _ => assert (H : session u) end.
  { apply session_open_home. split; constructor. }
  split; [exact H | exact (home_grid_single_page _ _ _ H)].
Defined.

Lemma open_home_offline_drops_durable_copy_witness :
  ls_products returning = SlotStored (mkProductsCache catalogue 1000) /\
  products (app (Startup.open_home false (offline 1) (offline 2) (offline 3) (offline 4)
                   returning)) =
    SheetsService.getFallbackData SheetsService.zero_random /\
  products (app (mount (offline 3) (offline 4) returning)) = catalogue.
Proof.
  destruct (open_home_offline_drops_durable_copy false (offline 1) (offline 2) (offline 3)
              (offline 4) returning (mkProductsCache catalogue 1000))
    as (_ & H2 & H3); try reflexivity.
  split; [reflexivity | split; [exact H2 | exact H3]].
Defined.

Lemma cart_plus_ignores_stock_witness :
  let p := mkProduct 1 "item" "cables" 1000 "d" "i.png" 1 false in
  let u := run_event (CardAdd p) (mkUi fresh_world 1) in
  session_inv u /\ In (CartService.item_of_product p 1) (AppContext.cart (app (world_of u))) /\
  CartService.getProductQuantity 1 (svc (world_of (run_event (CartPlus (CartService.item_of_product p 1)) u)))
    = 2 /\ stock p = 1.
Proof.
  cbv zeta.
  assert (Hi : session_inv (run_event (CardAdd (mkProduct 1 "item" "cables" 1000 "d" "i.png" 1 false))
                              (mkUi fresh_world 1))).
  { split; [reflexivity|]. split; [split; repeat constructor; simpl; tauto | cbn; lia]. }
  assert (Hin : In (CartService.item_of_product (mkProduct 1 "item" "cables" 1000 "d" "i.png" 1 false) 1)
                   (AppContext.cart (app (world_of (run_event (CardAdd (mkProduct 1 "item" "cables" 1000 "d" "i.png" 1 false))
                              (mkUi fresh_world 1)))))) by (left; reflexivity).
  split; [exact Hi|]. split; [exact Hin|]. split; [|reflexivity].
  exact (cart_plus_ignores_stock _ _ Hi Hin).
Defined.

Lemma home_pager_labels_witness :
  let s := set_currentPage 1 (app Properties.browsing) in
  0 < productsPerPage s /\ 1 <= currentPage s <= HomePage.totalPages ProductFilter.codepoint_compare s /\
  Z.of_nat (length (productsToShow ProductFilter.codepoint_compare s)) =
    endIndex ProductFilter.codepoint_compare s - startIndex s + 1.
Proof.
  cbv zeta. assert (H1 : 0 < productsPerPage (set_currentPage 1 (app Properties.browsing)))
    by (vm_compute; reflexivity).
  assert (H2 : 1 <= currentPage (set_currentPage 1 (app Properties.browsing)) <=
               HomePage.totalPages ProductFilter.codepoint_compare (set_currentPage 1 (app Properties.browsing)))
    by (split; apply Z.leb_le; vm_compute; reflexivity).
  split; [exact H1|split; [exact H2|]]. apply (home_pager_labels _ _ H1 H2).
Defined.

End PageProperties.
