(* ===== verification/Routing.v ===== *)
(** * Routing: the application shell of [src/src/App.jsx], the product
    card, the WhatsApp button and the checkout

    [Module Routes] is the route table of [App.jsx] ([/], [/product/:id],
    [/cart], [/contact]) as a function from a path to the page [<main>]
    shows, and the link each product card points to.  React Router
    matches path segments; the model splits the path at its slashes and
    compares the segments (the catalogue's links have no trailing slash,
    upper case or percent escapes, so the router's normalisations of
    those are not modelled).

    [Module ProductCardView] is what [src/src/components/ProductCard.jsx]
    shows of a product: the link, the badges and the add button.

    The browser's [window.open] is the list of the URLs it opened
    ([OrderMessage.window_open]).  [Module WhatsAppButton] is the floating
    contact button of [src/src/components/WhatsAppButton.jsx]; [Module
    Checkout] is the context's [sendOrderToWhatsApp] and the cart page's
    [handleCheckout], which open the order link.

    The theorems: a card's link opens the detail page of that product
    (the id goes through [String] and back through [parseInt]); a
    checkout opens one link whose text, decoded as the receiver decodes
    it, is the order listing exactly the cart the page shows; a product
    with a negative stock, which the sheet can hold, can be neither
    bought nor shown as out of stock. *)

From S2P Require Import Spec2Rocq Data JsString Cart Catalog Csv App Order Pages.

#[local] Arguments String.append : simpl nomatch.

Import AppContext.

(** ** Routes *)

Module Routes.

Definition slash : ascii := ascii_of_nat 47.

(** The elements of [<Routes>]; [PageNone] is a path no route matches,
    for which [<main>] stays empty. *)
Inductive page :=
| PageHome
| PageProduct (id : string)
| PageCart
| PageContact
| PageNone.

(** The route of a path: ["/"], ["/cart"] and ["/contact"] are two
    segments, ["/product/:id"] three with a non-empty last one. *)
Definition route (path : string) : page :=
  match js_split slash path with
  | [a; b] =>
      if String.eqb a "" then
        if String.eqb b "" then PageHome
        else if String.eqb b "cart" then PageCart
        else if String.eqb b "contact" then PageContact
        else PageNone
      else PageNone
  | [a; b; c] =>
      if String.eqb a "" && String.eqb b "product" && js_truthy c then PageProduct c else PageNone
  | _ => PageNone
  end.

(** [`/product/${product.id}`] *)
Definition product_href (p : Product) : string := "/product/" ++ js_int_string (id p).

End Routes.

(** ** The product card *)

Module ProductCardView.

Record card := mkCard {
  card_href : string;
  featured_badge : bool;        (** [product.featured && <badge/>] *)
  out_of_stock_badge : bool;    (** [product.stock === 0 && <badge/>] *)
  add_button : bool;            (** [product.stock > 0 && <add button/>] *)
  limited_badge : bool;         (** [product.stock <= 5 && product.stock > 0] *)
  available_label : bool        (** [product.stock > 0 ? <button/> : <unavailable/>] *)
}.

Definition render (p : Product) : card :=
  mkCard (Routes.product_href p) (featured p) (stock p =? 0) (0 <? stock p)
         ((stock p <=? 5) && (0 <? stock p)) (0 <? stock p).

End ProductCardView.

(** ** The WhatsApp button and the checkout *)

Module WhatsAppButton.

(** [<WhatsAppButton phoneNumber="+9647707409507" />] in [App.jsx]. *)
Definition store_phone : string := "+9647707409507".

Definition greeting : string := "مرحباً، أود الاستفسار عن منتجاتكم.".

(** [handleClick()] *)
Definition handleClick (phoneNumber : string) (opened : list string) : list string :=
  OrderMessage.window_open
    ("https://wa.me/" ++ OrderMessage.replace_first plus_sign phoneNumber ++ "?text=" ++
     js_encodeURIComponent greeting) opened.

End WhatsAppButton.

Module Checkout.

Section Checkout.

Variable formatPrice : Z -> string.

(** The context's [sendOrderToWhatsApp()]: the service's, with its
    default number. *)
Definition sendOrderToWhatsApp (w : world) (opened : list string) : list string :=
  OrderMessage.sendOrderToWhatsApp formatPrice OrderMessage.default_phone (svc w) opened.

(** The cart page's [handleCheckout()]: [if (cart.length > 0)]. *)
Definition handleCheckout (w : world) (opened : list string) : list string :=
  if CartPage.handleCheckout w then sendOrderToWhatsApp w opened else opened.

End Checkout.

End Checkout.

(** ** Properties *)

Module RoutingProperties.

Import Session PageProperties.

Lemma split_int_string n : js_split Routes.slash (js_int_string n) = [js_int_string n].
Proof.
  apply js_split_lacks, lacks_int_string; change (code Routes.slash) with 47; lia.
Qed.

(** A card's link is the route of the product's detail page. *)
Lemma route_product_href p :
  Routes.route (Routes.product_href p) = Routes.PageProduct (js_int_string (id p)).
Proof.
  unfold Routes.route, Routes.product_href.
  change ("/product/" ++ js_int_string (id p))%string
    with (String Routes.slash ("product" ++ String Routes.slash (js_int_string (id p))))%string.
  rewrite js_split_sep, js_split_app by reflexivity. rewrite js_split_sep, split_int_string.
  destruct (int_string_head (id p)) as (c & r & -> & _). reflexivity.
Qed.

(** [getProductById(String(id))] finds the product with that id. *)
Lemma getProductById_unique s p :
  In p (products s) -> List.NoDup (map id (products s)) ->
  getProductById (js_int_string (id p)) s = Some p.
Proof.
  intros Hin Hnd. unfold getProductById.
  rewrite SheetsService.getProductById_int_string. now apply find_key_nodup.
Qed.

(** The order link of the default number. *)
Lemma store_link t :
  ("https://wa.me/" ++ OrderMessage.replace_first plus_sign OrderMessage.default_phone ++
   "?text=" ++ t = "https://wa.me/9647707409507?text=" ++ t)%string.
Proof. reflexivity. Qed.

Lemma ltb_neg z : z < 0 -> (0 <? z) = false.
Proof. intros. apply Z.ltb_ge. lia. Qed.

Lemma eqb_neg z : z < 0 -> (z =? 0) = false.
Proof. intros. apply Z.eqb_neq. lia. Qed.

(** ** Theorems *)

(** C11: the link of a product's card routes to the detail page with
    the product's id as its parameter, and the detail page, once the
    catalogue is loaded, shows that very product: [String(id)] read back
    by [parseInt] gives the id, and ids are unique in the catalogue. *)
Theorem card_link_opens_product s p :
  In p (products s) -> List.NoDup (map id (products s)) ->
  Routes.route (ProductCardView.card_href (ProductCardView.render p)) =
    Routes.PageProduct (js_int_string (id p)) /\
  ProductDetailPage.shown_product (js_int_string (id p)) s =
    if loading s then None else Some p.
Proof.
  intros Hin Hnd. split; [apply route_product_href|].
  unfold ProductDetailPage.shown_product. destruct (loading s); [reflexivity|].
  now apply getProductById_unique.
Qed.

(** C2: in every session the checkout button opens nothing when the
    cart is empty, and otherwise exactly one window: the [wa.me] link of
    the store's number whose text, decoded by the receiver, is the order
    message listing, in order, the lines the cart page shows, with the
    service's total and count. *)
Theorem checkout_sends_order formatPrice u opened :
  session u ->
  match AppContext.cart (app (world_of u)) with
  | [] => Checkout.handleCheckout formatPrice (world_of u) opened = opened
  | c => exists t,
      Checkout.handleCheckout formatPrice (world_of u) opened =
        opened ++ [("https://wa.me/9647707409507?text=" ++ t)%string] /\
      js_decodeURIComponent t =
        Some (OrderMessage.header ++ OrderMessage.item_blocks formatPrice 0 c ++
              OrderMessage.footer formatPrice (svc (world_of u)))%string
  end.
Proof.
  intros Hs. destruct (session_inv_holds u Hs) as (Hm & _ & _). unfold Properties.mirror in Hm.
  unfold Checkout.handleCheckout, CartPage.handleCheckout, Checkout.sendOrderToWhatsApp,
    OrderMessage.sendOrderToWhatsApp, OrderMessage.window_open, OrderMessage.generateWhatsAppLink,
    OrderMessage.generateWhatsAppMessage.
  rewrite <- Hm. destruct (AppContext.cart (app (world_of u))) as [|it c]; [reflexivity|].
  rewrite store_link. eexists. split; [reflexivity | apply decode_encode].
Qed.

(** C36: a product whose stock is negative (the sheet's [stock] column
    goes through [parseInt], which keeps a sign) has neither an add
    button nor an out-of-stock badge on its card, no quantity controls
    and no out-of-stock notice on its page, and the card's handler adds
    nothing. *)
Theorem negative_stock_unbuyable p w :
  stock p < 0 ->
  ProductCardView.add_button (ProductCardView.render p) = false /\
  ProductCardView.out_of_stock_badge (ProductCardView.render p) = false /\
  ProductDetailPage.controls_shown p = false /\
  ProductDetailPage.out_of_stock_notice p = false /\
  ProductCard.handleAddToCart p w = w.
Proof.
  intros H. unfold ProductCardView.render, ProductDetailPage.controls_shown,
    ProductDetailPage.out_of_stock_notice, ProductCard.handleAddToCart; cbn.
  rewrite ltb_neg, eqb_neg by exact H. auto.
Qed.

(** ** Witnesses *)

Lemma card_link_opens_product_witness :
  let s := app Properties.browsing in
  let p := mkProduct 3 "item" "audio" 3000 "d" "i.png" 3 false in
  In p (products s) /\ List.NoDup (map id (products s)) /\
  Routes.route (ProductCardView.card_href (ProductCardView.render p)) = Routes.PageProduct "3" /\
  ProductDetailPage.shown_product "3" s = Some p.
Proof.
  cbv zeta.
  assert (Hin : In (mkProduct 3 "item" "audio" 3000 "d" "i.png" 3 false) (products (app Properties.browsing)))
    by (simpl; tauto).
  assert (Hnd : List.NoDup (map id (products (app Properties.browsing))))
    by (vm_compute; repeat constructor; simpl; intuition discriminate).
  destruct (card_link_opens_product _ _ Hin Hnd) as [H1 H2].
  split; [exact Hin|split; [exact Hnd|split; [exact H1|exact H2]]].
Defined.

Lemma checkout_sends_order_witness :
  let p := mkProduct 1 "item" "cables" 1000 "d" "i.png" 1 false in
  let u := run_event (CardAdd p) (mkUi (mount (offline 1) (offline 2) returning) 1) in
  session u /\ AppContext.cart (app (world_of u)) = [CartService.item_of_product p 1] /\
  exists t, Checkout.handleCheckout js_int_string (world_of u) [] =
              [("https://wa.me/9647707409507?text=" ++ t)%string] /\
            js_decodeURIComponent t <> None.
Proof.
  cbv zeta. match goal with |- session ?u /\ _ => assert (H : session u) end.
  { apply session_step; [apply session_mount; split; constructor | exact I]. }
  match goal with |- _ /\ ?e = _ /\ _ =>
    assert (Hc : e = [CartService.item_of_product (mkProduct 1 "item" "cables" 1000 "d" "i.png" 1 false) 1])
      by (vm_compute; reflexivity) end.
  pose proof (checkout_sends_order js_int_string _ [] H) as Hk.
  rewrite Hc in Hk. cbv beta iota in Hk. destruct Hk as (t & Ht & Hd).
  split; [exact H|]. split; [exact Hc|].
  exists t. split; [exact Ht | rewrite Hd; discriminate].
Defined.

(** A sheet row with a negative stock. *)
Definition negative_sheet : string :=
  "id,name,stock" ++ String newline "9,cable,-3".

Lemma negative_stock_unbuyable_witness :
  let p := mkProduct 9 "cable" "" 0 "" "" (-3) false in
  SheetsService.parse_products negative_sheet = [p] /\ stock p < 0 /\
  ProductCardView.add_button (ProductCardView.render p) = false /\
  ProductCard.handleAddToCart p Properties.browsing = Properties.browsing.
Proof.
  cbv zeta. split; [vm_compute; reflexivity|]. split; [simpl; lia|].
  destruct (negative_stock_unbuyable (mkProduct 9 "cable" "" 0 "" "" (-3) false) Properties.browsing
              ltac:(simpl; lia)) as (H1 & _ & _ & _ & H5).
  split; [exact H1 | exact H5].
Defined.

End RoutingProperties.
