(* ===== verification/Widgets.v ===== *)
(** * Widgets: the filter panel, the featured slider and the header as
    they render

    [Module Icons] is the [categoryIcons] table that [HomePage.jsx] and
    [Header.jsx] both hold.

    [Module FilterSort] is [src/src/components/FilterSort.jsx]: its
    props, its three state variables ([isOpen], its copy of the filters,
    its copy of the sort order), its handlers and what it renders.  A
    callback prop is an optional function: the home page reads
    [setFilters] and [setSortBy] from [useApp()], and the context value
    does not hold them ([AppContext.member]), so the panel receives
    [undefined] and calling it throws a [TypeError]; the handler's own
    [setState] calls made before the throw are kept.

    [Module FeaturedSlider] is [src/src/components/FeaturedProductsSlider.jsx]:
    its effect and what it renders.

    [Module HeaderMenu] is the rest of [src/src/components/Header.jsx]:
    the logo, the two search forms, the cart link with its badge, and the
    entries of the mobile menu with their clicks.

    The theorems: every handler of the home page's filter panel throws
    and leaves the context as it was ([Clear all] even stops before
    resetting the sort order), and a category entry of the header's menu
    leads to the home page listing exactly that category, by name, while
    an empty category name, which the sheet can hold, leads back to the
    whole catalogue. *)

From S2P Require Import Spec2Rocq Data JsString Cart Catalog Query App Pages Routing.

Import AppContext StableSort.

(** ** The category icons *)

Module Icons.

(** The icons of [lucide-react] the components draw. *)
Inductive icon :=
| Smartphone
| Zap
| Cable
| Shield
| Headphones
| HomeIcon
| PhoneIcon.

(** [categoryIcons[category]]: [undefined] for any other name. *)
Definition categoryIcons (c : string) : option icon :=
  if String.eqb c "سماعات" then Some Headphones
  else if String.eqb c "شاحنات" then Some Zap
  else if String.eqb c "كيبلات" then Some Cable
  else if String.eqb c "لزكات شاشة" then Some Shield
  else if String.eqb c "اكسسوارات" then Some Smartphone
  else None.

(** [categoryIcons[category] || Smartphone] *)
Definition icon_of (c : string) : icon :=
  match categoryIcons c with Some i => i | None => Smartphone end.

End Icons.

Import Icons.

(** ** The filter panel *)

Module FilterSort.

Inductive filter_key :=
| KeyCategory (v : string)
| KeyMinPrice (v : string)
| KeyMaxPrice (v : string)
| KeyInStock (v : bool).

(** The props; a callback is [None] when the parent passes [undefined]. *)
Record props := mkProps {
  onFilterChange : option (filters -> world -> world);
  onSortChange : option (string -> world -> world);
  categories_p : list string;
  priceRange : Z * Z;
  currentFilters : option filters;
  currentSortBy : string
}.

(** The panel's state: [isOpen] and its copies of the filters and the
    sort order. *)
Record panel := mkPanel {
  isOpen : bool;
  pn_filters : filters;
  pn_sortBy : string
}.

(** [useState(false)], [useState(currentFilters || {...})],
    [useState(currentSortBy || "name")] *)
Definition init_panel (pr : props) : panel :=
  mkPanel false (match currentFilters pr with Some f => f | None => no_filters end)
          (if js_truthy (currentSortBy pr) then currentSortBy pr else "name").

(** [{ ...filters, [key]: value }] *)
Definition with_key (k : filter_key) (f : filters) : filters :=
  match k with
  | KeyCategory v => {| f with category_f := v |}
  | KeyMinPrice v => {| f with minPrice := v |}
  | KeyMaxPrice v => {| f with maxPrice := v |}
  | KeyInStock v => {| f with inStock := v |}
  end.

Definition type_error (name : string) : string := "TypeError: " ++ name ++ " is not a function".

(** A call of a callback prop: [undefined] is not a function, and the
    call throws before doing anything. *)
Definition call_prop {A} (name : string) (f : option (A -> world -> world)) (x : A) (w : world)
    : world * option string :=
  match f with
  | Some g => (g x w, None)
  | None => (w, Some (type_error name))
  end.

(** [handleFilterChange(key, value)]: [setFilters(newFilters)], then
    [onFilterChange(newFilters)]; the result is the panel, the world and
    what the handler threw. *)
Definition handleFilterChange (k : filter_key) (pr : props) (pn : panel) (w : world)
    : panel * world * option string :=
  let nf := with_key k (pn_filters pn) in
  let '(w', e) := call_prop "onFilterChange" (onFilterChange pr) nf w in
  ({| pn with pn_filters := nf |}, w', e).

(** [handleSortChange(value)] *)
Definition handleSortChange (v : string) (pr : props) (pn : panel) (w : world)
    : panel * world * option string :=
  let '(w', e) := call_prop "onSortChange" (onSortChange pr) v w in
  ({| pn with pn_sortBy := v |}, w', e).

(** [clearFilters()]: [setFilters(emptyFilters)],
    [onFilterChange(emptyFilters)], [setSortBy('name')],
    [onSortChange('name')]; a throw ends the handler where it happens. *)
Definition clearFilters (pr : props) (pn : panel) (w : world) : panel * world * option string :=
  let pn1 := {| pn with pn_filters := no_filters |} in
  match call_prop "onFilterChange" (onFilterChange pr) no_filters w with
  | (w1, Some e) => (pn1, w1, Some e)
  | (w1, None) =>
      let '(w2, e2) := call_prop "onSortChange" (onSortChange pr) "name" w1 in
      ({| pn1 with pn_sortBy := "name" |}, w2, e2)
  end.

(** [onClick={() => setIsOpen(!isOpen)}] *)
Definition toggle (pn : panel) : panel := {| pn with isOpen := negb (isOpen pn) |}.

Definition all_categories_label : string := "جميع الأقسام".

(** The options of the sort [<select>], value and label. *)
Definition sort_options : list (string * string) :=
  [("name", "الاسم (أ-ي)"); ("name-desc", "الاسم (ي-أ)");
   ("price-asc", "السعر (الأقل أولاً)"); ("price-desc", "السعر (الأعلى أولاً)");
   ("newest", "الأحدث"); ("popular", "الأكثر شعبية")].

(** What the panel renders: the toggle's label, whether the fields and
    the extra options show on small screens ([isOpen ? 'block' :
    'hidden md:...']), and the value, options or placeholder of each
    field. *)
Record view := mkView {
  toggle_label : string;
  fields_on_mobile : bool;
  category_value : string;
  category_options : list (string * string);
  minPrice_value : string;
  maxPrice_value : string;
  maxPrice_placeholder : string;
  sort_value : string;
  sort_choices : list (string * string);
  inStock_checked : bool;
  extras_on_mobile : bool
}.

(** [priceRange?.max || "1000000"] *)
Definition max_placeholder (pr : props) : string :=
  let m := snd (priceRange pr) in if js_truthy m then js_int_string m else "1000000".

Definition render (pr : props) (pn : panel) : view :=
  let f := pn_filters pn in
  mkView ((if isOpen pn then "إخفاء" else "إظهار") ++ " الخيارات") (isOpen pn)
         (category_f f) (("", all_categories_label) :: map (fun c => (c, c)) (categories_p pr))
         (minPrice f) (maxPrice f) (max_placeholder pr)
         (pn_sortBy pn) sort_options (inStock f) (isOpen pn).

(** The props [HomePage] passes: [setFilters] and [setSortBy] as read
    from [useApp()], the context's categories, the hook's [priceRange]
    of [allProducts], and the context's [filters] and [sortBy]. *)
Definition home_props (lc : string -> string -> Z) (s : state) : props :=
  mkProps (member "setFilters" OpSetFilters) (member "setSortBy" OpSetSortBy)
          (categories s) (ProductFilter.priceRange (HomePage.productsAfterFilter lc s))
          (Some (filters_s s)) (sortBy s).

End FilterSort.

(** ** The featured products slider *)

Module FeaturedSlider.

(** The effect [if (!loading && !error) setFeaturedProducts(getFeaturedProducts())]. *)
Definition refresh (s : state) (shown : list Product) : list Product :=
  if negb (loading s) && negb (js_truthy (error s)) then getFeaturedProducts s else shown.

Inductive view :=
| SliderLoading
| SliderError (message : string)
| SliderHidden
| SliderSlides (cards : list ProductCardView.card).

Definition error_prefix : string := "خطأ في تحميل المنتجات المميزة: ".

(** [if (loading)], [if (error)], [if (featuredProducts.length === 0)
    return null], then one [<ProductCard/>] per product. *)
Definition render (s : state) (featuredProducts : list Product) : view :=
  if loading s then SliderLoading
  else match error s with
       | Some e => if js_truthy e then SliderError (error_prefix ++ e)
                   else match featuredProducts with
                        | [] => SliderHidden
                        | _ => SliderSlides (map ProductCardView.render featuredProducts)
                        end
       | None => match featuredProducts with
                 | [] => SliderHidden
                 | _ => SliderSlides (map ProductCardView.render featuredProducts)
                 end
       end.

(** The slider after a commit of the provider: its effect has run on the
    list it showed. *)
Definition after_effect (s : state) (shown : list Product) : view := render s (refresh s shown).

End FeaturedSlider.

(** ** The header *)

Module HeaderMenu.

Import HeaderView.

(** What a link of the menu does on a click besides navigating. *)
Inductive entry_click :=
| ClickHome                 (** [onClick={handleLogoClick}] *)
| ClickCategory (c : string) (** [onClick={() => handleCategoryClick(category)}] *)
| ClickContact.             (** [onClick={() => setIsMenuOpen(false)}] *)

Record entry := mkEntry {
  entry_to : string;
  entry_icon : icon;
  entry_label : string;
  entry_action : entry_click
}.

Definition home_label : string := "الرئيسية".
Definition contact_label : string := "اتصل بنا".

(** The links of the mobile menu: home, one per category of the context
    with its icon, and the contact page. *)
Definition menu_entries (s : state) : list entry :=
  mkEntry "/" HomeIcon home_label ClickHome ::
  map (fun c => mkEntry "/" (icon_of c) c (ClickCategory c)) (categories s) ++
  [mkEntry "/contact" PhoneIcon contact_label ClickContact].

(** A click on an entry: its handler, then the navigation to
    [entry_to], which changes nothing in the context. *)
Definition click_entry (a : entry_click) (h : header) (w : world) : header * world :=
  match a with
  | ClickHome => clickLogo h w
  | ClickCategory c => clickCategory c h w
  | ClickContact => ({| h with isMenuOpen := false |}, w)
  end.

(** What the header renders: the logo's link, the value of both search
    inputs, the cart link with its badge, and the menu. *)
Record view := mkView {
  logo_to : string;
  search_value : string;
  cart_to : string;
  badge : option Z;
  entries : list entry
}.

Definition render (h : header) (w : world) : view :=
  mkView "/" (searchInput h) "/cart" (cart_badge w) (menu_entries (app w)).

End HeaderMenu.

(** ** Properties *)

Module WidgetProperties.

Import FilterSort HeaderMenu HomePage Properties.

(** The home page's filter panel gets [undefined] for both callbacks. *)
Lemma home_props_callbacks lc s :
  onFilterChange (home_props lc s) = None /\ onSortChange (home_props lc s) = None.
Proof. split; reflexivity. Qed.

Lemma route_root : Routes.route "/" = Routes.PageHome.
Proof. reflexivity. Qed.

(** A category entry of the menu links to [/] and names a category of
    the context. *)
Lemma menu_category_entry s e c :
  In e (menu_entries s) -> entry_action e = ClickCategory c ->
  entry_to e = "/"%string /\ In c (categories s).
Proof.
  unfold menu_entries. intros Hin Ha. destruct Hin as [<-|Hin]; [discriminate|].
  apply in_app_iff in Hin as [Hin|[<-|[]]]; [|discriminate].
  apply in_map_iff in Hin as (c' & <- & Hc). injection Ha as ->. auto.
Qed.

(** What the home page lists once a category is chosen and the search
    cleared, with the initial filters and sort order. *)
Lemma category_listing lc s c :
  filters_s s = no_filters -> sortBy s = "name"%string -> js_truthy c = true ->
  productsAfterFilter lc (set_searchQuery "" (set_currentCategory (Some c) s)) =
  sort_by (fun a b => lc (name a) (name b)) (List.filter (fun p => String.eqb (category p) c) (products s)).
Proof.
  intros Hf Hs Hc. unfold productsAfterFilter, filtering, getFilteredProducts, run_filters.
  cbn [currentCategory searchQuery filters_s sortBy products set_searchQuery set_currentCategory].
  rewrite Hf, Hs. change (js_truthy (Some c)) with (js_truthy c). rewrite Hc. reflexivity.
Qed.

(** ** Theorems *)

(** C20: no choice made in the home page's filter panel reaches the
    context: the panel receives [undefined] for [onFilterChange] and
    [onSortChange], so a change of a filter or of the sort order updates
    the panel's own copy and throws a [TypeError], leaving the world as
    it was; [Clear all] clears the panel's filters and throws before it
    resets the panel's sort order. *)
Theorem home_panel_throws lc s k v pn w :
  let pr := home_props lc s in
  handleFilterChange k pr pn w =
    ({| pn with pn_filters := with_key k (pn_filters pn) |}, w, Some (type_error "onFilterChange")) /\
  handleSortChange v pr pn w = ({| pn with pn_sortBy := v |}, w, Some (type_error "onSortChange")) /\
  clearFilters pr pn w =
    ({| pn with pn_filters := no_filters |}, w, Some (type_error "onFilterChange")).
Proof.
  cbv zeta. destruct (home_props_callbacks lc s) as [Hf Hs].
  unfold handleFilterChange, handleSortChange, clearFilters, call_prop. rewrite Hf, Hs.
  repeat split.
Qed.

(** C34: a category entry of the header's menu, clicked in any reachable
    world, leads to the home page ([/]) listing exactly the products of
    that category, ordered by name, with the search cleared: the
    context's filters and sort order are still the initial ones. *)
Theorem menu_category_lists_category lc h w e c :
  reachable w -> In e (menu_entries (app w)) -> entry_action e = ClickCategory c ->
  js_truthy c = true ->
  let w' := snd (click_entry (entry_action e) h w) in
  Routes.route (entry_to e) = Routes.PageHome /\
  productsAfterFilter lc (app w') =
    sort_by (fun a b => lc (name a) (name b))
            (List.filter (fun p => String.eqb (category p) c) (products (app w))).
Proof.
  intros Hr Hin Ha Hc. cbv zeta. destruct (menu_category_entry _ _ _ Hin Ha) as [-> _].
  pose proof (reachable_panel_initial w Hr) as Hp. injection Hp as Hf Hs.
  split; [exact route_root|]. rewrite Ha. now apply category_listing.
Qed.

(** A product with an empty category cell is admitted ([csvToJson]
    tests only [id] and [name]) and [getCategories] keeps the empty
    name, unlike the hook's [filter(Boolean)]: the menu then has an
    entry with an empty label, and choosing it sets the category to the
    falsy [''], so the home page lists the whole catalogue. *)
Theorem menu_empty_category_lists_all lc h w :
  In ""%string (categories (app w)) ->
  exists e, In e (menu_entries (app w)) /\ entry_label e = ""%string /\
    productsAfterFilter lc (app (snd (click_entry (entry_action e) h w))) = products (app w).
Proof.
  intros Hin. exists (mkEntry "/" (icon_of "") "" (ClickCategory "")).
  split; [|split; reflexivity].
  unfold menu_entries. right. apply in_app_iff. left.
  apply (in_map (fun c => mkEntry "/" (icon_of c) c (ClickCategory c))), Hin.
Qed.

(** ** Witnesses *)

Definition headphones : string := "سماعات".

Lemma menu_category_lists_category_witness :
  let w := mount (env_at 0 SheetsService.NetFail SheetsService.zero_random)
                 (env_at 1 SheetsService.NetFail SheetsService.zero_random) first_visit in
  let e := mkEntry "/" (icon_of headphones) headphones (ClickCategory headphones) in
  reachable w /\ In e (menu_entries (app w)) /\ js_truthy headphones = true /\
  productsAfterFilter ProductFilter.codepoint_compare
    (app (snd (click_entry (entry_action e) HeaderView.init w))) =
  sort_by (fun a b => ProductFilter.codepoint_compare (name a) (name b))
          (List.filter (fun p => String.eqb (category p) headphones) (products (app w))).
Proof.
  cbv zeta. match goal with |- reachable ?w /\ In ?e ?l /\ _ =>
    assert (Hr : reachable w) by apply reach_mount;
    assert (Hin : In e l) by (vm_compute; right; left; reflexivity) end.
  split; [exact Hr|split; [exact Hin|split; [reflexivity|]]].
  exact (proj2 (menu_category_lists_category _ _ _ _ _ Hr Hin eq_refl eq_refl)).
Defined.

End WidgetProperties.
