(* ===== verification/Screens.v ===== *)
(** * Screens: what the pages render, and the application's layout

    [Module HomeScreen] is the [return] of [src/src/pages/HomePage.jsx]:
    the error screen, the landing sections (banner, category cards,
    featured slider, information) shown without a category or a search,
    the filter panel, the product grid and the pager's props.

    [Module PagerView] is [src/src/components/Pagination.jsx]: its
    controls (previous, one button per entry of [getPageRange()], next)
    with their [disabled] flags and the page each click passes to
    [onPageChange].

    [Module DetailScreen] is what [src/src/pages/ProductDetail.jsx]
    renders: the skeleton while loading, the not-found page, or the
    product with its breadcrumb, image (and its [imageError] fallback),
    badges, price, stock and quantity controls.

    [Module CartScreen] is what [src/src/pages/CartPage.jsx] renders:
    the empty page or the lines with their links and the order summary.

    [Module Layout] is [App] of [src/src/App.jsx]: the header, the page
    the path routes to, the install prompt's buttons
    ([src/src/components/InstallPrompt.jsx]) and the WhatsApp button.  A
    [Link]'s [to] is a path with an optional query string; React Router
    routes on its [pathname] ([Layout.pathname]).

    The sub-components' own state is passed in: the grid's page, the
    slider's list, the filter panel's state, the detail page's
    [quantity] and [imageError], the header's state and the install
    hook's state.  Class names, icons' styles and static text are not
    modelled.

    The theorems: the home page's pager renders the reference page list,
    each page once, the current one alone marked, the previous and next
    buttons disabled exactly at the ends; a cart line links to the
    product page of its id, which shows the product while it is in the
    catalogue; the detail page's category breadcrumb leads to [/]
    whatever the category, since the query string is not read. *)

From S2P Require Import Spec2Rocq Data JsString Cart Catalog Pagination Query App PWA Pages Routing Widgets.

Import AppContext Icons.

(** ** The home page *)

Module HomeScreen.

Import HomePage HomePageView.

(** The props of the home page's [<Pagination>]. *)
Record pager := mkPager {
  pg_currentPage : Z;
  pg_totalPages : Z;
  pg_hasNextPage : bool;
  pg_hasPrevPage : bool;
  pg_totalItems : Z;
  pg_startIndex : Z;
  pg_endIndex : Z;
  pg_range : list page_item
}.

Definition pager_props (lc : string -> string -> Z) (s : state) : pager :=
  mkPager (currentPage s) (HomePage.totalPages lc s) (hasNextPage lc s) (hasPrevPage s)
          (totalItems lc s) (startIndex s) (endIndex lc s)
          (Pagination.HomePage.getPageRange (currentPage s) (HomePage.totalPages lc s)).

(** The page below the header when the context holds no error. *)
Record main := mkMain {
  banner : bool;
  category_cards : list (string * icon);
  slider : option FeaturedSlider.view;
  filter_panel : option FilterSort.view;
  grid : ProductGrid.view;
  pager_shown : option pager;
  info_section : bool
}.

Inductive view :=
| HomeError (message : string)   (** with the retry button [onClick={refreshData}] *)
| HomeMain (m : main).

(** The sections in order: the banner, the category cards
    ([categories.map] with [categoryIcons[category] || Smartphone]) and
    the slider under [!currentCategory && !searchQuery]; the filter panel
    under [currentCategory || searchQuery || totalResults > 0]; the
    grid; the pager under [productsToShow.length > 0]; the information
    section.  The grid, the slider and the panel render from their own
    state [g], [featured] and [pn]. *)
Definition main_view (lc : string -> string -> Z) (s : state) (g : ProductGrid.grid)
    (featured : list Product) (pn : FilterSort.panel) : main :=
  let landing := showLanding s in
  mkMain landing
    (if landing then map (fun c => (c, icon_of c)) (categories s) else [])
    (if landing then Some (FeaturedSlider.render s featured) else None)
    (if showFilterSort lc s then Some (FilterSort.render (FilterSort.home_props lc s) pn) else None)
    (grid_view lc s g)
    (if showPagination lc s then Some (pager_props lc s) else None)
    landing.

(** [if (error) return <error screen/>], before any other test. *)
Definition render (lc : string -> string -> Z) (s : state) (g : ProductGrid.grid)
    (featured : list Product) (pn : FilterSort.panel) : view :=
  if js_truthy (error s) then HomeError (error s ?? "")%js else HomeMain (main_view lc s g featured pn).

(** The retry button of the error screen. *)
Definition retry (e1 e2 : SheetsService.env) (w : world) : world := refreshData e1 e2 w.

End HomeScreen.

(** ** The pager *)

Module PagerView.

Import HomeScreen.

(** The controls of [Pagination.jsx]: the previous button, one button
    per page of the range (marked when it is the current page) or an
    ellipsis, and the next button. *)
Inductive button :=
| PrevButton (disabled : bool)
| PageButton (n : Z) (current : bool)
| DotsMark
| NextButton (disabled : bool).

Record view := mkView {
  range_label : Z * Z * Z;   (** [عرض {startIndex} إلى {endIndex} من أصل {totalItems} منتج] *)
  buttons : list button;
  page_label : Z * Z         (** [صفحة {currentPage} من {totalPages}] *)
}.

(** [pageRange.map((page, index) => ...)]: [currentPage === page]. *)
Definition page_button (currentPage : Z) (it : page_item) : button :=
  match it with
  | PageNum n => PageButton n (currentPage =? n)
  | Dots => DotsMark
  end.

(** [if (totalPages <= 1) return null], then [getPageRange()] and the
    controls, [disabled={!hasPrevPage}] and [disabled={!hasNextPage}]. *)
Definition render (pg : pager) : option view :=
  if pg_totalPages pg <=? 1 then None
  else Some (mkView (pg_startIndex pg, pg_endIndex pg, pg_totalItems pg)
                    (PrevButton (negb (pg_hasPrevPage pg)) ::
                     map (page_button (pg_currentPage pg)) (pg_range pg) ++
                     [NextButton (negb (pg_hasNextPage pg))])
                    (pg_currentPage pg, pg_totalPages pg)).

(** The page a click on an enabled control passes to [onPageChange]. *)
Definition click (pg : pager) (b : button) : option Z :=
  match b with
  | PrevButton false => Some (pg_currentPage pg - 1)
  | PageButton n _ => Some n
  | NextButton false => Some (pg_currentPage pg + 1)
  | _ => None
  end.

(** The page numbers of the buttons, and those marked current. *)
Definition page_numbers (bs : list button) : list Z :=
  flat_map (fun b => match b with PageButton n _ => [n] | _ => [] end) bs.

Definition current_pages (bs : list button) : list Z :=
  flat_map (fun b => match b with PageButton n true => [n] | _ => [] end) bs.

End PagerView.

(** ** The detail page *)

Module DetailScreen.

Import ProductDetailPage.

Definition placeholder_image : string := "https://via.placeholder.com/600x600?text=صورة+غير+متوفرة".

(** [handleImageError]: [setImageError(true)]. *)
Definition handleImageError (imageError : bool) : bool := true.

(** The quantity controls: the value, the two [disabled] flags and the
    add button's amount. *)
Record controls := mkControls {
  ctl_quantity : Z;
  ctl_minus_disabled : bool;
  ctl_plus_disabled : bool;
  ctl_amount : string
}.

Record body := mkBody {
  crumb_home : string;
  crumb_category_to : string;
  crumb_category : string;
  crumb_name : string;
  image_src : string;
  title : string;
  subtitle : string;
  featured_badge : bool;
  limited_badge : bool;
  price_label : string;
  description_text : string;
  in_stock_style : bool;
  stock_label : string;
  quantity_controls : option controls;
  out_of_stock_box : bool
}.

Inductive view :=
| DetailSkeleton
| DetailNotFound   (** with the button [navigate('/')] *)
| DetailShown (b : body).

Definition out_of_stock_label : string := "نفد المخزون".

(** [product.stock > 0 ? `${product.stock} قطعة` : 'نفد المخزون'] *)
Definition stock_text (p : Product) : string :=
  if 0 <? stock p then js_int_string (stock p) ++ " قطعة" else out_of_stock_label.

Definition body_of (formatPrice : Z -> string) (quantity : Z) (imageError : bool) (p : Product) : body :=
  mkBody "/" ("/?category=" ++ category p) (category p) (name p)
         (if imageError then placeholder_image else image_url p)
         (name p) (category p) (featured p) (limited_stock_badge p)
         (formatPrice (price p)) (description p) (0 <? stock p) (stock_text p)
         (if controls_shown p
          then Some (mkControls quantity (minus_disabled quantity) (plus_disabled p quantity)
                                (formatPrice (add_button_amount p quantity)))
          else None)
         (out_of_stock_notice p).

(** [if (loading)], [if (!product)], then the product. *)
Definition render (formatPrice : Z -> string) (idstr : string) (quantity : Z) (imageError : bool)
    (s : state) : view :=
  if loading s then DetailSkeleton
  else match getProductById idstr s with
       | None => DetailNotFound
       | Some p => DetailShown (body_of formatPrice quantity imageError p)
       end.

End DetailScreen.

(** ** The cart page *)

Module CartScreen.

Definition placeholder_thumb : string := "https://via.placeholder.com/80x80?text=صورة".

(** A line: the link of its image and name, the image, the texts, the
    quantity and the subtotal. *)
Record line := mkLine {
  line_to : string;
  line_image : string;
  line_name : string;
  line_category : string;
  line_price : string;
  line_quantity : Z;
  line_subtotal : string
}.

Definition line_of (formatPrice : Z -> string) (it : CartItem) : line :=
  mkLine ("/product/" ++ js_int_string (ci_id it)) (ci_image_url it) (ci_name it) (ci_category it)
         (formatPrice (ci_price it)) (quantity it) (formatPrice (CartPageView.line_subtotal it)).

Inductive view :=
| CartEmptyPage                 (** with the link to [/] *)
| CartFullPage (count : Z) (lines : list line) (summary_count : Z) (total : string).

(** [if (cart.length === 0)], then the header's count, [cart.map(...)]
    and the summary. *)
Definition render (formatPrice : Z -> string) (w : world) : view :=
  match AppContext.cart (app w) with
  | [] => CartEmptyPage
  | c => CartFullPage (getCartItemsCount w) (map (line_of formatPrice) c) (getCartItemsCount w)
                      (formatPrice (getCartTotal w))
  end.

(** The thumbnail's [onError]: [e.target.src = placeholder]. *)
Definition thumb_error (l : line) : line := {| l with line_image := placeholder_thumb |}.

End CartScreen.

(** ** The layout *)

Module Layout.

Definition qmark : ascii := ascii_of_nat 63.
Definition hash : ascii := ascii_of_nat 35.

(** [parsePath(to).pathname]: [to] up to its first [#] or [?]. *)
Fixpoint pathname (s : string) : string :=
  match s with
  | EmptyString => EmptyString
  | String c r => if Ascii.eqb c qmark || Ascii.eqb c hash then EmptyString else String c (pathname r)
  end.

(** The page [<main>] holds. *)
Inductive main_view :=
| MainHome (v : HomeScreen.view)
| MainProduct (v : DetailScreen.view)
| MainCart (v : CartScreen.view)
| MainContact
| MainEmpty.

(** The state the mounted components keep of their own. *)
Record locals := mkLocals {
  header_state : HeaderView.header;
  grid_state : ProductGrid.grid;
  slider_state : list Product;
  filter_state : FilterSort.panel;
  detail_quantity : Z;
  detail_imageError : bool;
  pwa_state : UsePWA.pwa
}.

(** [InstallPrompt]: nothing, or its card with the install button
    ([onClick={installApp}]) and the dismiss button, as the events of
    the install hook they send. *)
Definition install_prompt_buttons (p : UsePWA.pwa) : list UsePWA.event :=
  if UsePWA.prompt_visible p then [UsePWA.InstallClick; UsePWA.DismissClick] else [].

(** The floating [WhatsAppButton]'s [onClick={handleClick}], with the
    number [App] passes. *)
Definition whatsapp_click (opened : list string) : list string :=
  WhatsAppButton.handleClick WhatsAppButton.store_phone opened.

Record view := mkView {
  header_v : HeaderMenu.view;
  main_v : main_view;
  install_prompt : list UsePWA.event;
  whatsapp_phone : string
}.

(** [<Header/>], [<main><Routes>...</Routes></main>], [<InstallPrompt/>]
    and [<WhatsAppButton phoneNumber="+9647707409507"/>] inside the
    provider and the router, at the location [path]. *)
Definition render (lc : string -> string -> Z) (formatPrice : Z -> string) (path : string)
    (l : locals) (w : world) : view :=
  mkView (HeaderMenu.render (header_state l) w)
    (match Routes.route path with
     | Routes.PageHome =>
         MainHome (HomeScreen.render lc (app w) (grid_state l) (slider_state l) (filter_state l))
     | Routes.PageProduct idstr =>
         MainProduct (DetailScreen.render formatPrice idstr (detail_quantity l) (detail_imageError l) (app w))
     | Routes.PageCart => MainCart (CartScreen.render formatPrice w)
     | Routes.PageContact => MainContact
     | Routes.PageNone => MainEmpty
     end)
    (install_prompt_buttons (pwa_state l))
    WhatsAppButton.store_phone.

End Layout.

(** ** Properties *)

Module ScreenProperties.

Import DetailScreen CartScreen Layout.

Lemma pathname_plain s :
  lacks qmark s = true -> lacks hash s = true -> pathname s = s.
Proof.
  induction s as [|c s IH]; [reflexivity|]. cbn [lacks pathname].
  intros H1 H2. apply andb_true_iff in H1 as [H1 H1']. apply andb_true_iff in H2 as [H2 H2'].
  apply negb_true_iff in H1, H2. rewrite H1, H2. simpl. now rewrite IH.
Qed.

Lemma pathname_product_path n :
  pathname ("/product/" ++ js_int_string n) = ("/product/" ++ js_int_string n)%string.
Proof.
  apply pathname_plain; cbn [lacks append]; simpl;
    apply lacks_int_string; (change (code qmark) with 63 || change (code hash) with 35); lia.
Qed.

(** The detail page's path of an id routes to it; [product_href] is
    that path for the product's own id. *)
Lemma route_product_path n :
  Routes.route ("/product/" ++ js_int_string n) = Routes.PageProduct (js_int_string n).
Proof. exact (RoutingProperties.route_product_href (mkProduct n "" "" 0 "" "" 0 false)). Qed.

Lemma find_all_false {A} (f : A -> bool) l :
  (forall x, In x l -> f x = false) -> List.find f l = None.
Proof.
  induction l as [|x l IH]; intros H; [reflexivity|]. simpl.
  rewrite (H x (or_introl eq_refl)). apply IH. intros y Hy. apply H. now right.
Qed.

(** The category breadcrumb of a product's page routes to [/]: the
    category is in the query string, which [HomePage] does not read. *)
Lemma breadcrumb_routes_home formatPrice q ie p :
  Routes.route (pathname (crumb_category_to (body_of formatPrice q ie p))) = Routes.PageHome.
Proof. reflexivity. Qed.

(** ** The pager's buttons *)

Section Pager.

Import PagerView.

Lemma zseq_nodup lo n : List.NoDup (zseq lo n).
Proof.
  revert lo. induction n as [|n IH]; intros lo; simpl; constructor; [|apply IH].
  rewrite in_zseq. lia.
Qed.

Lemma in_shown_pages cp tp n :
  In n (shown_pages cp tp) <-> 1 <= n <= tp /\ (n = 1 \/ n = tp \/ cp - 2 <= n <= cp + 2).
Proof.
  unfold shown_pages. rewrite List.filter_In, in_zrange, !orb_true_iff, andb_true_iff,
    !Z.eqb_eq, !Z.leb_le. intuition lia.
Qed.

Lemma numbers_with_dots_from cp p l : page_numbers (map (page_button cp) (with_dots_from p l)) = l.
Proof.
  revert p. induction l as [|x l IH]; intros p; [reflexivity|]. simpl.
  destruct (1 <? x - p); simpl; f_equal; apply IH.
Qed.

(** The page numbers of the rendered range are the pages it lists. *)
Lemma numbers_with_dots cp l : page_numbers (map (page_button cp) (with_dots l)) = l.
Proof. destruct l as [|x l]; [reflexivity|]. simpl. f_equal. apply numbers_with_dots_from. Qed.

Lemma current_numbers cp items :
  current_pages (map (page_button cp) items) =
  List.filter (Z.eqb cp) (page_numbers (map (page_button cp) items)).
Proof.
  induction items as [|[n|] items IH]; simpl; [reflexivity| |exact IH].
  destruct (cp =? n); simpl; now rewrite IH.
Qed.

Lemma filter_eq_single (x : Z) l : List.NoDup l -> In x l -> List.filter (Z.eqb x) l = [x].
Proof.
  induction l as [|y l IH]; intros Hnd Hin; [destruct Hin|].
  inversion Hnd as [|? ? Hy Hnd']; subst. simpl. destruct (Z.eqb_spec x y) as [->|Hne].
  - f_equal. apply filter_none. intros z Hz. apply Z.eqb_neq. intros ->. contradiction.
  - apply IH; [exact Hnd'|]. destruct Hin as [->|Hin]; [contradiction|exact Hin].
Qed.

Lemma negb_ltb_first cp : 1 <= cp -> negb (1 <? cp) = (cp =? 1).
Proof. intros H. zcmp. Qed.

Lemma negb_ltb_last cp tp : cp <= tp -> negb (cp <? tp) = (cp =? tp).
Proof. intros H. zcmp. Qed.

End Pager.

(** ** Theorems *)

(** C35: on any page from 1 to [totalPages], when there is more than
    one page, the home page's pager renders the reference page list
    ([page_range_spec]: page 1, the last page and the pages within two
    of the current one, with an ellipsis at each gap), so each page
    number appears once (its React [key]); exactly one button is marked
    current, the current page's; the previous button is disabled exactly
    on page 1 and the next button exactly on the last page. *)
Theorem home_pager_buttons lc s :
  let cp := currentPage s in
  let tp := HomePage.totalPages lc s in
  1 < tp -> 1 <= cp <= tp ->
  exists bs,
    PagerView.render (HomeScreen.pager_props lc s) =
      Some (PagerView.mkView (HomePageView.startIndex s, HomePageView.endIndex lc s,
                              HomePageView.totalItems lc s)
              (PagerView.PrevButton (cp =? 1) :: bs ++ [PagerView.NextButton (cp =? tp)]) (cp, tp)) /\
    bs = map (PagerView.page_button cp) (page_range_spec cp tp) /\
    List.NoDup (PagerView.page_numbers bs) /\
    (forall n, In n (PagerView.page_numbers bs) <->
               1 <= n <= tp /\ (n = 1 \/ n = tp \/ cp - 2 <= n <= cp + 2)) /\
    PagerView.current_pages bs = [cp].
Proof.
  cbv zeta. intros Htp Hcp.
  exists (map (PagerView.page_button (currentPage s))
              (page_range_spec (currentPage s) (HomePage.totalPages lc s))).
  split; [|split; [reflexivity|]].
  - unfold PagerView.render, HomeScreen.pager_props, HomePageView.hasPrevPage,
      HomePageView.hasNextPage.
    cbn [HomeScreen.pg_totalPages HomeScreen.pg_currentPage HomeScreen.pg_range
         HomeScreen.pg_hasPrevPage HomeScreen.pg_hasNextPage HomeScreen.pg_startIndex
         HomeScreen.pg_endIndex HomeScreen.pg_totalItems].
    replace (HomePage.totalPages lc s <=? 1) with false by (symmetry; apply Z.leb_gt; lia).
    rewrite homepage_range_spec, negb_ltb_first, negb_ltb_last by lia. reflexivity.
  - unfold page_range_spec. rewrite current_numbers, numbers_with_dots. split; [|split].
    + apply List.NoDup_filter, zseq_nodup.
    + intros n. apply in_shown_pages.
    + apply filter_eq_single; [apply List.NoDup_filter, zseq_nodup|]. apply in_shown_pages. lia.
Qed.

(** C28: each line of the cart page links, by its image and its name,
    to the detail page of the line's product id: while a product with
    that id is in the catalogue (ids unique), the page shows that product
    once loaded; when the catalogue no longer has it, the page shows
    "not found". *)
Theorem cart_line_opens_product formatPrice it q ie s :
  let idstr := js_int_string (ci_id it) in
  Routes.route (pathname (line_to (line_of formatPrice it))) = Routes.PageProduct idstr /\
  (forall p, In p (products s) -> List.NoDup (map id (products s)) -> id p = ci_id it ->
     DetailScreen.render formatPrice idstr q ie s =
       if loading s then DetailSkeleton else DetailShown (body_of formatPrice q ie p)) /\
  ((forall p, In p (products s) -> id p <> ci_id it) -> loading s = false ->
     DetailScreen.render formatPrice idstr q ie s = DetailNotFound).
Proof.
  cbv zeta. split; [|split].
  - unfold line_of. cbn [line_to]. rewrite pathname_product_path. apply route_product_path.
  - intros p Hin Hnd Hid. unfold DetailScreen.render. destruct (loading s); [reflexivity|].
    unfold getProductById. rewrite SheetsService.getProductById_int_string, <- Hid.
    now rewrite find_key_nodup.
  - intros Hno Hl. unfold DetailScreen.render. rewrite Hl. unfold getProductById.
    rewrite SheetsService.getProductById_int_string, find_all_false; [reflexivity|].
    intros p Hp. apply Z.eqb_neq, Hno, Hp.
Qed.

(** ** Witnesses *)

Definition line_item (n : Z) : CartItem := mkCartItem n "item" (1000 * n) "i.png" "audio" 2.

(** The sample catalogue of an offline first visit (150 products, three
    pages of 60), on page 2. *)
Definition sample_page_2 : state :=
  set_currentPage 2 (app (mount (Properties.env_at 0 SheetsService.NetFail SheetsService.zero_random)
                                (Properties.env_at 1 SheetsService.NetFail SheetsService.zero_random)
                                Properties.first_visit)).

Lemma home_pager_buttons_witness :
  let s := sample_page_2 in
  let tp := HomePage.totalPages ProductFilter.codepoint_compare s in
  1 < tp /\ 1 <= currentPage s <= tp /\
  exists bs, bs = map (PagerView.page_button (currentPage s)) (page_range_spec (currentPage s) tp) /\
             PagerView.current_pages bs = [currentPage s].
Proof.
  cbv zeta.
  assert (E : HomePage.totalPages ProductFilter.codepoint_compare sample_page_2 = 3)
    by (vm_compute; reflexivity).
  assert (H1 : 1 < HomePage.totalPages ProductFilter.codepoint_compare sample_page_2) by (rewrite E; lia).
  assert (H2 : 1 <= currentPage sample_page_2 <= HomePage.totalPages ProductFilter.codepoint_compare sample_page_2)
    by (rewrite E; cbn; lia).
  split; [exact H1|split; [exact H2|]].
  destruct (home_pager_buttons ProductFilter.codepoint_compare sample_page_2 H1 H2)
    as (bs & _ & Hbs & _ & _ & Hc).
  exists bs. split; [exact Hbs|exact Hc].
Defined.

Lemma cart_line_opens_product_witness :
  let s := app Properties.browsing in
  let p3 := mkProduct 3 "item" "audio" 3000 "d" "i.png" 3 false in
  (In p3 (products s) /\ List.NoDup (map id (products s)) /\ id p3 = ci_id (line_item 3) /\
   DetailScreen.render (fun _ => EmptyString) (js_int_string 3) 1 false s =
     DetailShown (body_of (fun _ => EmptyString) 1 false p3)) /\
  ((forall p, In p (products s) -> id p <> ci_id (line_item 99)) /\ loading s = false /\
   DetailScreen.render (fun _ => EmptyString) (js_int_string 99) 1 false s = DetailNotFound).
Proof.
  cbv zeta.
  assert (Hin : In (mkProduct 3 "item" "audio" 3000 "d" "i.png" 3 false) (products (app Properties.browsing)))
    by (vm_compute; right; right; left; reflexivity).
  assert (Hnd : List.NoDup (map id (products (app Properties.browsing))))
    by (vm_compute; repeat constructor; vm_compute; intuition discriminate).
  assert (Hno : forall p, In p (products (app Properties.browsing)) -> id p <> ci_id (line_item 99)).
  { intros p Hp. vm_compute in Hp. vm_compute. repeat destruct Hp as [<-|Hp]; try discriminate. destruct Hp. }
  pose proof (cart_line_opens_product (fun _ => EmptyString) (line_item 3) 1 false (app Properties.browsing))
    as [_ [H3 _]].
  pose proof (cart_line_opens_product (fun _ => EmptyString) (line_item 99) 1 false (app Properties.browsing))
    as [_ [_ H99]].
  split.
  - split; [exact Hin|split; [exact Hnd|split; [reflexivity|]]]. exact (H3 _ Hin Hnd eq_refl).
  - split; [exact Hno|split; [reflexivity|]]. exact (H99 Hno eq_refl).
Defined.

End ScreenProperties.
